(** * Ionia ingestion API: credential store, authorization gate,
      session tracker and event deduplicator.

    A shallow embedding of [app/auth.py] and [app/main.py].  Python
    dictionaries are finite maps ([gmap]), Python sets are [gset]s, the
    insertion-ordered token table that [_find_existing_bearer] scans is an
    association list, and Python [int]s are [Z].  Every handler is a function
    from the in-memory state to a response, the next state and the list of
    calls it made on the row store adapter. *)

From Stdlib Require Import ZArith String Ascii List Bool.
From Equations Require Import Equations.
From stdpp Require Import gmap strings list fin_maps pretty.

Local Open Scope string_scope.
Local Open Scope Z_scope.

(** ** Python built-ins used by the source *)

Module Py.

(** Truth value of a [str]: only the empty string is falsy. *)
Definition truthy (s : string) : bool :=
  match s with
  | EmptyString => false
  | String _ _ => true
  end.

(** Truth value of an [Optional[str]]: [None] and [""] are falsy. *)
Definition truthy_opt (o : option string) : bool :=
  match o with
  | None => false
  | Some s => truthy s
  end.

(** [x is None] *)
Definition is_none {A : Type} (o : option A) : bool :=
  match o with
  | None => true
  | Some _ => false
  end.

(** [s.startswith(p)] *)
Definition startswith (s p : string) : bool := String.prefix p s.

Fixpoint drop_chars (n : nat) (s : string) : string :=
  match n, s with
  | O, _ => s
  | S _, EmptyString => EmptyString
  | S n', String _ s' => drop_chars n' s'
  end.

(** [s.replace(old, new, 1)] for a non-empty [old]: the leftmost
    occurrence of [old] is replaced, the rest is kept. *)
Fixpoint replace_first (old new s : string) : string :=
  if String.prefix old s then new +:+ drop_chars (String.length old) s
  else match s with
       | EmptyString => EmptyString
       | String c s' => String c (replace_first old new s')
       end.

(** [c.isspace()] on a code point below 256 (header values are decoded
    as latin-1): tab to carriage return, the four separators 0x1c-0x1f,
    space, NEL and the no-break space. *)
Definition isspace (c : ascii) : bool :=
  let n := nat_of_ascii c in
  ((9 <=? n) && (n <=? 13))%nat || ((28 <=? n) && (n <=? 32))%nat
  || (n =? 133)%nat || (n =? 160)%nat.

Fixpoint lstrip (s : string) : string :=
  match s with
  | EmptyString => EmptyString
  | String c s' => if isspace c then lstrip s' else s
  end.

Fixpoint rstrip (s : string) : string :=
  match s with
  | EmptyString => EmptyString
  | String c s' =>
      match rstrip s' with
      | EmptyString => if isspace c then EmptyString else String c EmptyString
      | r => String c r
      end
  end.

(** [s.strip()] *)
Definition strip (s : string) : string := rstrip (lstrip s).

(** [s.lower()] on the ASCII letters; other code points are kept. *)
Definition lower_char (c : ascii) : ascii :=
  let n := nat_of_ascii c in
  if ((65 <=? n) && (n <=? 90))%nat then ascii_of_nat (n + 32) else c.

Fixpoint lower (s : string) : string :=
  match s with
  | EmptyString => EmptyString
  | String c s' => String (lower_char c) (lower s')
  end.

(** [sep.join(parts)] *)
Definition join (sep : string) (parts : list string) : string :=
  String.concat sep parts.

(** [str(n)] for an [int]. *)
Definition str (n : Z) : string := pretty n.

(** [s[:n]] *)
Definition take_chars (n : nat) (s : string) : string := String.substring 0 n s.

(** An insertion-ordered [dict]: [d.get(k)], [d[k] = v] and a scan of
    [d.items()] in order. *)
Section Dict.
Context {V : Type}.

Fixpoint dict_get (d : list (string * V)) (k : string) : option V :=
  match d with
  | [] => None
  | (k', v) :: d' => if String.eqb k' k then Some v else dict_get d' k
  end.

Fixpoint dict_set (d : list (string * V)) (k : string) (v : V) : list (string * V) :=
  match d with
  | [] => [(k, v)]
  | (k', v') :: d' =>
      if String.eqb k' k then (k', v) :: d' else (k', v') :: dict_set d' k v
  end.
End Dict.

End Py.

(** ** [app/models.py] and the JSON responses *)

Module models.

Module ActivationRequest.
Record t := mk { validation_key : string; machine_fingerprint : string; app_version : string }.
End ActivationRequest.

Module HeartbeatRequest.
Record t := mk { player_id : string; role : string; version : string }.
End HeartbeatRequest.

Module ChampSelectStartRequest.
Record t := mk {
  date : string;
  opposite_team : string;
  patch : string;
  tr : string;
  side : string;
}.
End ChampSelectStartRequest.

Module DraftCompleteRequest.
Record t := mk { game_id : string; draft : gmap string string }.
End DraftCompleteRequest.

Module GameStartRequest.
Record t := mk { game_id : string; positions : gmap string string }.
End GameStartRequest.

Module GameFinishedRequest.
Record t := mk { game_id : string; win : string }.
End GameFinishedRequest.

Inductive StreamRole := TOP | JUNGLE | MID | ADC | SUPPORT | GLOBAL.

Definition StreamRole_value (r : StreamRole) : string :=
  match r with
  | TOP => "TOP" | JUNGLE => "JUNGLE" | MID => "MID"
  | ADC => "ADC" | SUPPORT => "SUPPORT" | GLOBAL => "GLOBAL"
  end.

Inductive StreamPlatform := SERVER | YOUTUBE.

Definition StreamPlatform_value (p : StreamPlatform) : string :=
  match p with
  | SERVER => "server" | YOUTUBE => "youtube"
  end.

Module StreamReadyRequest.
Record t := mk {
  game_id : string;
  role : StreamRole;
  vod_url : string;
  platform : StreamPlatform;
  player_id : option string;
}.
End StreamReadyRequest.

(** What a request is answered with: one of the response models (status
    200), a [JSONResponse] carrying the error envelope, or an answer of
    the framework itself (no route, documentation page). *)
Inductive Response :=
| JSONError (status_code : Z) (error : string)
| GameSessionResponse (status : string) (message game_id : option string)
    (game_number : option Z)
| GameIdResponse (game_id : string)
| Ack (status : string)
| ActivationResponse (bearer team_id : string)
| FrameworkResponse.

Definition status_code_of (r : Response) : option Z :=
  match r with
  | JSONError c _ => Some c
  | FrameworkResponse => None
  | _ => Some 200
  end.

End models.

(** ** [app/auth.py] *)

Module auth.

Record AuthConfig := mkAuthConfig {
  validation_keys : gmap string string;
  api_keys : list (string * string);
  validation_key_expires : gmap string Z;
  revoked_keys : gset string;
  used_keys : gset string;
  admin_bearer : option string;
}.

(** The two mutations of a successful validation:
    [config.used_keys.add(key)] and [config.validation_keys.pop(key, None)]. *)
Definition consume_key (config : AuthConfig) (key : string) : AuthConfig :=
  {| validation_keys := delete key (validation_keys config);
     api_keys := api_keys config;
     validation_key_expires := validation_key_expires config;
     revoked_keys := revoked_keys config;
     used_keys := {[key]} ∪ used_keys config;
     admin_bearer := admin_bearer config |}.

(** [validate_activation_key(config, key)]; [now] is the clock value
    [int(datetime.now(timezone.utc).timestamp())] read on the expiry path.
    The result is the pair the source returns and the mutated config. *)
Definition validate_activation_key (now : Z) (config : AuthConfig) (key : string)
  : (option string * option string) * AuthConfig :=
  if decide (key ∈ used_keys config) then ((None, Some "validation key already used"), config)
  else if decide (key ∈ revoked_keys config) then ((None, Some "validation key revoked"), config)
  else
    let team_id := validation_keys config !! key in
    if negb (Py.truthy_opt team_id) then ((None, Some "invalid or expired validation key"), config)
    else
      let expires_at := validation_key_expires config !! key in
      if match expires_at with
         | Some e => now >=? e
         | None => false
         end
      then ((None, Some "validation key expired"), config)
      else ((team_id, None), consume_key config key).

(** [_find_existing_bearer]: first entry, in insertion order, mapped to
    the team. *)
Fixpoint _find_existing_bearer (api_keys : list (string * string)) (team_id : string)
  : option string :=
  match api_keys with
  | [] => None
  | (bearer, mapped_team) :: rest =>
      if String.eqb mapped_team team_id then Some bearer
      else _find_existing_bearer rest team_id
  end.

Definition set_api_keys (config : AuthConfig) (ks : list (string * string)) : AuthConfig :=
  {| validation_keys := validation_keys config;
     api_keys := ks;
     validation_key_expires := validation_key_expires config;
     revoked_keys := revoked_keys config;
     used_keys := used_keys config;
     admin_bearer := admin_bearer config |}.

(** [issue_bearer_for_team]; [uuid_hex] is [uuid.uuid4().hex]. *)
Definition issue_bearer_for_team (uuid_hex : string) (config : AuthConfig) (team_id : string)
  : string * AuthConfig :=
  let existing := _find_existing_bearer (api_keys config) team_id in
  if Py.truthy_opt existing then (default "" existing, config)
  else
    let bearer := Py.lower team_id +:+ "_" +:+ uuid_hex in
    (bearer, set_api_keys config (Py.dict_set (api_keys config) bearer team_id)).

Definition resolve_team_id (config : AuthConfig) (bearer : string) : option string :=
  Py.dict_get (api_keys config) bearer.

Definition is_admin_bearer (config : AuthConfig) (bearer : string) : bool :=
  if negb (Py.truthy_opt (admin_bearer config)) then false
  else bool_decide (Some bearer = admin_bearer config).

(** The attributes the middleware leaves on [request.state]. *)
Record RequestState := mkRequestState {
  team_id : option string;
  bearer : option string;
  is_admin : bool;
}.

Definition anonymous : RequestState :=
  {| team_id := None; bearer := None; is_admin := false |}.

(** What [BearerAuthMiddleware.dispatch] does with a request: answer it
    itself, or hand it to [call_next] with the request state it has set. *)
Inductive Gate :=
| Reject (r : models.Response)
| CallNext (st : RequestState).

(** [BearerAuthMiddleware.dispatch]; [auth_header] is
    [request.headers.get("Authorization")], absent as [None]. *)
Definition dispatch (config : AuthConfig) (public_paths : gset string)
    (path : string) (auth_header : option string) : Gate :=
  if bool_decide (path ∈ public_paths)
     || Py.startswith path "/docs"
     || Py.startswith path "/openapi"
     || Py.startswith path "/redoc"
  then CallNext anonymous
  else
    let auth_header := default "" auth_header in
    if negb (Py.startswith auth_header "Bearer ") then
      Reject (models.JSONError 401 "missing bearer token")
    else
      let bearer := Py.strip (Py.replace_first "Bearer " "" auth_header) in
      if negb (Py.truthy bearer) then
        Reject (models.JSONError 401 "missing bearer token")
      else if Py.startswith path "/admin/" then
        if negb (Py.truthy_opt (admin_bearer config)) then
          Reject (models.JSONError 503 "admin bearer not configured")
        else if negb (is_admin_bearer config bearer) then
          Reject (models.JSONError 401 "invalid admin bearer")
        else CallNext {| team_id := None; bearer := None; is_admin := true |}
      else
        let team_id := resolve_team_id config bearer in
        if negb (Py.truthy_opt team_id) then
          Reject (models.JSONError 401 "invalid bearer token")
        else CallNext {| team_id := team_id; bearer := Some bearer; is_admin := false |}.

(** [require_team_id]: the team attached by the middleware, or [None]
    where the source raises [HTTPException(401, "unauthorized")]. *)
Definition require_team_id (st : RequestState) : option string :=
  if negb (Py.truthy_opt (team_id st)) then None else team_id st.

End auth.

(** ** [app/main.py] *)

Module main.
Import models.

Definition GAMES_COLUMNS : list string :=
  [ "game_id"; "date"; "opposite_team"; "game_number"; "patch"; "tr"; "side"; "win";
    "BB1"; "BB2"; "BB3"; "BP1"; "BP2"; "BP3"; "BB4"; "BB5"; "BP4"; "BP5";
    "RB1"; "RB2"; "RB3"; "RP1"; "RP2"; "RP3"; "RB4"; "RB5"; "RP4"; "RP5";
    "BT"; "BJ"; "BM"; "BA"; "BS"; "RT"; "RJ"; "RM"; "RA"; "RS" ].

Definition GAME_COLUMNS_SET : gset string := list_to_set GAMES_COLUMNS.

Definition POSITION_COLUMNS : gset string :=
  list_to_set [ "BT"; "BJ"; "BM"; "BA"; "BS"; "RT"; "RJ"; "RM"; "RA"; "RS" ].

Module DraftCache.
Record t := mk {
  game_id : string;
  draft_count : Z;
  row_index : option Z;
  row_data : gmap string string;
  game_number : Z;
  date : string;
}.

(** Assignments to the attributes the handlers mutate in place. *)
Definition set_row_data (c : t) (rd : gmap string string) : t :=
  mk (game_id c) (draft_count c) (row_index c) rd (game_number c) (date c).
Definition set_row_index (c : t) (ri : option Z) : t :=
  mk (game_id c) (draft_count c) ri (row_data c) (game_number c) (date c).
Definition set_draft_count (c : t) (n : Z) : t :=
  mk (game_id c) n (row_index c) (row_data c) (game_number c) (date c).
End DraftCache.

(** The module-level tables: [auth_config], [draft_cache], [game_counters]
    and [event_dedupe]. *)
Record AppState := mkAppState {
  auth_config : auth.AuthConfig;
  draft_cache : gmap string DraftCache.t;
  game_counters : gmap string (gmap string Z);
  event_dedupe : gset string;
}.

Definition set_auth_config (s : AppState) (c : auth.AuthConfig) : AppState :=
  mkAppState c (draft_cache s) (game_counters s) (event_dedupe s).
Definition set_draft_cache (s : AppState) (d : gmap string DraftCache.t) : AppState :=
  mkAppState (auth_config s) d (game_counters s) (event_dedupe s).
Definition set_game_counters (s : AppState) (g : gmap string (gmap string Z)) : AppState :=
  mkAppState (auth_config s) (draft_cache s) g (event_dedupe s).
Definition set_event_dedupe (s : AppState) (e : gset string) : AppState :=
  mkAppState (auth_config s) (draft_cache s) (game_counters s) e.

(** A write through the cache object of a team: the object lives in
    [draft_cache], so the table sees every attribute assignment at once. *)
Definition store_cache (s : AppState) (team_id : string) (c : DraftCache.t) : AppState :=
  set_draft_cache s (<[team_id := c]> (draft_cache s)).

(** The dict that [stream_ready] hands to [append_stream_event]. *)
Record StreamPayload := mkStreamPayload {
  sp_game_id : string;
  sp_role : string;
  sp_vod_url : string;
  sp_platform : string;
  sp_player_id : option string;
}.

(** The row store adapter as the handlers see it during one request:
    the [enabled] flag as it reads after the request's first adapter call,
    and what each adapter method answers. *)
Record SheetsWriter := mkSheetsWriter {
  enabled : bool;
  append_game_row : list string -> option Z;
  update_game_row : Z -> list string -> bool;
  append_stream_event : string -> string -> StreamPayload -> option Z;
  append_activation_row :
    string -> string -> string -> bool -> string -> string -> string -> option Z;
  append_dedupe_row : string -> string -> option Z;
}.

(** The adapter calls a handler makes, in order. *)
Inductive StoreCall :=
| AppendGameRow (row : list string)
| UpdateGameRow (row_index : Z) (row : list string)
| AppendStreamEvent (team_id event_type : string) (payload : StreamPayload)
| AppendActivationRow (api_key team_id label : string) (active : bool)
    (created_at revoked_at validation_key : string)
| AppendDedupeRow (dedupe_key created_at : string).

(** What one request reads from the clock and the random source:
    the epoch seconds, [isoformat()] and [strftime("%Y%m%d_%H%M")] of
    [datetime.now(timezone.utc)], and [uuid4().hex]. *)
Record Env := mkEnv {
  now_epoch : Z;
  now_iso : string;
  now_stamp : string;
  uuid_hex : string;
}.

Record Outcome := mkOutcome {
  response : Response;
  state : AppState;
  calls : list StoreCall;
}.

Definition _error (status_code : Z) (message : string) : Response :=
  JSONError status_code message.

Definition _generate_game_id (env : Env) : string :=
  "g_" +:+ now_stamp env +:+ "_" +:+ Py.take_chars 4 (uuid_hex env).

Definition _draft_richness (draft : gmap string string) : Z :=
  Z.of_nat (length (filter (λ value, Py.truthy value = true) (map_to_list draft).*2)).

(** [_get_game_counter]: the number drawn and the updated table. *)
Definition _get_game_counter (counters : gmap string (gmap string Z)) (team_id date : string)
  : Z * gmap string (gmap string Z) :=
  let team_counters := default ∅ (counters !! team_id) in
  let n := default 0 (team_counters !! date) + 1 in
  (n, <[team_id := <[date := n]> team_counters]> counters).

Definition _build_row (row_data : gmap string string) : list string :=
  (λ column, default "" (row_data !! column)) <$> GAMES_COLUMNS.

(** [_update_row_data]: the loop over [updates.items()]. *)
Definition _update_row_data (row_data updates : gmap string string) : gmap string string :=
  map_fold (λ key value acc,
              if decide (key ∈ GAME_COLUMNS_SET) then <[key := value]> acc else acc)
           row_data updates.

Definition _dedupe_key (parts : list string) : string := Py.join "|" parts.

Section Handlers.
Variable sheets_writer : SheetsWriter.
Variable env : Env.

(** [POST /activate] *)
Definition activate (s : AppState) (payload : ActivationRequest.t) : Outcome :=
  let key := ActivationRequest.validation_key payload in
  let '((team_id, error_message), config1) :=
    auth.validate_activation_key (now_epoch env) (auth_config s) key in
  let s1 := set_auth_config s config1 in
  match team_id with
  | None =>
      let message :=
        if Py.truthy_opt error_message then default "" error_message
        else "invalid or expired validation key" in
      mkOutcome (_error 400 message) s1 []
  | Some team_id =>
      if negb (Py.truthy team_id) then
        let message :=
          if Py.truthy_opt error_message then default "" error_message
          else "invalid or expired validation key" in
        mkOutcome (_error 400 message) s1 []
      else
        let '(bearer, config2) := auth.issue_bearer_for_team (uuid_hex env) config1 team_id in
        let s2 := set_auth_config s config2 in
        let activation_row :=
          append_activation_row sheets_writer
            bearer team_id "activation" true (now_iso env) "" key in
        let log := [AppendActivationRow bearer team_id "activation" true (now_iso env) "" key] in
        if enabled sheets_writer && Py.is_none activation_row then
          mkOutcome (_error 502 "failed to write activation to sheets") s2 log
        else mkOutcome (ActivationResponse bearer team_id) s2 log
  end.

(** [POST /client/heartbeat] *)
Definition client_heartbeat (s : AppState) (team_id : string) (payload : HeartbeatRequest.t)
  : Outcome :=
  match draft_cache s !! team_id with
  | None => mkOutcome (GameSessionResponse "ok" (Some "no ongoing game") None None) s []
  | Some cache =>
      mkOutcome
        (GameSessionResponse "ok" None
           (Some (DraftCache.game_id cache)) (Some (DraftCache.game_number cache)))
        s []
  end.

(** [POST /events/champ_select_start] *)
Definition champ_select_start (s : AppState) (team_id : string)
    (payload : ChampSelectStartRequest.t) : Outcome :=
  match draft_cache s !! team_id with
  | Some cache =>
      mkOutcome
        (GameSessionResponse "ok" (Some "game already active")
           (Some (DraftCache.game_id cache)) (Some (DraftCache.game_number cache)))
        s []
  | None =>
      let game_id := _generate_game_id env in
      let '(game_number, counters) :=
        _get_game_counter (game_counters s) team_id (ChampSelectStartRequest.date payload) in
      let s1 := set_game_counters s counters in
      let row_data : gmap string string :=
        list_to_map
          [ ("game_id", game_id);
            ("date", ChampSelectStartRequest.date payload);
            ("opposite_team", ChampSelectStartRequest.opposite_team payload);
            ("game_number", Py.str game_number);
            ("patch", ChampSelectStartRequest.patch payload);
            ("tr", ChampSelectStartRequest.tr payload);
            ("side", ChampSelectStartRequest.side payload) ] in
      let row := _build_row row_data in
      let row_index := append_game_row sheets_writer row in
      if enabled sheets_writer && Py.is_none row_index then
        mkOutcome (_error 502 "failed to write game row to sheets") s1 [AppendGameRow row]
      else
        let cache :=
          DraftCache.mk game_id 0 row_index row_data game_number
            (ChampSelectStartRequest.date payload) in
        mkOutcome (GameSessionResponse "ok" None (Some game_id) (Some game_number))
          (store_cache s1 team_id cache) [AppendGameRow row]
  end.

(** [POST /events/draft_complete] *)
Definition draft_complete (s : AppState) (team_id : string) (payload : DraftCompleteRequest.t)
  : Outcome :=
  match draft_cache s !! team_id with
  | None => mkOutcome (_error 400 "no active game for team") s []
  | Some cache =>
      if negb (String.eqb (DraftCache.game_id cache) (DraftCompleteRequest.game_id payload))
      then mkOutcome (_error 400 "no active game for team") s []
      else
        let draft_count := _draft_richness (DraftCompleteRequest.draft payload) in
        if draft_count <=? DraftCache.draft_count cache then
          mkOutcome (GameIdResponse (DraftCache.game_id cache)) s []
        else
          let cache1 :=
            DraftCache.set_row_data cache
              (_update_row_data (DraftCache.row_data cache) (DraftCompleteRequest.draft payload)) in
          let row := _build_row (DraftCache.row_data cache1) in
          match DraftCache.row_index cache1 with
          | Some row_index =>
              let updated := update_game_row sheets_writer row_index row in
              if enabled sheets_writer && negb updated then
                mkOutcome (_error 502 "failed to update game row in sheets")
                  (store_cache s team_id cache1) [UpdateGameRow row_index row]
              else
                mkOutcome (GameIdResponse (DraftCache.game_id cache1))
                  (store_cache s team_id (DraftCache.set_draft_count cache1 draft_count))
                  [UpdateGameRow row_index row]
          | None =>
              let cache2 := DraftCache.set_row_index cache1 (append_game_row sheets_writer row) in
              if enabled sheets_writer && Py.is_none (DraftCache.row_index cache2) then
                mkOutcome (_error 502 "failed to write game row to sheets")
                  (store_cache s team_id cache2) [AppendGameRow row]
              else
                mkOutcome (GameIdResponse (DraftCache.game_id cache2))
                  (store_cache s team_id (DraftCache.set_draft_count cache2 draft_count))
                  [AppendGameRow row]
          end
  end.

(** The tail shared by the deduplicated handlers:
    [event_dedupe.add(dedupe_key)], then the dedupe row when the adapter
    is enabled, then [Ack()]. *)
Definition mark_and_ack (s : AppState) (dedupe_key : string) (log : list StoreCall) : Outcome :=
  let s' := set_event_dedupe s ({[dedupe_key]} ∪ event_dedupe s) in
  if enabled sheets_writer then
    mkOutcome (Ack "ok") s' (log ++ [AppendDedupeRow dedupe_key (now_iso env)])
  else mkOutcome (Ack "ok") s' log.

(** [POST /events/game_start] *)
Definition game_start (s : AppState) (team_id : string) (payload : GameStartRequest.t)
  : Outcome :=
  match draft_cache s !! team_id with
  | None => mkOutcome (_error 400 "no active game for team") s []
  | Some cache =>
      if negb (String.eqb (DraftCache.game_id cache) (GameStartRequest.game_id payload))
      then mkOutcome (_error 400 "no active game for team") s []
      else
        let dedupe_key :=
          _dedupe_key [team_id; "game_start"; GameStartRequest.game_id payload] in
        if decide (dedupe_key ∈ event_dedupe s) then
          mkOutcome (_error 409 "duplicate event") s []
        else
          let positions : gmap string string :=
            filter (λ kv, kv.1 ∈ POSITION_COLUMNS) (GameStartRequest.positions payload) in
          let cache1 :=
            DraftCache.set_row_data cache
              (_update_row_data (DraftCache.row_data cache) positions) in
          let row := _build_row (DraftCache.row_data cache1) in
          match DraftCache.row_index cache1 with
          | Some row_index =>
              let updated := update_game_row sheets_writer row_index row in
              if enabled sheets_writer && negb updated then
                mkOutcome (_error 502 "failed to update game row in sheets")
                  (store_cache s team_id cache1) [UpdateGameRow row_index row]
              else
                mark_and_ack (store_cache s team_id cache1) dedupe_key
                  [UpdateGameRow row_index row]
          | None =>
              let cache2 := DraftCache.set_row_index cache1 (append_game_row sheets_writer row) in
              if enabled sheets_writer && Py.is_none (DraftCache.row_index cache2) then
                mkOutcome (_error 502 "failed to write game row to sheets")
                  (store_cache s team_id cache2) [AppendGameRow row]
              else
                mark_and_ack (store_cache s team_id cache2) dedupe_key [AppendGameRow row]
          end
  end.

(** [POST /events/game_finished] *)
Definition game_finished (s : AppState) (team_id : string) (payload : GameFinishedRequest.t)
  : Outcome :=
  match draft_cache s !! team_id with
  | None => mkOutcome (_error 400 "no active game for team") s []
  | Some cache =>
      if negb (String.eqb (DraftCache.game_id cache) (GameFinishedRequest.game_id payload))
      then mkOutcome (_error 400 "no active game for team") s []
      else
        let dedupe_key :=
          _dedupe_key [team_id; "game_finished"; GameFinishedRequest.game_id payload] in
        if decide (dedupe_key ∈ event_dedupe s) then
          mkOutcome (_error 409 "duplicate event") s []
        else
          let cache1 :=
            DraftCache.set_row_data cache
              (_update_row_data (DraftCache.row_data cache)
                 {[ "win" := GameFinishedRequest.win payload ]}) in
          let s1 := store_cache s team_id cache1 in
          let row := _build_row (DraftCache.row_data cache1) in
          let popped := set_draft_cache s1 (delete team_id (draft_cache s1)) in
          match DraftCache.row_index cache1 with
          | Some row_index =>
              let updated := update_game_row sheets_writer row_index row in
              if enabled sheets_writer && negb updated then
                mkOutcome (_error 502 "failed to update game row in sheets") s1
                  [UpdateGameRow row_index row]
              else mark_and_ack popped dedupe_key [UpdateGameRow row_index row]
          | None =>
              let row_index := append_game_row sheets_writer row in
              if enabled sheets_writer && Py.is_none row_index then
                mkOutcome (_error 502 "failed to write game row to sheets") s1
                  [AppendGameRow row]
              else mark_and_ack popped dedupe_key [AppendGameRow row]
          end
  end.

(** [POST /events/stream_ready] *)
Definition stream_ready (s : AppState) (team_id : string) (payload : StreamReadyRequest.t)
  : Outcome :=
  let dedupe_key :=
    _dedupe_key [team_id; "stream_ready"; StreamReadyRequest.game_id payload;
                 StreamRole_value (StreamReadyRequest.role payload)] in
  if decide (dedupe_key ∈ event_dedupe s) then
    mkOutcome (_error 409 "duplicate event") s []
  else
    let body :=
      {| sp_game_id := StreamReadyRequest.game_id payload;
         sp_role := StreamRole_value (StreamReadyRequest.role payload);
         sp_vod_url := StreamReadyRequest.vod_url payload;
         sp_platform := StreamPlatform_value (StreamReadyRequest.platform payload);
         sp_player_id := StreamReadyRequest.player_id payload |} in
    let row_index := append_stream_event sheets_writer team_id "stream_ready" body in
    let log := [AppendStreamEvent team_id "stream_ready" body] in
    if enabled sheets_writer && Py.is_none row_index then
      mkOutcome (_error 502 "failed to write stream row to sheets") s log
    else mark_and_ack s dedupe_key log.

End Handlers.

(** *** The application behind the middleware *)

(** A request after schema validation: one of the seven routes with its
    parsed body, or anything the framework answers by itself (unknown
    path, body rejected with 422, documentation pages). *)
Inductive Endpoint :=
| PostActivate (payload : ActivationRequest.t)
| PostHeartbeat (payload : HeartbeatRequest.t)
| PostChampSelectStart (payload : ChampSelectStartRequest.t)
| PostDraftComplete (payload : DraftCompleteRequest.t)
| PostGameStart (payload : GameStartRequest.t)
| PostGameFinished (payload : GameFinishedRequest.t)
| PostStreamReady (payload : StreamReadyRequest.t)
| Unrouted (path : string).

Definition path_of (e : Endpoint) : string :=
  match e with
  | PostActivate _ => "/activate"
  | PostHeartbeat _ => "/client/heartbeat"
  | PostChampSelectStart _ => "/events/champ_select_start"
  | PostDraftComplete _ => "/events/draft_complete"
  | PostGameStart _ => "/events/game_start"
  | PostGameFinished _ => "/events/game_finished"
  | PostStreamReady _ => "/events/stream_ready"
  | Unrouted path => path
  end.

Record HttpRequest := mkHttpRequest {
  endpoint : Endpoint;
  authorization : option string;
}.

(** [app.add_middleware(BearerAuthMiddleware, ..., public_paths={"/activate"})] *)
Definition public_paths : gset string := {[ "/activate" ]}.

(** [Depends(require_team_id)] in front of a handler; the raised
    [HTTPException] is rendered by [http_exception_handler]. *)
Definition with_team (rs : auth.RequestState) (s : AppState) (handler : string -> Outcome)
  : Outcome :=
  match auth.require_team_id rs with
  | None => mkOutcome (_error 401 "unauthorized") s []
  | Some team_id => handler team_id
  end.

Definition route (sw : SheetsWriter) (env : Env) (s : AppState) (rs : auth.RequestState)
    (e : Endpoint) : Outcome :=
  match e with
  | PostActivate p => activate sw env s p
  | PostHeartbeat p => with_team rs s (λ t, client_heartbeat s t p)
  | PostChampSelectStart p => with_team rs s (λ t, champ_select_start sw env s t p)
  | PostDraftComplete p => with_team rs s (λ t, draft_complete sw s t p)
  | PostGameStart p => with_team rs s (λ t, game_start sw env s t p)
  | PostGameFinished p => with_team rs s (λ t, game_finished sw env s t p)
  | PostStreamReady p => with_team rs s (λ t, stream_ready sw env s t p)
  | Unrouted _ => mkOutcome FrameworkResponse s []
  end.

(** One request through the middleware and, if it lets it pass, the route. *)
Definition app (sw : SheetsWriter) (env : Env) (s : AppState) (req : HttpRequest) : Outcome :=
  match auth.dispatch (auth_config s) public_paths (path_of (endpoint req))
          (authorization req) with
  | auth.Reject r => mkOutcome r s []
  | auth.CallNext rs => route sw env s rs (endpoint req)
  end.

(** A request together with what the adapter, the clock and the random
    source do while it is served. *)
Definition Event : Type := SheetsWriter * Env * HttpRequest.

Definition step (s : AppState) (ev : Event) : Outcome :=
  let '(sw, env, req) := ev in app sw env s req.

(** The state after serving a sequence of requests one by one. *)
Fixpoint run (s : AppState) (evs : list Event) : AppState :=
  match evs with
  | [] => s
  | ev :: evs' => run (state (step s ev)) evs'
  end.

(** The tables of a freshly started process with an empty store. *)
Definition initial (config : auth.AuthConfig) : AppState :=
  mkAppState config ∅ ∅ ∅.

(** The current value of the sequence counter of a team and date. *)
Definition counter_of (s : AppState) (team_id date : string) : Z :=
  default 0 (default ∅ (game_counters s !! team_id) !! date).

End main.

(** ** Sequences of activation attempts *)

Module activation.

(** The config after a sequence of [validate_activation_key] calls, each
    with its own clock value and key. *)
Fixpoint validate_all (config : auth.AuthConfig) (attempts : list (Z * string))
  : auth.AuthConfig :=
  match attempts with
  | [] => config
  | (now, key) :: rest =>
      validate_all (snd (auth.validate_activation_key now config key)) rest
  end.

(** How many attempts of the sequence made with [key] returned a team. *)
Fixpoint successes (key : string) (config : auth.AuthConfig) (attempts : list (Z * string))
  : nat :=
  match attempts with
  | [] => O
  | (now, k) :: rest =>
      let '((team_id, _), config') := auth.validate_activation_key now config k in
      ((if bool_decide (k = key) && Py.truthy_opt team_id then 1 else 0)
       + successes key config' rest)%nat
  end.

End activation.

(** ** Views on requests used to state the properties *)

Module tracker.
Import models main.

(** The three events guarded by the dedupe set, with their payloads. *)
Inductive GuardedEvent :=
| GameStart (payload : GameStartRequest.t)
| GameFinished (payload : GameFinishedRequest.t)
| StreamReady (payload : StreamReadyRequest.t).

(** The composite key the handler of the event builds. *)
Definition key_of (team_id : string) (ev : GuardedEvent) : string :=
  match ev with
  | GameStart p => _dedupe_key [team_id; "game_start"; GameStartRequest.game_id p]
  | GameFinished p => _dedupe_key [team_id; "game_finished"; GameFinishedRequest.game_id p]
  | StreamReady p =>
      _dedupe_key [team_id; "stream_ready"; StreamReadyRequest.game_id p;
                   StreamRole_value (StreamReadyRequest.role p)]
  end.

(** The handler of the event. *)
Definition submit (sw : SheetsWriter) (env : Env) (s : AppState) (team_id : string)
    (ev : GuardedEvent) : Outcome :=
  match ev with
  | GameStart p => game_start sw env s team_id p
  | GameFinished p => game_finished sw env s team_id p
  | StreamReady p => stream_ready sw env s team_id p
  end.

(** Whether the team has a session for this game id. *)
Definition session_matches (s : AppState) (team_id game_id : string) : bool :=
  match draft_cache s !! team_id with
  | Some cache => String.eqb (DraftCache.game_id cache) game_id
  | None => false
  end.

(** Whether the submission gets past the session check and so reaches the
    dedupe check: [stream_ready] has no session check. *)
Definition reaches_dedupe (s : AppState) (team_id : string) (ev : GuardedEvent) : bool :=
  match ev with
  | GameStart p => session_matches s team_id (GameStartRequest.game_id p)
  | GameFinished p => session_matches s team_id (GameFinishedRequest.game_id p)
  | StreamReady _ => true
  end.




(** A path behind the gate that is neither public, nor documentation, nor
    in the admin namespace. *)
Definition team_scoped (path : string) : bool :=
  negb (bool_decide (path ∈ public_paths)
        || Py.startswith path "/docs"
        || Py.startswith path "/openapi"
        || Py.startswith path "/redoc")
  && negb (Py.startswith path "/admin/").

End tracker.

(** ** Concrete tables used to run the model *)

Module sample.
Import models main.

(** The key of the test fixture, here with an expiry at second 100. *)
Definition config_expiring : auth.AuthConfig :=
  auth.mkAuthConfig {[ "IONIA-TEST-KEY" := "KC" ]} [] {[ "IONIA-TEST-KEY" := 100 ]} ∅ ∅ None.

(** A config in which team KC holds the bearer [tok]. *)
Definition config_active : auth.AuthConfig :=
  auth.mkAuthConfig ∅ [("tok", "KC")] ∅ ∅ ∅ None.

(** An adapter without a backing store. *)
Definition writer_off : SheetsWriter :=
  mkSheetsWriter false (λ _, None) (λ _ _, false) (λ _ _ _, None)
    (λ _ _ _ _ _ _ _, None) (λ _ _, None).

(** An enabled adapter whose writes all fail. *)
Definition writer_failing : SheetsWriter :=
  mkSheetsWriter true (λ _, None) (λ _ _, false) (λ _ _ _, None)
    (λ _ _ _ _ _ _ _, None) (λ _ _, None).

(** An enabled adapter whose writes all succeed. *)
Definition writer_ok : SheetsWriter :=
  mkSheetsWriter true (λ _, Some 5) (λ _ _, true) (λ _ _ _, Some 9)
    (λ _ _ _ _ _ _ _, Some 2) (λ _ _, Some 3).

Definition env0 : Env :=
  mkEnv 1767744000 "2026-01-07T00:00:00+00:00" "20260107_0000" "abcdef0123456789".

(** The session of the write-failure test: game [g_test], row 1. *)
Definition session_kc : DraftCache.t :=
  DraftCache.mk "g_test" 0 (Some 1)
    (list_to_map [("game_id", "g_test"); ("date", "2026-01-07"); ("game_number", "1")])
    1 "2026-01-07".

Definition state_idle : AppState := initial config_active.

Definition state_active : AppState :=
  mkAppState config_active {[ "KC" := session_kc ]} {[ "KC" := {[ "2026-01-07" := 1 ]} ]} ∅.

Definition start_payload : ChampSelectStartRequest.t :=
  ChampSelectStartRequest.mk "2026-01-07" "T1" "14.1" "TR1" "BLUE".

Definition draft_payload : DraftCompleteRequest.t :=
  DraftCompleteRequest.mk "g_test" {[ "BP1" := "Maokai" ]}.

Definition game_start_payload : GameStartRequest.t :=
  GameStartRequest.mk "g_test" {[ "BM" := "Azir" ]}.

Definition game_finished_payload : GameFinishedRequest.t :=
  GameFinishedRequest.mk "g_test" "W".

Definition stream_payload : StreamReadyRequest.t :=
  StreamReadyRequest.mk "g_elsewhere" MID "https://vod.example/1" YOUTUBE None.

Definition heartbeat_payload : HeartbeatRequest.t :=
  HeartbeatRequest.mk "p1" "MID" "1.0.0".

Definition as_kc (e : Endpoint) : HttpRequest := mkHttpRequest e (Some "Bearer tok").

End sample.

(** ** [app/sheets.py] *)

Module sheets.

(** [s.split(sep, 1)] when [sep] occurs in [s]: the text before the
    first occurrence and the text after it; [None] when it does not occur. *)
Fixpoint split_once (sep : ascii) (s : string) : option (string * string) :=
  match s with
  | EmptyString => None
  | String c s' =>
      if Ascii.eqb c sep then Some (EmptyString, s')
      else match split_once sep s' with
           | Some (before, after) => Some (String c before, after)
           | None => None
           end
  end.

(** [_extract_sheet_name] *)
Definition _extract_sheet_name (range_name : string) : string :=
  match split_once "!" range_name with
  | None => ""
  | Some (sheet_name, _) => sheet_name
  end.

(** The [while index:] loop of [_column_letter]; [letters] is the list
    being appended to, kept here in reverse (latest letter first).  The
    loop is entered with a positive index only, and the index stays
    non-negative. *)
Equations? column_loop (index : Z) (letters : list ascii) : list ascii
  by wf (Z.to_nat index) lt :=
  column_loop index letters with decide (0 < index) => {
    | left _ =>
        column_loop ((index - 1) `div` 26)
          (ascii_of_nat (Z.to_nat (65 + (index - 1) `mod` 26)) :: letters);
    | right _ => letters
  }.
Proof.
  assert ((index - 1) `div` 26 < index); [|lia].
  apply Z.div_lt_upper_bound; lia.
Defined.

(** [_column_letter]: ["".join(reversed(letters))] of the loop's result. *)
Definition _column_letter (index : Z) : string :=
  if index <=? 0 then "A"
  else string_of_list_ascii (column_loop index []).

(** The number a column name stands for, read as a bijective base-26
    numeral ([A] is 1, [Z] is 26, [AA] is 27).  The source has no such
    function; it is the inverse against which [_column_letter] is stated. *)
Definition column_digits (acc : Z) (letters : list ascii) : Z :=
  fold_left (λ acc c, acc * 26 + (Z.of_nat (nat_of_ascii c) - 64)) letters acc.

Definition column_number (name : string) : Z :=
  column_digits 0 (list_ascii_of_string name).

Definition is_upper (c : ascii) : bool :=
  let n := nat_of_ascii c in ((65 <=? n) && (n <=? 90))%nat.

Definition is_digit (c : ascii) : bool :=
  let n := nat_of_ascii c in ((48 <=? n) && (n <=? 57))%nat.

(** The longest prefix of characters satisfying [p], and the rest. *)
Fixpoint span (p : ascii → bool) (s : string) : string * string :=
  match s with
  | EmptyString => (EmptyString, EmptyString)
  | String c s' =>
      if p c then let '(run, rest) := span p s' in (String c run, rest)
      else (EmptyString, s)
  end.

(** A match of [([A-Z]+)(\d+)] starting at the head of [s]: its second
    group.  Both groups are greedy, and a shorter first group is followed
    by a letter, so backtracking finds nothing else. *)
Definition match_here (s : string) : option string :=
  let '(letters, rest) := span is_upper s in
  if Py.truthy letters then
    let '(digits, _) := span is_digit rest in
    if Py.truthy digits then Some digits else None
  else None.

(** [re.search(r"([A-Z]+)(\d+)", s)]: the leftmost match, its group 2. *)
Fixpoint search (s : string) : option string :=
  match match_here s with
  | Some digits => Some digits
  | None =>
      match s with
      | EmptyString => None
      | String _ s' => search s'
      end
  end.

(** [int(digits)] for a string of ASCII digits, most significant first. *)
Fixpoint int_of_digits (acc : Z) (digits : string) : Z :=
  match digits with
  | EmptyString => acc
  | String c s' => int_of_digits (10 * acc + (Z.of_nat (nat_of_ascii c) - 48)) s'
  end.

(** [_extract_row_index] *)
Definition _extract_row_index (updated_range : string) : option Z :=
  match split_once "!" updated_range with
  | None => None
  | Some (_, cell_range) =>
      match search cell_range with
      | None => None
      | Some digits => Some (int_of_digits 0 digits)
      end
  end.

(** The range [_update_row] writes to:
    [f"{sheet_name}!A{row_index}:{end_column}{row_index}"] with
    [end_column = _column_letter(len(row))]. *)
Definition target_range (sheet_name : string) (row_index : Z) (row : list string) : string :=
  sheet_name +:+ "!A" +:+ Py.str row_index +:+ ":"
  +:+ _column_letter (Z.of_nat (length row)) +:+ Py.str row_index.

(** *** The client and the retry loops *)

(** The two attributes of the writer that change: [_enabled] and whether
    [_service] holds a client. *)
Record Writer := mkWriter {
  _enabled : bool;
  _service : bool;
}.

(** [bool(sheet_id and (credentials_json or credentials_file))] of the
    constructor. *)
Definition new_writer (sheet_id credentials_json credentials_file : string) : Writer :=
  mkWriter (Py.truthy sheet_id && (Py.truthy credentials_json || Py.truthy credentials_file))
           false.

(** [_get_service]; [init_ok] tells whether the imports and the client
    construction succeed when they are attempted.  The result is whether
    a client is returned. *)
Definition _get_service (init_ok : bool) (w : Writer) : bool * Writer :=
  if negb (_enabled w) then (false, w)
  else if _service w then (true, w)
  else if init_ok then (true, mkWriter (_enabled w) true)
  else (false, mkWriter false (_service w)).

(** One call of the remote API: it raises, or it returns; an append
    returns the [updatedRange] of its result ([""] when absent). *)
Inductive ApiResult :=
| Raises
| Returns (updated_range : string).

(** What a retry loop did: its result, the attempts it made and the
    pauses it took, in milliseconds. *)
Record Attempts (A : Type) := mkAttempts {
  result : A;
  api_calls : nat;
  sleeps : list Z;
}.
Arguments mkAttempts {A}.
Arguments result {A}.
Arguments api_calls {A}.
Arguments sleeps {A}.

(** [sleep(0.25 * (2**attempt))] when [attempt < 2]. *)
Definition backoff (attempt : nat) : list Z :=
  if (attempt <? 2)%nat then [250 * 2 ^ Z.of_nat attempt] else [].

(** The [for attempt in range(...)] loop of [_append_row]; [api attempt]
    is what the call of that attempt does. *)
Fixpoint append_loop (api : nat → ApiResult) (attempts : list nat) : Attempts (option Z) :=
  match attempts with
  | [] => mkAttempts None O []
  | attempt :: rest =>
      match api attempt with
      | Returns updated_range => mkAttempts (_extract_row_index updated_range) 1%nat []
      | Raises =>
          let later := append_loop api rest in
          mkAttempts (result later) (S (api_calls later)) (backoff attempt ++ sleeps later)
      end
  end.

(** [_append_row] *)
Definition _append_row (init_ok : bool) (api : nat → ApiResult) (w : Writer)
  : Attempts (option Z) * Writer :=
  let '(service, w') := _get_service init_ok w in
  if service then (append_loop api (seq 0 3), w')
  else (mkAttempts None O [], w').

(** The loop of [_update_row]. *)
Fixpoint update_loop (api : nat → ApiResult) (attempts : list nat) : Attempts bool :=
  match attempts with
  | [] => mkAttempts false O []
  | attempt :: rest =>
      match api attempt with
      | Returns _ => mkAttempts true 1%nat []
      | Raises =>
          let later := update_loop api rest in
          mkAttempts (result later) (S (api_calls later)) (backoff attempt ++ sleeps later)
      end
  end.

(** [_update_row]: the range it targets, when it gets that far, and what
    the loop did. *)
Definition _update_row (init_ok : bool) (api : nat → ApiResult) (w : Writer)
    (range_name : string) (row_index : Z) (row : list string)
  : (option string * Attempts bool) * Writer :=
  let '(service, w') := _get_service init_ok w in
  if negb service then ((None, mkAttempts false O []), w')
  else
    let sheet_name := _extract_sheet_name range_name in
    if negb (Py.truthy sheet_name) then ((None, mkAttempts false O []), w')
    else ((Some (target_range sheet_name row_index row), update_loop api (seq 0 3)), w').

(** *** Rows written and rows read back *)

(** The row [append_activation_row] appends; [str(active).lower()] is
    ["true"] or ["false"]. *)
Definition activation_row (api_key team_id label : string) (active : bool)
    (created_at revoked_at validation_key : string) : list string :=
  [ api_key; team_id; label; (if active then "true" else "false");
    created_at; revoked_at; validation_key ].

(** The row [append_dedupe_row] appends. *)
Definition dedupe_row (dedupe_key created_at : string) : list string :=
  [ dedupe_key; created_at ].

Module ActivationState.
Record t := mk {
  api_keys : list (string * string);
  used_keys : gset string;
  revoked_keys : gset string;
}.
End ActivationState.

Module ValidationKeyState.
Record t := mk {
  validation_keys : gmap string string;
  validation_key_expires : gmap string Z;
  revoked_keys : gset string;
}.
End ValidationKeyState.

(** [row[i] if len(row) > i else ""] *)
Definition cell (row : list string) (i : nat) : string := default "" (row !! i).

(** One turn of the loop of [load_activation_state]. *)
Definition load_activation_row (state : ActivationState.t) (row : list string)
  : ActivationState.t :=
  if (length row <? 2)%nat then state
  else
    let api_key := cell row 0 in
    let team_id := cell row 1 in
    let label := cell row 2 in
    let active :=
      match row !! 3%nat with
      | Some c => String.eqb (Py.lower c) "true"
      | None => true
      end in
    let revoked_at := cell row 5 in
    let validation_key := cell row 6 in
    let state1 :=
      if active && Py.truthy api_key && Py.truthy team_id
      then ActivationState.mk
             (Py.dict_set (ActivationState.api_keys state) api_key team_id)
             (ActivationState.used_keys state) (ActivationState.revoked_keys state)
      else state in
    let state2 :=
      if Py.truthy validation_key
      then ActivationState.mk (ActivationState.api_keys state1)
             ({[validation_key]} ∪ ActivationState.used_keys state1)
             (ActivationState.revoked_keys state1)
      else state1 in
    if String.eqb label "revoked" || Py.truthy revoked_at
    then ActivationState.mk (ActivationState.api_keys state2)
           (ActivationState.used_keys state2)
           ({[api_key]} ∪ ActivationState.revoked_keys state2)
    else state2.

(** [load_activation_state] on the rows [_get_rows] returned. *)
Definition load_activation_state (rows : list (list string)) : ActivationState.t :=
  foldl load_activation_row (ActivationState.mk [] ∅ ∅) rows.

Section ValidationKeys.
(** Python's [int(text)]: the number, or [None] where it raises
    [ValueError]. *)
Variable py_int : string → option Z.

(** One turn of the loop of [load_validation_keys]. *)
Definition load_validation_row (state : ValidationKeyState.t) (row : list string)
  : ValidationKeyState.t :=
  if (length row <? 2)%nat then state
  else
    let key := cell row 0 in
    let team_id := cell row 1 in
    if negb (Py.truthy key) || negb (Py.truthy team_id) then state
    else
      let keys := <[key := team_id]> (ValidationKeyState.validation_keys state) in
      let expires :=
        if (2 <? length row)%nat && Py.truthy (cell row 2) then
          match py_int (cell row 2) with
          | Some n => <[key := n]> (ValidationKeyState.validation_key_expires state)
          | None => ValidationKeyState.validation_key_expires state
          end
        else ValidationKeyState.validation_key_expires state in
      let revoked :=
        if (3 <? length row)%nat && String.eqb (Py.lower (cell row 3)) "true"
        then {[key]} ∪ ValidationKeyState.revoked_keys state
        else ValidationKeyState.revoked_keys state in
      ValidationKeyState.mk keys expires revoked.

(** [load_validation_keys] on the rows [_get_rows] returned. *)
Definition load_validation_keys (rows : list (list string)) : ValidationKeyState.t :=
  foldl load_validation_row (ValidationKeyState.mk ∅ ∅ ∅) rows.
End ValidationKeys.

(** [load_dedupe_keys] on the rows [_get_rows] returned. *)
Definition load_dedupe_keys (rows : list (list string)) : list string :=
  omap (λ row : list string, row !! 0%nat) rows.

End sheets.

(** ** The tables at start-up *)

Module boot.
Import main.

(** [d.update(items)] on an insertion-ordered dict. *)
Definition dict_update (d items : list (string * string)) : list (string * string) :=
  foldl (λ acc kv, Py.dict_set acc kv.1 kv.2) d items.

(** The start-up block of [main.py]: the tables once the module is
    loaded, from the config that [load_auth_config] produced, the
    [enabled] flag of the writer and the rows that the three reads
    returned. *)
Definition startup (py_int : string → option Z) (enabled : bool)
    (activation_rows validation_rows dedupe_rows : list (list string))
    (config : auth.AuthConfig) : AppState :=
  if enabled then
    let activation_state := sheets.load_activation_state activation_rows in
    let validation_state := sheets.load_validation_keys py_int validation_rows in
    let config' :=
      auth.mkAuthConfig
        (sheets.ValidationKeyState.validation_keys validation_state
         ∪ auth.validation_keys config)
        (dict_update (auth.api_keys config)
           (sheets.ActivationState.api_keys activation_state))
        (sheets.ValidationKeyState.validation_key_expires validation_state
         ∪ auth.validation_key_expires config)
        (sheets.ValidationKeyState.revoked_keys validation_state
         ∪ auth.revoked_keys config)
        (sheets.ActivationState.used_keys activation_state ∪ auth.used_keys config)
        (auth.admin_bearer config) in
    mkAppState config' ∅ ∅ (list_to_set (sheets.load_dedupe_keys dedupe_rows))
  else initial config.

End boot.

(** ** Composite keys *)

Module keys.

(** A text in which the character [sep] does not occur. *)
Definition free_of (sep : ascii) (part : string) : Prop :=
  ∀ a b : string, part ≠ a +:+ String sep b.

(** A part of a dedupe key that does not contain the separator. *)
Definition bar_free (part : string) : Prop := free_of "|" part.

(** The game id a guarded event is about. *)
Definition game_id_of (ev : tracker.GuardedEvent) : string :=
  match ev with
  | tracker.GameStart p => models.GameStartRequest.game_id p
  | tracker.GameFinished p => models.GameFinishedRequest.game_id p
  | tracker.StreamReady p => models.StreamReadyRequest.game_id p
  end.

End keys.

(** ** More concrete tables *)

Module fixtures.
Import models main.

(** The credential store of the test fixture. *)
Definition config_fixture : auth.AuthConfig :=
  auth.mkAuthConfig {[ "IONIA-TEST-KEY" := "KC" ]} [] ∅ ∅ ∅ None.

Definition activation_payload : ActivationRequest.t :=
  ActivationRequest.mk "IONIA-TEST-KEY" "win-test" "1.0.0".

(** A session without a row locator yet. *)
Definition session_unwritten : DraftCache.t :=
  DraftCache.mk "g_test" 0 None
    (list_to_map [("game_id", "g_test"); ("date", "2026-01-07"); ("game_number", "1")])
    1 "2026-01-07".

Definition state_unwritten : AppState :=
  mkAppState sample.config_active {[ "KC" := session_unwritten ]}
    {[ "KC" := {[ "2026-01-07" := 1 ]} ]} ∅.

(** Two teams with a token each; KC has the session of the test. *)
Definition config_two_teams : auth.AuthConfig :=
  auth.mkAuthConfig ∅ [("tok", "KC"); ("tok-t1", "T1")] ∅ ∅ ∅ None.

Definition state_two_teams : AppState :=
  mkAppState config_two_teams {[ "KC" := sample.session_kc ]}
    {[ "KC" := {[ "2026-01-07" := 1 ]} ]} ∅.

(** An API whose first two calls raise and whose third returns. *)
Definition flaky_api (attempt : nat) : sheets.ApiResult :=
  if (attempt <? 2)%nat then sheets.Raises else sheets.Returns "games!A7:AL7".

(** An [int] that reads plain ASCII digits only. *)
Definition digits_only (text : string) : option Z :=
  if Py.truthy text && forallb sheets.is_digit (list_ascii_of_string text)
  then Some (sheets.int_of_digits 0 text) else None.

End fixtures.

(** ** The credential store *)

Section CredentialStore.
Import auth.

Lemma truthy_opt_false (o : option string) :
  Py.truthy_opt o = false ↔ o = None ∨ o = Some "".
Proof.
  destruct o as [[|c s]|]; simpl; split; intros H; auto; try discriminate.
  - destruct H as [H|H]; discriminate.
Qed.

Lemma truthy_opt_true (o : option string) :
  Py.truthy_opt o = true ↔ ∃ s, o = Some s ∧ s ≠ "".
Proof.
  destruct o as [[|c s]|]; simpl; split; intros H; try discriminate.
  - destruct H as (s & [= <-] & Hs). congruence.
  - eexists; split; [reflexivity | discriminate].
  - reflexivity.
  - destruct H as (s & [=] & _).
Qed.

(** Every failing branch leaves the config as it was. *)
Lemma validate_failure_keeps_config now config key err config' :
  validate_activation_key now config key = ((None, err), config') → config' = config.
Proof.
  unfold validate_activation_key. intros H.
  destruct (decide (key ∈ used_keys config)); [by simplify_eq|].
  destruct (decide (key ∈ revoked_keys config)); [by simplify_eq|].
  destruct (negb (Py.truthy_opt (validation_keys config !! key))) eqn:Ht; [by simplify_eq|].
  destruct (match validation_key_expires config !! key with
            | Some e => now >=? e | None => false end); [by simplify_eq|].
  apply negb_false_iff, truthy_opt_true in Ht as (t & Ht & _).
  rewrite Ht in H. simplify_eq.
Qed.

(** A success consumes the key. *)
Lemma validate_success_inv now config key team err config' :
  validate_activation_key now config key = ((Some team, err), config') →
  (key ∉ used_keys config) ∧ (key ∉ revoked_keys config) ∧
  validation_keys config !! key = Some team ∧ team ≠ "" ∧ err = None ∧
  config' = consume_key config key.
Proof.
  unfold validate_activation_key. intros H.
  destruct (decide (key ∈ used_keys config)); [simplify_eq|].
  destruct (decide (key ∈ revoked_keys config)); [simplify_eq|].
  destruct (negb (Py.truthy_opt (validation_keys config !! key))) eqn:Ht; [simplify_eq|].
  apply negb_false_iff, truthy_opt_true in Ht as (t & Ht & Hne).
  destruct (match validation_key_expires config !! key with
            | Some e => now >=? e | None => false end); [simplify_eq|].
  rewrite Ht in H. simplify_eq. repeat split; done.
Qed.

(** The used set only grows. *)
Lemma validate_used_mono now config key k :
  k ∈ used_keys config →
  k ∈ used_keys (snd (validate_activation_key now config key)).
Proof.
  intros Hk. destruct (validate_activation_key now config key) as [[[team|] err] config'] eqn:E.
  - apply validate_success_inv in E as (_ & _ & _ & _ & _ & ->). simpl. set_solver.
  - apply validate_failure_keeps_config in E as ->. exact Hk.
Qed.

Lemma validate_all_used_mono attempts config k :
  k ∈ used_keys config → k ∈ used_keys (activation.validate_all config attempts).
Proof.
  revert config. induction attempts as [|[now key] rest IH]; intros config Hk; simpl.
  - exact Hk.
  - apply IH. by apply validate_used_mono.
Qed.

Lemma validate_used now config key :
  key ∈ used_keys config →
  validate_activation_key now config key = ((None, Some "validation key already used"), config).
Proof. intros Hk. unfold validate_activation_key. by rewrite decide_True. Qed.

Lemma successes_used key attempts config :
  key ∈ used_keys config → activation.successes key config attempts = O.
Proof.
  revert config. induction attempts as [|[now k] rest IH]; intros config Hk; simpl; [reflexivity|].
  destruct (validate_activation_key now config k) as [[team err] config'] eqn:E.
  assert (Hk' : key ∈ used_keys config').
  { replace config' with (snd (validate_activation_key now config k)) by (by rewrite E).
    by apply validate_used_mono. }
  rewrite (IH _ Hk').
  case_bool_decide as Hkk; simpl; [|reflexivity].
  subst k. rewrite (validate_used _ _ _ Hk) in E. simplify_eq. reflexivity.
Qed.

Lemma successes_le_1 key attempts config :
  (activation.successes key config attempts ≤ 1)%nat.
Proof.
  revert config. induction attempts as [|[now k] rest IH]; intros config; simpl; [lia|].
  destruct (validate_activation_key now config k) as [[team err] config'] eqn:E.
  destruct (bool_decide (k = key) && Py.truthy_opt team) eqn:Hs.
  - apply andb_true_iff in Hs as [Hk Ht]. apply bool_decide_eq_true in Hk as ->.
    apply truthy_opt_true in Ht as (t & -> & _).
    apply validate_success_inv in E as (_ & _ & _ & _ & _ & ->).
    rewrite successes_used; [lia | simpl; set_solver].
  - specialize (IH config'). lia.
Qed.

(** C2 (as amended): [validate_activation_key] answers with the first
    applicable case of: key in the used set, "validation key already used";
    key in the revoked set, "validation key revoked"; key absent from the
    active mapping or mapped to an empty team id, "invalid or expired
    validation key"; key with an expiry timestamp at or before the current
    time ([now >= expires_at]), "validation key expired"; otherwise success
    with the owning team id, the key consumed.  Every rejection leaves the
    credential store as it was. *)
Theorem validate_activation_key_priority (now : Z) (config : AuthConfig) (key : string) :
  let r := validate_activation_key now config key in
  (key ∈ used_keys config →
     r = ((None, Some "validation key already used"), config)) ∧
  (key ∉ used_keys config → key ∈ revoked_keys config →
     r = ((None, Some "validation key revoked"), config)) ∧
  (key ∉ used_keys config → key ∉ revoked_keys config →
     validation_keys config !! key = None ∨ validation_keys config !! key = Some "" →
     r = ((None, Some "invalid or expired validation key"), config)) ∧
  (∀ team expires_at,
     key ∉ used_keys config → key ∉ revoked_keys config →
     validation_keys config !! key = Some team → team ≠ "" →
     validation_key_expires config !! key = Some expires_at → expires_at ≤ now →
     r = ((None, Some "validation key expired"), config)) ∧
  (∀ team,
     key ∉ used_keys config → key ∉ revoked_keys config →
     validation_keys config !! key = Some team → team ≠ "" →
     (validation_key_expires config !! key = None ∨
      ∃ expires_at, validation_key_expires config !! key = Some expires_at ∧ now < expires_at) →
     r = ((Some team, None), consume_key config key)).
Proof.
  cbv zeta. unfold validate_activation_key. repeat split.
  - intros Hu. by rewrite decide_True.
  - intros Hu Hr. by rewrite decide_False, decide_True.
  - intros Hu Hr Hv. rewrite decide_False, decide_False by done.
    apply truthy_opt_false in Hv. by rewrite Hv.
  - intros team e Hu Hr Hv Hne He Hle. rewrite decide_False, decide_False by done.
    rewrite Hv, He. destruct team; [done|]. simpl.
    destruct (Z.geb_spec now e); [done | lia].
  - intros team Hu Hr Hv Hne He. rewrite decide_False, decide_False by done.
    rewrite Hv. destruct team; [done|]. simpl.
    destruct He as [-> | (e & -> & Hlt)]; [done|].
    destruct (Z.geb_spec now e); [lia | done].
Qed.

(** The fixture key, expiring at second 100, is accepted at second 50 and
    refused at second 100. *)
Lemma validate_activation_key_priority_witness :
  validate_activation_key 50 sample.config_expiring "IONIA-TEST-KEY"
    = ((Some "KC", None), consume_key sample.config_expiring "IONIA-TEST-KEY") ∧
  validate_activation_key 100 sample.config_expiring "IONIA-TEST-KEY"
    = ((None, Some "validation key expired"), sample.config_expiring).
Proof.
  split.
  - apply (validate_activation_key_priority 50 sample.config_expiring "IONIA-TEST-KEY").
    + vm_compute. set_solver.
    + vm_compute. set_solver.
    + reflexivity.
    + discriminate.
    + right. exists 100. split; [reflexivity | lia].
  - apply (validate_activation_key_priority 100 sample.config_expiring "IONIA-TEST-KEY")
      with (team := "KC") (expires_at := 100).
    + vm_compute. set_solver.
    + vm_compute. set_solver.
    + reflexivity.
    + discriminate.
    + reflexivity.
    + lia.
Defined.

(** C2 as stated fails: a key whose expiry timestamp (100) is after the
    current time (50) is accepted, not rejected as expired, and a key whose
    expiry (100) is before the current time (150) is rejected although its
    expiry is not at or after the current time. *)
Lemma validate_activation_key_expiry_direction :
  validation_key_expires sample.config_expiring !! "IONIA-TEST-KEY" = Some 100 ∧
  50 ≤ 100 ∧
  fst (validate_activation_key 50 sample.config_expiring "IONIA-TEST-KEY")
    = (Some "KC", None) ∧
  fst (validate_activation_key 50 sample.config_expiring "IONIA-TEST-KEY")
    ≠ (None, Some "validation key expired") ∧
  ¬ (150 ≤ 100) ∧
  fst (validate_activation_key 150 sample.config_expiring "IONIA-TEST-KEY")
    = (None, Some "validation key expired").
Proof. repeat split; try reflexivity; try lia; vm_compute; discriminate. Qed.

(** C8: over any sequence of calls a key is validated successfully at most
    once; the first success puts the key into the used set and removes it
    from the active mapping in the same step, and every later call with
    that key, whatever happened in between, is refused as already used. *)
Theorem validate_activation_key_once (key : string) :
  (∀ config attempts, (activation.successes key config attempts ≤ 1)%nat) ∧
  (∀ now config team config',
     validate_activation_key now config key = ((Some team, None), config') →
     (key ∉ used_keys config) ∧
     validation_keys config !! key = Some team ∧
     key ∈ used_keys config' ∧
     validation_keys config' !! key = None ∧
     ∀ attempts now',
       let later := activation.validate_all config' attempts in
       validate_activation_key now' later key
         = ((None, Some "validation key already used"), later)).
Proof.
  split; [intros; apply successes_le_1|].
  intros now config team config' E.
  apply validate_success_inv in E as (Hu & _ & Hv & _ & _ & ->).
  split_and!; try done.
  - simpl. set_solver.
  - simpl. apply lookup_delete_eq.
  - intros attempts now'. cbv zeta. apply validate_used, validate_all_used_mono.
    simpl. set_solver.
Qed.

(** The fixture key is accepted once; after two more attempts (another key,
    then the same key again) it is still refused as used. *)
Lemma validate_activation_key_once_witness :
  validate_activation_key 50 sample.config_expiring "IONIA-TEST-KEY"
    = ((Some "KC", None), consume_key sample.config_expiring "IONIA-TEST-KEY") ∧
  fst (validate_activation_key 60
         (activation.validate_all (consume_key sample.config_expiring "IONIA-TEST-KEY")
            [(51, "OTHER"); (52, "IONIA-TEST-KEY")])
         "IONIA-TEST-KEY")
    = (None, Some "validation key already used").
Proof.
  assert (E : validate_activation_key 50 sample.config_expiring "IONIA-TEST-KEY"
    = ((Some "KC", None), consume_key sample.config_expiring "IONIA-TEST-KEY"))
    by reflexivity.
  split; [exact E|].
  destruct (proj2 (validate_activation_key_once "IONIA-TEST-KEY") _ _ _ _ E)
    as (_ & _ & _ & _ & H).
  rewrite (H [(51, "OTHER"); (52, "IONIA-TEST-KEY")] 60). reflexivity.
Defined.

End CredentialStore.

(** ** The session tracker and the event deduplicator *)

Section SessionTracker.
Import models main tracker.

(** What the merge loop leaves at a column. *)
Lemma update_row_data_lookup (row_data updates : gmap string string) (k : string) :
  _update_row_data row_data updates !! k =
    match updates !! k with
    | Some v => if decide (k ∈ GAME_COLUMNS_SET) then Some v else row_data !! k
    | None => row_data !! k
    end.
Proof.
  unfold _update_row_data. revert k.
  apply (map_fold_weak_ind (λ r (m : gmap string string), ∀ k,
    r !! k = match m !! k with
             | Some v => if decide (k ∈ GAME_COLUMNS_SET) then Some v else row_data !! k
             | None => row_data !! k
             end)).
  - intros k. by rewrite lookup_empty.
  - intros i x m r Hi IH k. destruct (decide (i = k)) as [->|Hne].
    + rewrite lookup_insert_eq. destruct (decide (k ∈ GAME_COLUMNS_SET)).
      * by rewrite lookup_insert_eq.
      * rewrite IH, Hi. done.
    + rewrite lookup_insert_ne by done. destruct (decide (i ∈ GAME_COLUMNS_SET)).
      * rewrite lookup_insert_ne by done. apply IH.
      * apply IH.
Qed.

(** Merging the same payload twice is merging it once. *)
Lemma update_row_data_idem (row_data updates : gmap string string) :
  _update_row_data (_update_row_data row_data updates) updates
    = _update_row_data row_data updates.
Proof.
  apply map_eq. intros k. rewrite !update_row_data_lookup.
  destruct (updates !! k); [|done]. by destruct (decide (k ∈ GAME_COLUMNS_SET)).
Qed.

Lemma store_cache_twice s team c1 c2 :
  store_cache (store_cache s team c1) team c2 = store_cache s team c2.
Proof. unfold store_cache, set_draft_cache. simpl. by rewrite insert_insert_eq. Qed.

Lemma store_cache_lookup s team c : draft_cache (store_cache s team c) !! team = Some c.
Proof. simpl. apply lookup_insert_eq. Qed.

(** C5: while a team has an active session, [champ_select_start] creates
    nothing: it answers with the existing game id and number and the
    message "game already active", makes no adapter call and returns the
    state it was given (so the sequence counter is not incremented); a
    repeated call, with any payload, store behaviour or clock, gives the
    same answer again. *)
Theorem champ_select_start_already_active
    (sw : SheetsWriter) (env : Env) (s : AppState) (team_id : string)
    (payload : ChampSelectStartRequest.t) (cache : DraftCache.t) :
  draft_cache s !! team_id = Some cache →
  let o := champ_select_start sw env s team_id payload in
  o = mkOutcome
        (GameSessionResponse "ok" (Some "game already active")
           (Some (DraftCache.game_id cache)) (Some (DraftCache.game_number cache)))
        s [] ∧
  game_counters (state o) = game_counters s ∧
  ∀ sw' env' payload', champ_select_start sw' env' (state o) team_id payload' = o.
Proof.
  intros Hc. cbv zeta. unfold champ_select_start. rewrite Hc. simpl.
  split_and!; try done. intros. by rewrite Hc.
Qed.

Lemma champ_select_start_already_active_witness :
  response (champ_select_start sample.writer_ok sample.env0 sample.state_active "KC"
              sample.start_payload)
    = GameSessionResponse "ok" (Some "game already active") (Some "g_test") (Some 1) ∧
  counter_of
    (state (champ_select_start sample.writer_ok sample.env0 sample.state_active "KC"
              sample.start_payload)) "KC" "2026-01-07" = 1.
Proof.
  destruct (champ_select_start_already_active sample.writer_ok sample.env0
              sample.state_active "KC" sample.start_payload sample.session_kc)
    as (-> & _ & _); [reflexivity|].
  split; reflexivity.
Defined.

(** C10: [stream_ready] never looks at the session table.  Whatever the
    sessions are, a fresh dedupe key and a store write that is not a
    failure (the adapter is disabled or the append returns a row) give
    [Ack], the key is added to the dedupe set and the stream event is the
    first adapter call; the handler never answers 400; and replacing the
    session table changes neither the response nor the adapter calls. *)
Theorem stream_ready_ignores_sessions
    (sw : SheetsWriter) (env : Env) (s : AppState) (team_id : string)
    (payload : StreamReadyRequest.t) :
  let key := _dedupe_key [team_id; "stream_ready"; StreamReadyRequest.game_id payload;
                          StreamRole_value (StreamReadyRequest.role payload)] in
  let body := mkStreamPayload (StreamReadyRequest.game_id payload)
                (StreamRole_value (StreamReadyRequest.role payload))
                (StreamReadyRequest.vod_url payload)
                (StreamPlatform_value (StreamReadyRequest.platform payload))
                (StreamReadyRequest.player_id payload) in
  let o := stream_ready sw env s team_id payload in
  (key ∉ event_dedupe s →
   (enabled sw = true → append_stream_event sw team_id "stream_ready" body ≠ None) →
   response o = Ack "ok" ∧
   state o = set_event_dedupe s ({[key]} ∪ event_dedupe s) ∧
   head (calls o) = Some (AppendStreamEvent team_id "stream_ready" body)) ∧
  (∀ message, response o ≠ JSONError 400 message) ∧
  (∀ sessions,
     let o' := stream_ready sw env (set_draft_cache s sessions) team_id payload in
     response o' = response o ∧ calls o' = calls o ∧
     state o' = set_draft_cache (state o) sessions).
Proof.
  cbv zeta. unfold stream_ready, mark_and_ack. split_and!.
  - intros Hk Hw. rewrite decide_False by done.
    destruct (enabled sw) eqn:He; simpl.
    + destruct (append_stream_event sw team_id "stream_ready" _) eqn:Ha; simpl.
      * done.
      * exfalso. by apply Hw.
    + done.
  - intros message. repeat case_match; simpl; discriminate.
  - intros sessions. simpl. repeat case_match; simpl; done.
Qed.

Lemma stream_ready_ignores_sessions_witness :
  draft_cache sample.state_idle !! "KC" = None ∧
  response (stream_ready sample.writer_ok sample.env0 sample.state_idle "KC"
              sample.stream_payload) = Ack "ok".
Proof.
  split; [reflexivity|].
  destruct (stream_ready_ignores_sessions sample.writer_ok sample.env0 sample.state_idle
              "KC" sample.stream_payload) as [H _].
  destruct H as (H & _ & _).
  - vm_compute. set_solver.
  - intros _. discriminate.
  - exact H.
Defined.

(** *** What any request may do to the tables *)

Ltac enter_route :=
  unfold step, app, route, with_team; simpl;
  repeat match goal with
         | |- context [auth.dispatch ?a ?b ?c ?d] => destruct (auth.dispatch a b c d)
         | |- context [match endpoint ?r with _ => _ end] => destruct (endpoint r)
         | |- context [match ?e with PostActivate _ => _ | _ => _ end] => destruct e
         | |- context [auth.require_team_id ?rs] => destruct (auth.require_team_id rs)
         end; simpl; try done.

Ltac split_team t :=
  repeat match goal with
         | H : context [<[?t0 := _]> _ !! t] |- _ =>
             destruct (decide (t0 = t)) as [->|];
             [rewrite lookup_insert_eq in H | rewrite lookup_insert_ne in H by done]
         | H : context [delete ?t0 _ !! t] |- _ =>
             destruct (decide (t0 = t)) as [->|];
             [rewrite lookup_delete_eq in H | rewrite lookup_delete_ne in H by done]
         | |- context [<[?t0 := _]> _ !! t] =>
             destruct (decide (t0 = t)) as [->|];
             [rewrite lookup_insert_eq | rewrite lookup_insert_ne by done]
         | |- context [delete ?t0 _ !! t] =>
             destruct (decide (t0 = t)) as [->|];
             [rewrite lookup_delete_eq | rewrite lookup_delete_ne by done]
         end.

Ltac handler_cases :=
  unfold activate, client_heartbeat, champ_select_start, draft_complete, game_start,
    game_finished, stream_ready, mark_and_ack, _get_game_counter;
  repeat case_match; simpl in *; simplify_eq.



(** A session that is still there after a request has kept its game id;
    its draft counter did not decrease, and it changed only through a
    [draft_complete] whose payload is richer than the counter was. *)
Lemma app_draft_count sw env s (ep : Endpoint) hdr t c c' :
  draft_cache s !! t = Some c →
  draft_cache (state (app sw env s (mkHttpRequest ep hdr))) !! t = Some c' →
  DraftCache.game_id c' = DraftCache.game_id c ∧
  DraftCache.draft_count c ≤ DraftCache.draft_count c' ∧
  (DraftCache.draft_count c' ≠ DraftCache.draft_count c →
   ∃ p, ep = PostDraftComplete p ∧
        DraftCache.draft_count c' = _draft_richness (DraftCompleteRequest.draft p) ∧
        DraftCache.draft_count c < _draft_richness (DraftCompleteRequest.draft p)).
Proof.
  intros Hc. enter_route; try (intros; simplify_eq; split_and!; [done | lia | done]).
  all: handler_cases; intros Hc'; split_team t; simplify_eq; simpl.
  all: try (split_and!; [done | lia | done]).
  all: split_and!; [done | lia | intros _; eexists; split_and!; [done | done | lia]].
Qed.

(** C4: a [draft_complete] whose count of non-empty draft fields is at most
    the session's draft counter returns the state it was given (row-field
    map and counter untouched) and makes no adapter call; and across any
    request a session's draft counter never decreases, and changes only
    through a [draft_complete] whose non-empty-field count is strictly
    greater than the counter, which then becomes that count. *)
Theorem draft_richness_monotonic :
  (∀ sw s team_id payload cache,
     draft_cache s !! team_id = Some cache →
     _draft_richness (DraftCompleteRequest.draft payload) ≤ DraftCache.draft_count cache →
     state (draft_complete sw s team_id payload) = s ∧
     calls (draft_complete sw s team_id payload) = []) ∧
  (∀ sw env s req team_id cache cache',
     draft_cache s !! team_id = Some cache →
     draft_cache (state (app sw env s req)) !! team_id = Some cache' →
     DraftCache.draft_count cache ≤ DraftCache.draft_count cache' ∧
     (DraftCache.draft_count cache' ≠ DraftCache.draft_count cache →
      ∃ p, endpoint req = PostDraftComplete p ∧
           DraftCache.draft_count cache' = _draft_richness (DraftCompleteRequest.draft p) ∧
           DraftCache.draft_count cache < _draft_richness (DraftCompleteRequest.draft p))).
Proof.
  split.
  - intros sw s team_id payload cache Hc Hle. unfold draft_complete. rewrite Hc.
    destruct (negb _); [done|].
    destruct (Z.leb_spec (_draft_richness (DraftCompleteRequest.draft payload))
                (DraftCache.draft_count cache)); [done | lia].
  - intros sw env s [ep hdr] team_id cache cache' Hc Hc'.
    destruct (app_draft_count _ _ _ _ _ _ _ _ Hc Hc') as (_ & Hle & Hch). done.
Qed.

(** On the session of the test (counter 0), an empty draft changes nothing
    and a one-field draft raises the counter to 1. *)
Lemma draft_richness_monotonic_witness :
  state (draft_complete sample.writer_ok sample.state_active "KC"
           (DraftCompleteRequest.mk "g_test" ∅)) = sample.state_active ∧
  ∃ cache',
    draft_cache (state (app sample.writer_ok sample.env0 sample.state_active
                          (sample.as_kc (PostDraftComplete sample.draft_payload))))
      !! "KC" = Some cache' ∧
    0 ≤ DraftCache.draft_count cache' ∧ DraftCache.draft_count cache' = 1.
Proof.
  split.
  - apply (proj1 draft_richness_monotonic sample.writer_ok sample.state_active "KC"
             (DraftCompleteRequest.mk "g_test" ∅) sample.session_kc);
      [reflexivity | vm_compute; discriminate].
  - eexists. split; [vm_compute; reflexivity|].
    split; [|reflexivity].
    refine (proj1 (proj2 draft_richness_monotonic sample.writer_ok sample.env0
                     sample.state_active
                     (sample.as_kc (PostDraftComplete sample.draft_payload))
                     "KC" sample.session_kc _ _ _)); vm_compute; reflexivity.
Defined.

(** A team without a session stays without one unless the request is a
    [champ_select_start]. *)
Lemma app_no_session sw env s (ep : Endpoint) hdr t :
  draft_cache s !! t = None →
  (∀ p, ep ≠ PostChampSelectStart p) →
  draft_cache (state (app sw env s (mkHttpRequest ep hdr))) !! t = None.
Proof.
  intros Hc Hep. enter_route.
  all: try (by exfalso; eapply Hep).
  all: handler_cases; split_team t; simplify_eq; done.
Qed.

Lemma run_no_session evs s t :
  draft_cache s !! t = None →
  Forall (λ ev : Event, ∀ p, endpoint ev.2 ≠ PostChampSelectStart p) evs →
  draft_cache (run s evs) !! t = None.
Proof.
  revert s. induction evs as [|[[sw env] [ep hdr]] evs IH]; intros s Hc Hall; simpl; [done|].
  inversion Hall as [|? ? Hep Hrest]; subst. apply IH; [|done].
  by apply app_no_session.
Qed.

(** C9: a successful [game_finished] had a session with the submitted game
    id and removes it from the session table; from then on, and as long as
    no [champ_select_start] is served, a heartbeat of the team answers "no
    ongoing game".  A heartbeat returns the state it was given, makes no
    adapter call, and without a session answers with status 200 and the
    message "no ongoing game". *)
Theorem game_finished_ends_session :
  (∀ sw env s team_id payload,
     response (game_finished sw env s team_id payload) = Ack "ok" →
     (∃ cache, draft_cache s !! team_id = Some cache ∧
               DraftCache.game_id cache = GameFinishedRequest.game_id payload) ∧
     draft_cache (state (game_finished sw env s team_id payload)) !! team_id = None ∧
     ∀ evs hb,
       Forall (λ ev : Event, ∀ p, endpoint ev.2 ≠ PostChampSelectStart p) evs →
       response (client_heartbeat
                   (run (state (game_finished sw env s team_id payload)) evs) team_id hb)
         = GameSessionResponse "ok" (Some "no ongoing game") None None) ∧
  (∀ s team_id hb,
     state (client_heartbeat s team_id hb) = s ∧
     calls (client_heartbeat s team_id hb) = [] ∧
     status_code_of (response (client_heartbeat s team_id hb)) = Some 200 ∧
     (draft_cache s !! team_id = None →
      response (client_heartbeat s team_id hb)
        = GameSessionResponse "ok" (Some "no ongoing game") None None)).
Proof.
  split.
  - intros sw env s team_id payload Hok.
    assert (Hgone :
      draft_cache (state (game_finished sw env s team_id payload)) !! team_id = None).
    { revert Hok. handler_cases; intros; simplify_eq; simpl; apply lookup_delete_eq. }
    split_and!; [|done|].
    + revert Hok. unfold game_finished.
      destruct (draft_cache s !! team_id) as [cache|]; [|done].
      destruct (negb _) eqn:Hid; [done|]. intros _. exists cache. split; [done|].
      by apply negb_false_iff, String.eqb_eq in Hid.
    + intros evs hb Hall. unfold client_heartbeat.
      by rewrite (run_no_session _ _ _ Hgone Hall).
  - intros s team_id hb. unfold client_heartbeat.
    destruct (draft_cache s !! team_id); done.
Qed.

Lemma game_finished_ends_session_witness :
  response (game_finished sample.writer_ok sample.env0 sample.state_active "KC"
              sample.game_finished_payload) = Ack "ok" ∧
  response (client_heartbeat
              (state (game_finished sample.writer_ok sample.env0 sample.state_active "KC"
                        sample.game_finished_payload)) "KC" sample.heartbeat_payload)
    = GameSessionResponse "ok" (Some "no ongoing game") None None.
Proof.
  assert (Hok : response (game_finished sample.writer_ok sample.env0 sample.state_active
                            "KC" sample.game_finished_payload) = Ack "ok")
    by (vm_compute; reflexivity).
  split; [exact Hok|].
  destruct (proj1 game_finished_ends_session _ _ _ _ _ Hok) as (_ & _ & H).
  apply (H [] sample.heartbeat_payload). constructor.
Defined.


(** A guarded handler that finds its key in the dedupe set stops there. *)
Lemma submit_seen sw env s team_id ev :
  key_of team_id ev ∈ event_dedupe s →
  submit sw env s team_id ev =
    mkOutcome (if reaches_dedupe s team_id ev then JSONError 409 "duplicate event"
               else JSONError 400 "no active game for team") s [].
Proof.
  intros Hk. destruct ev as [p|p|p]; unfold submit, key_of, reaches_dedupe, session_matches in *.
  - unfold game_start. destruct (draft_cache s !! team_id) as [cache|]; [|done].
    destruct (String.eqb _ _); simpl; [|done]. by rewrite decide_True.
  - unfold game_finished. destruct (draft_cache s !! team_id) as [cache|]; [|done].
    destruct (String.eqb _ _); simpl; [|done]. by rewrite decide_True.
  - unfold stream_ready. by rewrite decide_True.
Qed.




(** *** A failed store write *)

(** Once the payload is merged into the session's row-field map, a
    submission that gets past the checks does what it does without that
    merge. *)
Lemma draft_complete_after_merge sw s team_id p cache :
  draft_cache s !! team_id = Some cache →
  String.eqb (DraftCache.game_id cache) (DraftCompleteRequest.game_id p) = true →
  (_draft_richness (DraftCompleteRequest.draft p) <=? DraftCache.draft_count cache) = false →
  draft_complete sw
    (store_cache s team_id
       (DraftCache.set_row_data cache
          (_update_row_data (DraftCache.row_data cache) (DraftCompleteRequest.draft p))))
    team_id p
  = draft_complete sw s team_id p.
Proof.
  intros Hc Hid Hrich. unfold draft_complete. rewrite store_cache_lookup, Hc. simpl.
  rewrite Hid, Hrich. simpl. rewrite update_row_data_idem.
  repeat case_match; simpl; rewrite ?store_cache_twice; reflexivity.
Qed.

Lemma game_start_after_merge sw env s team_id p cache :
  draft_cache s !! team_id = Some cache →
  String.eqb (DraftCache.game_id cache) (GameStartRequest.game_id p) = true →
  _dedupe_key [team_id; "game_start"; GameStartRequest.game_id p] ∉ event_dedupe s →
  game_start sw env
    (store_cache s team_id
       (DraftCache.set_row_data cache
          (_update_row_data (DraftCache.row_data cache)
             (filter (λ kv, kv.1 ∈ POSITION_COLUMNS) (GameStartRequest.positions p)))))
    team_id p
  = game_start sw env s team_id p.
Proof.
  intros Hc Hid Hk. unfold game_start, mark_and_ack. rewrite store_cache_lookup, Hc. simpl.
  rewrite Hid. simpl. rewrite !decide_False by done. rewrite update_row_data_idem.
  repeat case_match; simpl; rewrite ?store_cache_twice; reflexivity.
Qed.

Lemma game_finished_after_merge sw env s team_id p cache :
  draft_cache s !! team_id = Some cache →
  String.eqb (DraftCache.game_id cache) (GameFinishedRequest.game_id p) = true →
  _dedupe_key [team_id; "game_finished"; GameFinishedRequest.game_id p] ∉ event_dedupe s →
  game_finished sw env
    (store_cache s team_id
       (DraftCache.set_row_data cache
          (_update_row_data (DraftCache.row_data cache)
             {[ "win" := GameFinishedRequest.win p ]})))
    team_id p
  = game_finished sw env s team_id p.
Proof.
  intros Hc Hid Hk. unfold game_finished, mark_and_ack. rewrite store_cache_lookup, Hc. simpl.
  rewrite Hid. simpl. rewrite !decide_False by done. rewrite update_row_data_idem.
  repeat case_match; simpl; rewrite ?store_cache_twice, ?insert_insert_eq; reflexivity.
Qed.

Lemma is_none_true {A} (o : option A) : Py.is_none o = true → o = None.
Proof. by destruct o. Qed.

Lemma set_row_index_same c :
  DraftCache.row_index c = None → DraftCache.set_row_index c None = c.
Proof. destruct c; simpl; by intros ->. Qed.

(** The counters after [_get_game_counter] has drawn for a team and date. *)
Lemma counter_after_draw s t d t' d' :
  counter_of (set_game_counters s (_get_game_counter (game_counters s) t d).2) t' d'
  = if decide (t = t' ∧ d = d') then counter_of s t d + 1 else counter_of s t' d'.
Proof.
  unfold counter_of, _get_game_counter. simpl.
  destruct (decide (t = t')) as [->|Ht].
  - rewrite lookup_insert_eq. simpl. destruct (decide (d = d')) as [->|Hd].
    + rewrite lookup_insert_eq, decide_True by done. done.
    + rewrite lookup_insert_ne, decide_False by tauto. done.
  - rewrite lookup_insert_ne, decide_False by tauto. done.
Qed.

(** A 502 from a session handler: the checks were passed and only the
    merge into the row-field map was kept. *)
Lemma draft_complete_502 sw s team_id p message :
  response (draft_complete sw s team_id p) = JSONError 502 message →
  ∃ cache,
    draft_cache s !! team_id = Some cache ∧
    String.eqb (DraftCache.game_id cache) (DraftCompleteRequest.game_id p) = true ∧
    (_draft_richness (DraftCompleteRequest.draft p) <=? DraftCache.draft_count cache) = false ∧
    state (draft_complete sw s team_id p)
      = store_cache s team_id
          (DraftCache.set_row_data cache
             (_update_row_data (DraftCache.row_data cache) (DraftCompleteRequest.draft p))).
Proof.
  unfold draft_complete.
  destruct (draft_cache s !! team_id) as [cache|] eqn:Hc; [|done].
  destruct (String.eqb _ _) eqn:Hid; [|done]. simpl.
  destruct (_ <=? _) eqn:Hrich; [done|].
  intros H502. exists cache. split_and!; try done. revert H502.
  destruct (DraftCache.row_index cache) as [ri|] eqn:Hri; simpl.
  - destruct (enabled sw && _); simpl; done.
  - destruct (enabled sw && _) eqn:Hw; simpl; [|done]. intros _.
    apply andb_true_iff in Hw as [_ Hw]. apply is_none_true in Hw.
    rewrite Hw. by rewrite set_row_index_same.
Qed.

Lemma game_start_502 sw env s team_id p message :
  response (game_start sw env s team_id p) = JSONError 502 message →
  ∃ cache,
    draft_cache s !! team_id = Some cache ∧
    String.eqb (DraftCache.game_id cache) (GameStartRequest.game_id p) = true ∧
    (_dedupe_key [team_id; "game_start"; GameStartRequest.game_id p] ∉ event_dedupe s) ∧
    state (game_start sw env s team_id p)
      = store_cache s team_id
          (DraftCache.set_row_data cache
             (_update_row_data (DraftCache.row_data cache)
                (filter (λ kv, kv.1 ∈ POSITION_COLUMNS) (GameStartRequest.positions p)))).
Proof.
  unfold game_start, mark_and_ack.
  destruct (draft_cache s !! team_id) as [cache|] eqn:Hc; [|done].
  destruct (String.eqb _ _) eqn:Hid; [|done]. simpl.
  destruct (decide _) as [|Hk]; [done|].
  intros H502. exists cache. split_and!; try done. revert H502.
  destruct (DraftCache.row_index cache) as [ri|] eqn:Hri; simpl.
  - destruct (enabled sw && _); simpl; [done | by destruct (enabled sw)].
  - destruct (enabled sw && _) eqn:Hw; simpl; [|by destruct (enabled sw)]. intros _.
    apply andb_true_iff in Hw as [_ Hw]. apply is_none_true in Hw.
    rewrite Hw. by rewrite set_row_index_same.
Qed.

Lemma game_finished_502 sw env s team_id p message :
  response (game_finished sw env s team_id p) = JSONError 502 message →
  ∃ cache,
    draft_cache s !! team_id = Some cache ∧
    String.eqb (DraftCache.game_id cache) (GameFinishedRequest.game_id p) = true ∧
    (_dedupe_key [team_id; "game_finished"; GameFinishedRequest.game_id p] ∉ event_dedupe s) ∧
    state (game_finished sw env s team_id p)
      = store_cache s team_id
          (DraftCache.set_row_data cache
             (_update_row_data (DraftCache.row_data cache)
                {[ "win" := GameFinishedRequest.win p ]})).
Proof.
  unfold game_finished, mark_and_ack.
  destruct (draft_cache s !! team_id) as [cache|] eqn:Hc; [|done].
  destruct (String.eqb _ _) eqn:Hid; [|done]. simpl.
  destruct (decide _) as [|Hk]; [done|].
  intros H502. exists cache. split_and!; try done. revert H502.
  destruct (DraftCache.row_index cache) as [ri|] eqn:Hri; simpl.
  - destruct (enabled sw && _); simpl; [done | by destruct (enabled sw)].
  - destruct (enabled sw && _) eqn:Hw; simpl; [done | by destruct (enabled sw)].
Qed.

(** C1 (as amended): what a 502 leaves behind.  [stream_ready] returns the
    state it was given.  [draft_complete], [game_start] and
    [game_finished] had a session for the team and leave the tables as
    they were except that this session's row-field map holds the merged
    payload (game id, draft counter, row locator, game number and date of
    the session, the other sessions, the counters and the dedupe set are
    untouched), and the identical request served again does exactly what it
    would have done on the state before the failure.  [champ_select_start]
    had no session for the team and creates none, and leaves the tables as
    they were except that the sequence counter of the team and date has
    advanced by one. *)
Theorem upstream_failure_state (message : string) :
  (∀ sw env s team_id p,
     response (stream_ready sw env s team_id p) = JSONError 502 message →
     state (stream_ready sw env s team_id p) = s) ∧
  (∀ sw s team_id p,
     response (draft_complete sw s team_id p) = JSONError 502 message →
     ∃ cache,
       draft_cache s !! team_id = Some cache ∧
       state (draft_complete sw s team_id p)
         = store_cache s team_id
             (DraftCache.set_row_data cache
                (_update_row_data (DraftCache.row_data cache)
                   (DraftCompleteRequest.draft p))) ∧
       ∀ sw', draft_complete sw' (state (draft_complete sw s team_id p)) team_id p
              = draft_complete sw' s team_id p) ∧
  (∀ sw env s team_id p,
     response (game_start sw env s team_id p) = JSONError 502 message →
     ∃ cache,
       draft_cache s !! team_id = Some cache ∧
       state (game_start sw env s team_id p)
         = store_cache s team_id
             (DraftCache.set_row_data cache
                (_update_row_data (DraftCache.row_data cache)
                   (filter (λ kv, kv.1 ∈ POSITION_COLUMNS)
                      (GameStartRequest.positions p)))) ∧
       ∀ sw' env', game_start sw' env' (state (game_start sw env s team_id p)) team_id p
                   = game_start sw' env' s team_id p) ∧
  (∀ sw env s team_id p,
     response (game_finished sw env s team_id p) = JSONError 502 message →
     ∃ cache,
       draft_cache s !! team_id = Some cache ∧
       state (game_finished sw env s team_id p)
         = store_cache s team_id
             (DraftCache.set_row_data cache
                (_update_row_data (DraftCache.row_data cache)
                   {[ "win" := GameFinishedRequest.win p ]})) ∧
       ∀ sw' env',
         game_finished sw' env' (state (game_finished sw env s team_id p)) team_id p
         = game_finished sw' env' s team_id p) ∧
  (∀ sw env s team_id p,
     response (champ_select_start sw env s team_id p) = JSONError 502 message →
     draft_cache s !! team_id = None ∧
     state (champ_select_start sw env s team_id p)
       = set_game_counters s
           (_get_game_counter (game_counters s) team_id
              (ChampSelectStartRequest.date p)).2 ∧
     counter_of (state (champ_select_start sw env s team_id p)) team_id
       (ChampSelectStartRequest.date p)
     = counter_of s team_id (ChampSelectStartRequest.date p) + 1).
Proof.
  split_and!.
  - intros sw env s team_id p. handler_cases; done.
  - intros sw s team_id p H502.
    destruct (draft_complete_502 _ _ _ _ _ H502) as (cache & Hc & Hid & Hrich & Hst).
    exists cache. split_and!; try done.
    intros sw'. rewrite Hst. by apply draft_complete_after_merge.
  - intros sw env s team_id p H502.
    destruct (game_start_502 _ _ _ _ _ _ H502) as (cache & Hc & Hid & Hk & Hst).
    exists cache. split_and!; try done.
    intros sw' env'. rewrite Hst. by apply game_start_after_merge.
  - intros sw env s team_id p H502.
    destruct (game_finished_502 _ _ _ _ _ _ H502) as (cache & Hc & Hid & Hk & Hst).
    exists cache. split_and!; try done.
    intros sw' env'. rewrite Hst. by apply game_finished_after_merge.
  - intros sw env s team_id p. unfold champ_select_start.
    destruct (draft_cache s !! team_id) as [cache|] eqn:Hc; [done|].
    unfold _get_game_counter. simpl.
    destruct (enabled sw && _); simpl; [|done]. intros _.
    split_and!; [done | done |].
    rewrite (counter_after_draw s team_id (ChampSelectStartRequest.date p)).
    by rewrite decide_True.
Qed.

(** On the session of the write-failure test, a [game_start] whose row
    update fails is answered 502; the dedupe set stays empty and the retry
    does what a first attempt would. *)
Lemma upstream_failure_state_witness :
  response (game_start sample.writer_failing sample.env0 sample.state_active "KC"
              sample.game_start_payload)
    = JSONError 502 "failed to update game row in sheets" ∧
  event_dedupe (state (game_start sample.writer_failing sample.env0 sample.state_active
                         "KC" sample.game_start_payload)) = ∅ ∧
  ∀ sw' env',
    game_start sw' env'
      (state (game_start sample.writer_failing sample.env0 sample.state_active "KC"
                sample.game_start_payload)) "KC" sample.game_start_payload
    = game_start sw' env' sample.state_active "KC" sample.game_start_payload.
Proof.
  assert (H502 : response (game_start sample.writer_failing sample.env0 sample.state_active
                             "KC" sample.game_start_payload)
                 = JSONError 502 "failed to update game row in sheets")
    by (vm_compute; reflexivity).
  destruct (upstream_failure_state "failed to update game row in sheets")
    as (_ & _ & Hstart & _).
  destruct (Hstart _ _ _ _ _ H502) as (cache & _ & Hst & Hretry).
  split; [exact H502|]. split; [|exact Hretry].
  rewrite Hst. reflexivity.
Defined.

(** C1 as stated fails.  A [champ_select_start] answered 502 has already
    advanced the sequence counter of the team and date, so the state is
    not what it was and the retry is numbered 2 where a first attempt is
    numbered 1; a [game_start] answered 502 has already merged the
    positions into the session's row-field map. *)
Lemma upstream_failure_is_not_a_rollback :
  let failed := champ_select_start sample.writer_failing sample.env0 sample.state_idle "KC"
                  sample.start_payload in
  let merged := game_start sample.writer_failing sample.env0 sample.state_active "KC"
                  sample.game_start_payload in
  response failed = JSONError 502 "failed to write game row to sheets" ∧
  counter_of sample.state_idle "KC" "2026-01-07" = 0 ∧
  counter_of (state failed) "KC" "2026-01-07" = 1 ∧
  state failed ≠ sample.state_idle ∧
  response (champ_select_start sample.writer_ok sample.env0 sample.state_idle "KC"
              sample.start_payload)
    = GameSessionResponse "ok" None (Some "g_20260107_0000_abcd") (Some 1) ∧
  response (champ_select_start sample.writer_ok sample.env0 (state failed) "KC"
              sample.start_payload)
    = GameSessionResponse "ok" None (Some "g_20260107_0000_abcd") (Some 2) ∧
  response merged = JSONError 502 "failed to update game row in sheets" ∧
  (draft_cache sample.state_active !! "KC" ≫= λ c, DraftCache.row_data c !! "BM") = None ∧
  (draft_cache (state merged) !! "KC" ≫= λ c, DraftCache.row_data c !! "BM")
    = Some "Azir" ∧
  state merged ≠ sample.state_active.
Proof.
  cbv zeta. split_and!; try (vm_compute; reflexivity).
  - intros E. apply (f_equal (λ s, counter_of s "KC" "2026-01-07")) in E.
    vm_compute in E. discriminate.
  - intros E.
    apply (f_equal (λ s, draft_cache s !! "KC" ≫= λ c, DraftCache.row_data c !! "BM")) in E.
    vm_compute in E. discriminate.
Qed.

(** *** Sequence numbers *)











End SessionTracker.

(** ** The authorization gate *)

Section AuthorizationGate.
Import models main tracker.

(** The six routes behind [require_team_id] are team-scoped paths. *)
Lemma routes_team_scoped (e : Endpoint) :
  (∀ p, e ≠ PostActivate p) → (∀ path, e ≠ Unrouted path) →
  team_scoped (path_of e) = true.
Proof.
  intros Ha Hu. destruct e; try (vm_compute; reflexivity).
  - by exfalso; eapply Ha.
  - by exfalso; eapply Hu.
Qed.

Lemma truthy_false (x : string) : Py.truthy x = false ↔ x = "".
Proof. destruct x; simpl; split; done. Qed.

(** C7: on a team-scoped path (not public, not documentation, not under
    [/admin/]) a request whose [Authorization] header is absent, does not
    start with [Bearer ], or carries only white space after it is answered
    401 "missing bearer token", and one whose token resolves to no team is
    answered 401 "invalid bearer token".  In both cases the answer comes
    from the middleware: no handler runs, no adapter call is made and the
    state is returned as it was, whatever the route, the payload, the store
    and the clock are.  The heartbeat route and the five event routes are
    such paths. *)
Theorem gate_rejects_unauthenticated :
  (∀ e, (∀ p, e ≠ PostActivate p) → (∀ path, e ≠ Unrouted path) →
        team_scoped (path_of e) = true) ∧
  (∀ sw env s req,
     let header := default "" (authorization req) in
     let token := Py.strip (Py.replace_first "Bearer " "" header) in
     team_scoped (path_of (endpoint req)) = true →
     (authorization req = None ∨ Py.startswith header "Bearer " = false ∨ token = "" →
      app sw env s req = mkOutcome (JSONError 401 "missing bearer token") s []) ∧
     (Py.startswith header "Bearer " = true → token ≠ "" →
      auth.resolve_team_id (auth_config s) token = None ∨
      auth.resolve_team_id (auth_config s) token = Some "" →
      app sw env s req = mkOutcome (JSONError 401 "invalid bearer token") s [])).
Proof.
  split; [apply routes_team_scoped|].
  intros sw env s [ep hdr]. cbv zeta. simpl. intros Hscope.
  apply andb_true_iff in Hscope as [Hpub Hadm].
  apply negb_true_iff in Hpub, Hadm.
  unfold app, auth.dispatch. simpl. rewrite Hpub. split.
  - intros [-> | [Hpre | Htok]].
    + reflexivity.
    + by rewrite Hpre.
    + destruct (Py.startswith (default "" hdr) "Bearer "); simpl; [|done].
      by rewrite Htok.
  - intros Hpre Htok Hres. rewrite Hpre. simpl.
    destruct (Py.truthy _) eqn:Ht; simpl.
    + rewrite Hadm. apply truthy_opt_false in Hres. by rewrite Hres.
    + by apply truthy_false in Ht.
Qed.

(** A heartbeat without a header, one with a blank token and one with an
    unknown token. *)
Lemma gate_rejects_unauthenticated_witness :
  app sample.writer_ok sample.env0 sample.state_active
      (mkHttpRequest (PostHeartbeat sample.heartbeat_payload) None)
    = mkOutcome (JSONError 401 "missing bearer token") sample.state_active [] ∧
  app sample.writer_ok sample.env0 sample.state_active
      (mkHttpRequest (PostGameFinished sample.game_finished_payload) (Some "Bearer   "))
    = mkOutcome (JSONError 401 "missing bearer token") sample.state_active [] ∧
  app sample.writer_ok sample.env0 sample.state_active
      (mkHttpRequest (PostGameFinished sample.game_finished_payload)
         (Some "Bearer not-valid"))
    = mkOutcome (JSONError 401 "invalid bearer token") sample.state_active [].
Proof.
  destruct gate_rejects_unauthenticated as [Hroutes Hgate].
  split_and!.
  - refine (proj1 (Hgate _ _ _ (mkHttpRequest _ None) _) _).
    + apply Hroutes; discriminate.
    + left. reflexivity.
  - refine (proj1 (Hgate _ _ _ (mkHttpRequest _ (Some "Bearer   ")) _) _).
    + apply Hroutes; discriminate.
    + right. right. reflexivity.
  - refine (proj2 (Hgate _ _ _ (mkHttpRequest _ (Some "Bearer not-valid")) _) _ _ _).
    + apply Hroutes; discriminate.
    + reflexivity.
    + discriminate.
    + left. reflexivity.
Defined.

End AuthorizationGate.

(** ** The token table *)

Section TokenTable.
Import auth.

Lemma dict_get_set_eq {V} (d : list (string * V)) k v :
  Py.dict_get (Py.dict_set d k v) k = Some v.
Proof.
  induction d as [|[k' v'] d IH]; simpl.
  - by rewrite String.eqb_refl.
  - destruct (String.eqb k' k) eqn:E; simpl; rewrite E; done.
Qed.

Lemma dict_get_set_ne {V} (d : list (string * V)) k k' v :
  k ≠ k' → Py.dict_get (Py.dict_set d k v) k' = Py.dict_get d k'.
Proof.
  intros Hne. induction d as [|[k0 v0] d IH]; simpl.
  - by apply String.eqb_neq in Hne as ->.
  - destruct (String.eqb k0 k) eqn:E; simpl.
    + apply String.eqb_eq in E as ->. by apply String.eqb_neq in Hne as ->.
    + by rewrite IH.
Qed.

Lemma dict_set_keys {V} (d : list (string * V)) k v :
  (Py.dict_set d k v).*1 = if bool_decide (k ∈ d.*1) then d.*1 else (d.*1 ++ [k])%list.
Proof.
  induction d as [|[k0 v0] d IH]; [done|]. cbn [Py.dict_set].
  destruct (String.eqb k0 k) eqn:E; rewrite !fmap_cons; cbn [fst].
  - apply String.eqb_eq in E as ->. rewrite bool_decide_eq_true_2; [done | by left].
  - apply String.eqb_neq in E. rewrite IH.
    destruct (bool_decide (k ∈ d.*1)) eqn:Hin.
    + apply bool_decide_eq_true in Hin. rewrite bool_decide_eq_true_2; [done | by right].
    + apply bool_decide_eq_false in Hin.
      rewrite bool_decide_eq_false_2; [done|]. rewrite elem_of_cons.
      intros [Hk|Hk]; [by subst | done].
Qed.

Lemma dict_set_nodup {V} (d : list (string * V)) k v :
  NoDup d.*1 → NoDup (Py.dict_set d k v).*1.
Proof.
  intros Hd. rewrite dict_set_keys. case_bool_decide as Hin; [done|].
  apply NoDup_app. split_and!; [done | | apply NoDup_singleton].
  intros x Hx Hk. apply list_elem_of_singleton in Hk as ->. done.
Qed.

Lemma dict_get_elem {V} (d : list (string * V)) k v :
  NoDup d.*1 → (k, v) ∈ d → Py.dict_get d k = Some v.
Proof.
  induction d as [|[k0 v0] d IH]; simpl; intros Hd Hin.
  - by apply elem_of_nil in Hin.
  - apply NoDup_cons in Hd as [Hk0 Hd]. apply elem_of_cons in Hin as [[= <- <-]|Hin].
    + by rewrite String.eqb_refl.
    + destruct (String.eqb k0 k) eqn:E; [|by apply IH].
      apply String.eqb_eq in E as ->. exfalso. apply Hk0.
      apply list_elem_of_fmap. by exists (k, v).
Qed.

Lemma find_existing_elem d team b :
  _find_existing_bearer d team = Some b → (b, team) ∈ d.
Proof.
  induction d as [|[k0 v0] d IH]; simpl; [done|].
  destruct (String.eqb v0 team) eqn:E.
  - apply String.eqb_eq in E as ->. intros [= ->]. by left.
  - intros H. right. by apply IH.
Qed.

Lemma find_existing_after_set d team b :
  _find_existing_bearer d team = None →
  _find_existing_bearer (Py.dict_set d b team) team = Some b.
Proof.
  induction d as [|[k0 v0] d IH]; simpl.
  - by rewrite String.eqb_refl.
  - destruct (String.eqb v0 team) eqn:E; [done|]. intros Hnone.
    destruct (String.eqb k0 b) eqn:Ek; simpl.
    + apply String.eqb_eq in Ek as ->. by rewrite String.eqb_refl.
    + rewrite E. by apply IH.
Qed.

Lemma minted_truthy team uuid : Py.truthy (Py.lower team +:+ "_" +:+ uuid) = true.
Proof. unfold String.app. destruct (Py.lower team); done. Qed.

Lemma issue_bearer_table (uuid_hex : string) (config : AuthConfig) (team_id : string) :
  NoDup (api_keys config).*1 →
  let r := issue_bearer_for_team uuid_hex config team_id in
  resolve_team_id r.2 r.1 = Some team_id ∧ NoDup (api_keys r.2).*1.
Proof.
  intros Hd. cbv zeta. unfold issue_bearer_for_team, resolve_team_id.
  destruct (_find_existing_bearer (api_keys config) team_id) as [b|] eqn:Hf; simpl.
  - destruct (Py.truthy b) eqn:Hb; simpl.
    + split; [|done]. apply dict_get_elem; [done|]. by apply find_existing_elem.
    + split; [apply dict_get_set_eq | by apply dict_set_nodup].
  - split; [apply dict_get_set_eq | by apply dict_set_nodup].
Qed.

(** The token that [issue_bearer_for_team] returns resolves to the team,
    the table keeps distinct keys, and every other token resolves as
    before. *)
Theorem issue_bearer_resolves (uuid_hex : string) (config : AuthConfig) (team_id : string) :
  NoDup (api_keys config).*1 →
  let r := issue_bearer_for_team uuid_hex config team_id in
  resolve_team_id r.2 r.1 = Some team_id ∧
  NoDup (api_keys r.2).*1 ∧
  ∀ other, other ≠ r.1 → resolve_team_id r.2 other = resolve_team_id config other.
Proof.
  intros Hd. cbv zeta.
  destruct (issue_bearer_table uuid_hex config team_id Hd) as [Hres Hnodup].
  split_and!; [exact Hres | exact Hnodup |].
  clear Hres Hnodup. unfold issue_bearer_for_team, resolve_team_id.
  destruct (Py.truthy_opt (_find_existing_bearer (api_keys config) team_id)); simpl.
  - done.
  - intros other Hne. by apply dict_get_set_ne.
Qed.

Lemma issue_bearer_resolves_witness :
  resolve_team_id (issue_bearer_for_team "abc" sample.config_active "T1").2
    (issue_bearer_for_team "abc" sample.config_active "T1").1 = Some "T1".
Proof.
  destruct (issue_bearer_resolves "abc" sample.config_active "T1") as (H & _ & _).
  - vm_compute. repeat constructor. set_solver.
  - exact H.
Defined.

(** Issuing is idempotent: unless the empty string is the team's first
    token, a second call, with any random part, returns the token of the
    first call and leaves the table as it is. *)
Theorem issue_bearer_reuses (uuid_hex : string) (config : AuthConfig) (team_id : string) :
  _find_existing_bearer (api_keys config) team_id ≠ Some "" →
  let r := issue_bearer_for_team uuid_hex config team_id in
  r.1 ≠ "" ∧
  _find_existing_bearer (api_keys r.2) team_id = Some r.1 ∧
  ∀ uuid_hex', issue_bearer_for_team uuid_hex' r.2 team_id = r.
Proof.
  intros Hne. cbv zeta.
  assert (Hkey : ∀ c b, _find_existing_bearer (api_keys c) team_id = Some b →
                        Py.truthy b = true →
                        ∀ u, issue_bearer_for_team u c team_id = (b, c)).
  { intros c b Hf Hb u. unfold issue_bearer_for_team. rewrite Hf. simpl. by rewrite Hb. }
  destruct (_find_existing_bearer (api_keys config) team_id) as [b|] eqn:Hf.
  - assert (Hb : Py.truthy b = true) by (destruct b; [by destruct Hne | done]).
    rewrite (Hkey config b Hf Hb). simpl. split_and!.
    + intros E. by rewrite E in Hb.
    + done.
    + intros u. by apply Hkey.
  - pose proof (find_existing_after_set _ _ (Py.lower team_id +:+ "_" +:+ uuid_hex) Hf) as Hf'.
    pose proof (minted_truthy team_id uuid_hex) as Hb.
    assert (E : issue_bearer_for_team uuid_hex config team_id
                = (Py.lower team_id +:+ "_" +:+ uuid_hex,
                   set_api_keys config
                     (Py.dict_set (api_keys config)
                        (Py.lower team_id +:+ "_" +:+ uuid_hex) team_id))).
    { unfold issue_bearer_for_team. by rewrite Hf. }
    rewrite E. simpl. split_and!.
    + intros E'. by rewrite E' in Hb.
    + done.
    + intros u. by apply Hkey.
Qed.

Lemma issue_bearer_reuses_witness :
  issue_bearer_for_team "0000" (issue_bearer_for_team "abc" sample.config_active "T1").2 "T1"
  = issue_bearer_for_team "abc" sample.config_active "T1".
Proof.
  destruct (issue_bearer_reuses "abc" sample.config_active "T1") as (_ & _ & H).
  - vm_compute. discriminate.
  - apply H.
Defined.

(** *** The gate lets through only what it resolved *)

Lemma startswith_app (p s : string) : Py.startswith (p +:+ s) p = true.
Proof.
  unfold Py.startswith. induction p as [|c p IH]; simpl; [by destruct s|].
  case_match; [done | congruence].
Qed.

Lemma startswith_inv (s p : string) :
  Py.startswith s p = true → ∃ rest, s = p +:+ rest.
Proof.
  unfold Py.startswith. revert s. induction p as [|c p IH]; intros s; simpl.
  - by exists s.
  - destruct s as [|c' s]; [done|]. simpl. case_match; [subst c'|done].
    intros Hp. destruct (IH _ Hp) as [rest ->]. by exists rest.
Qed.

(** On a team-scoped path the middleware calls the next layer only for a
    header that starts with [Bearer ] and whose stripped remainder is a
    token of the table with a non-empty team; the request state then
    carries exactly that team and token and is not an admin state. *)
Theorem gate_passes_resolved_team
    (config : AuthConfig) (path : string) (auth_header : option string)
    (rs : RequestState) :
  tracker.team_scoped path = true →
  dispatch config main.public_paths path auth_header = CallNext rs →
  let token := Py.strip (Py.replace_first "Bearer " "" (default "" auth_header)) in
  Py.startswith (default "" auth_header) "Bearer " = true ∧
  token ≠ "" ∧
  (∃ team, resolve_team_id config token = Some team ∧ team ≠ "" ∧
           require_team_id rs = Some team) ∧
  rs = mkRequestState (resolve_team_id config token) (Some token) false.
Proof.
  intros Hscope. apply andb_true_iff in Hscope as [Hpub Hadm].
  apply negb_true_iff in Hpub, Hadm.
  unfold dispatch. rewrite Hpub.
  destruct (Py.startswith (default "" auth_header) "Bearer "); simpl; [|done].
  destruct (Py.truthy _) eqn:Htok; simpl; [|done].
  rewrite Hadm.
  destruct (Py.truthy_opt _) eqn:Hteam; simpl; [|done].
  intros [= <-]. split_and!; try done.
  - intros E. by rewrite E in Htok.
  - apply truthy_opt_true in Hteam as (team & Hres & Hne).
    exists team. split_and!; try done.
    unfold require_team_id. simpl. rewrite Hres.
    destruct team; done.
Qed.

Lemma gate_passes_resolved_team_witness :
  dispatch sample.config_active main.public_paths "/client/heartbeat" (Some "Bearer tok")
  = CallNext (mkRequestState (Some "KC") (Some "tok") false).
Proof.
  assert (E : ∃ rs, dispatch sample.config_active main.public_paths "/client/heartbeat"
                      (Some "Bearer tok") = CallNext rs) by (eexists; vm_compute; done).
  destruct E as [rs E]. rewrite E. f_equal.
  destruct (gate_passes_resolved_team sample.config_active "/client/heartbeat"
              (Some "Bearer tok") rs) as (_ & _ & _ & ->); [reflexivity | exact E |].
  reflexivity.
Defined.

(** In the admin namespace the middleware calls the next layer only when
    an admin bearer is configured and the token equals it; the request
    state is then an admin state without a team, so no team route can be
    reached through it.  Without a configured admin bearer every request
    that carries a token is answered 503. *)
Theorem gate_admin_namespace
    (config : AuthConfig) (path : string) (auth_header : option string) :
  Py.startswith path "/admin/" = true →
  path ∉ main.public_paths →
  let token := Py.strip (Py.replace_first "Bearer " "" (default "" auth_header)) in
  (∀ rs, dispatch config main.public_paths path auth_header = CallNext rs →
         admin_bearer config = Some token ∧ token ≠ "" ∧
         rs = mkRequestState None None true ∧ require_team_id rs = None) ∧
  (Py.startswith (default "" auth_header) "Bearer " = true → token ≠ "" →
   (admin_bearer config = None ∨ admin_bearer config = Some "") →
   dispatch config main.public_paths path auth_header
   = Reject (models.JSONError 503 "admin bearer not configured")) ∧
  (Py.startswith (default "" auth_header) "Bearer " = true → token ≠ "" →
   ∀ configured, admin_bearer config = Some configured → configured ≠ "" →
                 configured ≠ token →
   dispatch config main.public_paths path auth_header
   = Reject (models.JSONError 401 "invalid admin bearer")).
Proof.
  intros Hadm Hpub. cbv zeta.
  assert (Hgate : bool_decide (path ∈ main.public_paths)
                  || Py.startswith path "/docs" || Py.startswith path "/openapi"
                  || Py.startswith path "/redoc" = false).
  { rewrite bool_decide_eq_false_2 by done.
    destruct (startswith_inv _ _ Hadm) as [rest ->]. reflexivity. }
  unfold dispatch. rewrite Hgate. clear Hgate. split_and!.
  - intros rs.
    destruct (Py.startswith (default "" auth_header) "Bearer "); simpl; [|done].
    destruct (Py.truthy _) eqn:Htok; simpl; [|done].
    rewrite Hadm. unfold is_admin_bearer.
    destruct (Py.truthy_opt (admin_bearer config)) eqn:Hcfg; simpl; [|done].
    case_bool_decide as Heq; simpl; [|done].
    intros [= <-]. split_and!; try done. intros E. by rewrite E in Htok.
  - intros Hpre Htok Hnone. rewrite Hpre. simpl.
    destruct (Py.truthy _) eqn:Ht; simpl; [|by destruct (Py.strip _)].
    rewrite Hadm. apply truthy_opt_false in Hnone. by rewrite Hnone.
  - intros Hpre Htok configured Hcfg Hne Hdiff. rewrite Hpre. simpl.
    destruct (Py.truthy _) eqn:Ht; simpl; [|by destruct (Py.strip _)].
    rewrite Hadm. unfold is_admin_bearer. rewrite Hcfg. simpl.
    destruct configured; [done|]. simpl.
    rewrite bool_decide_eq_false_2; [done|]. intros [= E]. by apply Hdiff.
Qed.

Lemma gate_admin_namespace_witness :
  dispatch sample.config_active main.public_paths "/admin/keys" (Some "Bearer tok")
  = Reject (models.JSONError 503 "admin bearer not configured").
Proof.
  destruct (gate_admin_namespace sample.config_active "/admin/keys" (Some "Bearer tok"))
    as (_ & H & _).
  - reflexivity.
  - vm_compute. set_solver.
  - apply H; [reflexivity | discriminate | by left].
Defined.

End TokenTable.

(** ** Activation through the application *)

Section Activation.
Import models main.

(** What [activate] returns, by the outcome of the validation. *)
Lemma activate_refused sw env s p err :
  (auth.validate_activation_key (now_epoch env) (auth_config s)
     (ActivationRequest.validation_key p)).1 = (None, Some err) →
  err ≠ "" →
  activate sw env s p = mkOutcome (JSONError 400 err) s [].
Proof.
  unfold activate.
  destruct (auth.validate_activation_key _ _ _) as [[team e] config1] eqn:E.
  simpl. intros [= -> ->] Hne.
  apply validate_failure_keeps_config in E as ->.
  destruct err; [done|]. simpl. by destruct s.
Qed.

Lemma activate_accepted sw env s p team :
  (auth.validate_activation_key (now_epoch env) (auth_config s)
     (ActivationRequest.validation_key p)).1 = (Some team, None) →
  let config1 := auth.consume_key (auth_config s) (ActivationRequest.validation_key p) in
  let issued := auth.issue_bearer_for_team (uuid_hex env) config1 team in
  let log := [AppendActivationRow issued.1 team "activation" true (now_iso env) ""
                (ActivationRequest.validation_key p)] in
  activate sw env s p =
    mkOutcome
      (if enabled sw
          && Py.is_none (append_activation_row sw issued.1 team "activation" true
                           (now_iso env) "" (ActivationRequest.validation_key p))
       then JSONError 502 "failed to write activation to sheets"
       else ActivationResponse issued.1 team)
      (set_auth_config s issued.2) log.
Proof.
  unfold activate.
  destruct (auth.validate_activation_key _ _ _) as [[team' e] config1] eqn:E.
  simpl. intros [= -> ->].
  apply validate_success_inv in E as (_ & _ & _ & Hne & _ & ->).
  destruct team as [|c team]; [done|]. simpl.
  destruct (auth.issue_bearer_for_team _ _ _) as [bearer config2]. simpl.
  by destruct (enabled sw && _).
Qed.

(** An [/activate] answered 502 has consumed the validation key all the
    same: the key is in the used set and gone from the active mapping, the
    token is in the table, and the same key sent again is answered 400
    "validation key already used" without any adapter call. *)
Theorem activate_failure_consumes_key
    (sw : SheetsWriter) (env : Env) (s : AppState) (p : ActivationRequest.t)
    (message : string) :
  response (activate sw env s p) = JSONError 502 message →
  let s' := state (activate sw env s p) in
  ActivationRequest.validation_key p ∈ auth.used_keys (auth_config s') ∧
  auth.validation_keys (auth_config s') !! ActivationRequest.validation_key p = None ∧
  ∀ sw' env' p',
    ActivationRequest.validation_key p' = ActivationRequest.validation_key p →
    activate sw' env' s' p' = mkOutcome (JSONError 400 "validation key already used") s' [].
Proof.
  intros H502. cbv zeta.
  destruct (auth.validate_activation_key (now_epoch env) (auth_config s)
              (ActivationRequest.validation_key p)) as [[[team|] err] config1] eqn:E.
  - pose proof E as E'.
    apply validate_success_inv in E' as (_ & _ & _ & _ & -> & ->).
    rewrite (activate_accepted sw env s p team) by (by rewrite E).
    simpl.
    assert (Hused : ∀ u c t k, k ∈ auth.used_keys c →
                               k ∈ auth.used_keys (auth.issue_bearer_for_team u c t).2).
    { intros u c t k Hk. unfold auth.issue_bearer_for_team.
      by destruct (Py.truthy_opt _). }
    assert (Hkeys : ∀ u c t, auth.validation_keys (auth.issue_bearer_for_team u c t).2
                             = auth.validation_keys c).
    { intros u c t. unfold auth.issue_bearer_for_team. by destruct (Py.truthy_opt _). }
    split_and!.
    + apply Hused. simpl. set_solver.
    + rewrite Hkeys. simpl. apply lookup_delete_eq.
    + intros sw' env' p' Hp'. apply activate_refused; [|done].
      simpl. rewrite Hp'. rewrite validate_used; [done|].
      apply Hused. simpl. set_solver.
  - exfalso. revert H502. unfold activate. rewrite E.
    destruct (Py.truthy_opt err); done.
Qed.

Lemma activate_failure_consumes_key_witness :
  response (activate sample.writer_failing sample.env0 (initial fixtures.config_fixture)
              fixtures.activation_payload)
    = JSONError 502 "failed to write activation to sheets" ∧
  response
    (activate sample.writer_ok sample.env0
       (state (activate sample.writer_failing sample.env0
                 (initial fixtures.config_fixture) fixtures.activation_payload))
       fixtures.activation_payload)
    = JSONError 400 "validation key already used".
Proof.
  assert (H502 : response (activate sample.writer_failing sample.env0
                             (initial fixtures.config_fixture) fixtures.activation_payload)
                 = JSONError 502 "failed to write activation to sheets")
    by (vm_compute; reflexivity).
  split; [exact H502|].
  destruct (activate_failure_consumes_key _ _ _ _ _ H502) as (_ & _ & H).
  by rewrite (H sample.writer_ok sample.env0 fixtures.activation_payload).
Defined.

Lemma replace_bearer_prefix (token : string) :
  Py.replace_first "Bearer " "" ("Bearer " +:+ token) = token.
Proof. destruct token; reflexivity. Qed.

(** What the middleware does with a well-formed header on a team-scoped
    path. *)
Lemma dispatch_bearer config path token team :
  tracker.team_scoped path = true →
  Py.strip token = token → Py.truthy token = true →
  auth.resolve_team_id config token = Some team → team ≠ "" →
  auth.dispatch config public_paths path (Some ("Bearer " +:+ token))
  = auth.CallNext (auth.mkRequestState (Some team) (Some token) false).
Proof.
  intros Hscope Hstrip Htok Hres Hteam.
  apply andb_true_iff in Hscope as [Hpub Hadm]. apply negb_true_iff in Hpub, Hadm.
  unfold auth.dispatch. rewrite Hpub.
  replace (default "" (Some ("Bearer " +:+ token))) with ("Bearer " +:+ token)
    by reflexivity.
  rewrite startswith_app. cbn [negb].
  rewrite replace_bearer_prefix, Hstrip, Htok. cbn [negb]. rewrite Hadm, Hres.
  destruct team; done.
Qed.

(** A token handed out by [/activate] opens the gate: it resolves to the
    team of the key, and, provided it has no white space at either end, a
    heartbeat sent with [Authorization: Bearer <token>] reaches the
    handler as that team. *)
Theorem activation_token_opens_gate
    (sw : SheetsWriter) (env : Env) (s : AppState) (p : ActivationRequest.t)
    (bearer team_id : string) :
  NoDup (auth.api_keys (auth_config s)).*1 →
  response (activate sw env s p) = ActivationResponse bearer team_id →
  let s' := state (activate sw env s p) in
  auth.validation_keys (auth_config s) !! ActivationRequest.validation_key p = Some team_id ∧
  auth.resolve_team_id (auth_config s') bearer = Some team_id ∧
  NoDup (auth.api_keys (auth_config s')).*1 ∧
  (Py.strip bearer = bearer →
   ∀ sw' env' hb,
     app sw' env' s' (mkHttpRequest (PostHeartbeat hb) (Some ("Bearer " +:+ bearer)))
     = client_heartbeat s' team_id hb).
Proof.
  intros Hd Hok. cbv zeta.
  destruct (auth.validate_activation_key (now_epoch env) (auth_config s)
              (ActivationRequest.validation_key p)) as [[[team|] err] config1] eqn:E.
  2: { exfalso. revert Hok. unfold activate. rewrite E. by destruct (Py.truthy_opt err). }
  pose proof E as E'.
  apply validate_success_inv in E' as (_ & _ & Hkey & Hteam & -> & ->).
  revert Hok. rewrite (activate_accepted sw env s p team) by (by rewrite E). simpl.
  destruct (enabled sw && _); [done|]. intros [= <- <-].
  destruct (issue_bearer_table (uuid_hex env)
              (auth.consume_key (auth_config s) (ActivationRequest.validation_key p)) team)
    as (Hres & Hd'); [done|].
  split_and!; try done.
  intros Hstrip sw' env' hb.
  assert (Hb : Py.truthy (auth.issue_bearer_for_team (uuid_hex env)
                 (auth.consume_key (auth_config s) (ActivationRequest.validation_key p))
                 team).1 = true).
  { unfold auth.issue_bearer_for_team.
    destruct (auth._find_existing_bearer _ _) as [[|c b]|]; simpl; try apply minted_truthy.
    done. }
  unfold app. cbn [endpoint authorization path_of].
  rewrite (dispatch_bearer _ "/client/heartbeat" _ team) by done.
  unfold route, with_team, auth.require_team_id. cbn [auth.team_id].
  destruct team as [|c team]; done.
Qed.

Lemma activation_token_opens_gate_witness :
  app sample.writer_ok sample.env0
    (state (activate sample.writer_off sample.env0 (initial fixtures.config_fixture)
              fixtures.activation_payload))
    (mkHttpRequest (PostHeartbeat sample.heartbeat_payload)
       (Some ("Bearer " +:+ "kc_abcdef0123456789")))
  = client_heartbeat
      (state (activate sample.writer_off sample.env0 (initial fixtures.config_fixture)
                fixtures.activation_payload))
      "KC" sample.heartbeat_payload.
Proof.
  assert (Hok : response (activate sample.writer_off sample.env0
                            (initial fixtures.config_fixture) fixtures.activation_payload)
                = ActivationResponse "kc_abcdef0123456789" "KC")
    by (vm_compute; reflexivity).
  destruct (activation_token_opens_gate sample.writer_off sample.env0
              (initial fixtures.config_fixture) fixtures.activation_payload
              "kc_abcdef0123456789" "KC") as (_ & _ & _ & H).
  - apply NoDup_nil_2.
  - exact Hok.
  - apply H. reflexivity.
Defined.

End Activation.

(** ** What a request can and cannot do *)

(** Case analysis on the way of a request: the middleware, the route, the
    team dependency; then on the branches of the handler; then on whether a
    table entry is the one of a given team. *)
Ltac through_gate :=
  unfold main.app, main.route, main.with_team; cbn [main.endpoint main.authorization] in *;
  repeat match goal with
         | |- context [auth.dispatch ?a ?b ?c ?d] =>
             let E := fresh "Egate" in destruct (auth.dispatch a b c d) eqn:E
         | |- context [match ?e with main.PostActivate _ => _ | _ => _ end] => destruct e
         | |- context [auth.require_team_id ?rs] =>
             let E := fresh "Eteam" in destruct (auth.require_team_id rs) eqn:E
         end; cbn [main.response main.state main.calls].

Ltac every_branch :=
  unfold main.activate, main.client_heartbeat, main.champ_select_start,
    main.draft_complete, main.game_start, main.game_finished, main.stream_ready,
    main.mark_and_ack, main._get_game_counter;
  repeat case_match; simpl in *; simplify_eq.

Ltac for_team t :=
  repeat match goal with
         | H : context [<[?t0 := _]> _ !! t] |- _ =>
             destruct (decide (t0 = t)) as [->|];
             [rewrite lookup_insert_eq in H | rewrite lookup_insert_ne in H by done]
         | H : context [delete ?t0 _ !! t] |- _ =>
             destruct (decide (t0 = t)) as [->|];
             [rewrite lookup_delete_eq in H | rewrite lookup_delete_ne in H by done]
         | |- context [<[?t0 := _]> _ !! t] =>
             destruct (decide (t0 = t)) as [->|];
             [rewrite lookup_insert_eq | rewrite lookup_insert_ne by done]
         | |- context [delete ?t0 _ !! t] =>
             destruct (decide (t0 = t)) as [->|];
             [rewrite lookup_delete_eq | rewrite lookup_delete_ne by done]
         end.

Section Requests.
Import models main.

(** The middleware answers by itself only with 401 or 503. *)
Lemma dispatch_reject_codes config pp path hdr r :
  auth.dispatch config pp path hdr = auth.Reject r →
  ∃ message, r = JSONError 401 message ∨ r = JSONError 503 message.
Proof.
  unfold auth.dispatch. repeat case_match; intros; simplify_eq; eauto.
Qed.

(** The credential store changes only through [/activate], and
    [/activate] changes nothing else: no session, no counter, no dedupe
    key. *)
Theorem credentials_change_only_by_activate
    (sw : SheetsWriter) (env : Env) (s : AppState) (req : HttpRequest) :
  ((∀ p, endpoint req ≠ PostActivate p) →
   auth_config (state (app sw env s req)) = auth_config s) ∧
  (∀ p, endpoint req = PostActivate p →
        draft_cache (state (app sw env s req)) = draft_cache s ∧
        game_counters (state (app sw env s req)) = game_counters s ∧
        event_dedupe (state (app sw env s req)) = event_dedupe s).
Proof.
  destruct req as [ep hdr]. split.
  - intros Hep. through_gate; try done.
    all: try (by exfalso; eapply Hep).
    all: every_branch; done.
  - intros p Hp. simpl in Hp. subst ep. through_gate; try done. every_branch; done.
Qed.

Lemma credentials_change_only_by_activate_witness :
  auth_config (state (app sample.writer_ok sample.env0 sample.state_active
                        (sample.as_kc (PostGameFinished sample.game_finished_payload))))
  = auth_config sample.state_active.
Proof.
  apply (proj1 (credentials_change_only_by_activate sample.writer_ok sample.env0
                  sample.state_active
                  (sample.as_kc (PostGameFinished sample.game_finished_payload)))).
  discriminate.
Defined.

(** A request leaves the session and the counters of every team other
    than the one its token resolved to as they were. *)
Theorem other_teams_untouched
    (sw : SheetsWriter) (env : Env) (s : AppState) (req : HttpRequest) (team_id : string) :
  (∀ rs, auth.dispatch (auth_config s) public_paths (path_of (endpoint req))
           (authorization req) = auth.CallNext rs →
         auth.require_team_id rs ≠ Some team_id) →
  draft_cache (state (app sw env s req)) !! team_id = draft_cache s !! team_id ∧
  game_counters (state (app sw env s req)) !! team_id = game_counters s !! team_id.
Proof.
  destruct req as [ep hdr]. cbn [endpoint authorization]. intros Hother.
  through_gate; try done.
  all: try (assert (s0 ≠ team_id) by (intros ->; by eapply Hother)).
  all: every_branch; for_team team_id; done.
Qed.

(** Team T1 starts a game; the session of team KC is as it was. *)
Lemma other_teams_untouched_witness :
  response (app sample.writer_ok sample.env0 fixtures.state_two_teams
              (mkHttpRequest (PostChampSelectStart sample.start_payload)
                 (Some "Bearer tok-t1")))
    = GameSessionResponse "ok" None (Some "g_20260107_0000_abcd") (Some 1) ∧
  draft_cache (state (app sample.writer_ok sample.env0 fixtures.state_two_teams
                        (mkHttpRequest (PostChampSelectStart sample.start_payload)
                           (Some "Bearer tok-t1")))) !! "KC"
  = draft_cache fixtures.state_two_teams !! "KC".
Proof.
  split; [vm_compute; reflexivity|].
  apply (other_teams_untouched sample.writer_ok sample.env0 fixtures.state_two_teams
           (mkHttpRequest (PostChampSelectStart sample.start_payload)
              (Some "Bearer tok-t1")) "KC").
  intros rs. vm_compute. intros [= <-]. discriminate.
Defined.

(** With a writer that is not enabled no request is answered 502 and no
    dedupe row is written. *)
Theorem disabled_store_never_fails
    (sw : SheetsWriter) (env : Env) (s : AppState) (req : HttpRequest) :
  enabled sw = false →
  (∀ message, response (app sw env s req) ≠ JSONError 502 message) ∧
  (∀ key created_at, AppendDedupeRow key created_at ∉ calls (app sw env s req)).
Proof.
  destruct req as [ep hdr]. intros Hoff. split.
  - intros message. through_gate; try done.
    + destruct (dispatch_reject_codes _ _ _ _ _ Egate) as [m [-> | ->]]; done.
    + every_branch; rewrite ?Hoff in *; simpl in *; done.
    + every_branch; rewrite ?Hoff in *; simpl in *; done.
    + every_branch; rewrite ?Hoff in *; simpl in *; done.
    + every_branch; rewrite ?Hoff in *; simpl in *; done.
    + every_branch; rewrite ?Hoff in *; simpl in *; done.
    + every_branch; rewrite ?Hoff in *; simpl in *; done.
    + every_branch; rewrite ?Hoff in *; simpl in *; done.
  - intros key created_at. through_gate; try apply not_elem_of_nil.
    all: every_branch; rewrite ?Hoff in *; simpl in *; try done.
    all: rewrite ?elem_of_cons, ?elem_of_nil; intuition congruence.
Qed.

Lemma disabled_store_never_fails_witness :
  response (app sample.writer_off sample.env0 sample.state_active
              (sample.as_kc (PostGameStart sample.game_start_payload)))
  ≠ JSONError 502 "failed to update game row in sheets".
Proof.
  apply (proj1 (disabled_store_never_fails sample.writer_off sample.env0
                  sample.state_active
                  (sample.as_kc (PostGameStart sample.game_start_payload))
                  eq_refl)).
Defined.

(** Without a session for the submitted game id, [draft_complete],
    [game_start] and [game_finished] answer 400 "no active game for team",
    make no adapter call and return the state they were given. *)
Theorem no_matching_session_is_400
    (sw : SheetsWriter) (env : Env) (s : AppState) (team_id game_id : string) :
  (∀ cache, draft_cache s !! team_id = Some cache → DraftCache.game_id cache ≠ game_id) →
  let refused := mkOutcome (JSONError 400 "no active game for team") s [] in
  (∀ draft, draft_complete sw s team_id (DraftCompleteRequest.mk game_id draft) = refused) ∧
  (∀ positions,
     game_start sw env s team_id (GameStartRequest.mk game_id positions) = refused) ∧
  (∀ win, game_finished sw env s team_id (GameFinishedRequest.mk game_id win) = refused).
Proof.
  intros Hno. cbv zeta.
  unfold draft_complete, game_start, game_finished. simpl.
  destruct (draft_cache s !! team_id) as [cache|]; [|done].
  specialize (Hno cache eq_refl). apply String.eqb_neq in Hno. rewrite Hno. done.
Qed.

Lemma no_matching_session_is_400_witness :
  game_finished sample.writer_ok sample.env0 sample.state_active "KC"
    (GameFinishedRequest.mk "g_other" "W")
  = mkOutcome (JSONError 400 "no active game for team") sample.state_active [].
Proof.
  destruct (no_matching_session_is_400 sample.writer_ok sample.env0 sample.state_active
              "KC" "g_other") as (_ & _ & H).
  - intros cache. vm_compute. intros [= <-]. discriminate.
  - apply H.
Defined.

(** A [champ_select_start] that creates a session (no message in its
    answer) stores the game id and number it answers with, a draft counter
    of zero, the request's date and the locator the append returned; the
    number is the counter it left for the team and date; and a heartbeat
    of the team then reports that game id and number. *)
Theorem created_session_is_reported
    (sw : SheetsWriter) (env : Env) (s : AppState) (team_id : string)
    (p : ChampSelectStartRequest.t) (status game_id : string) (game_number : Z) :
  response (champ_select_start sw env s team_id p)
    = GameSessionResponse status None (Some game_id) (Some game_number) →
  let s' := state (champ_select_start sw env s team_id p) in
  draft_cache s !! team_id = None ∧
  game_id = _generate_game_id env ∧
  game_number = counter_of s' team_id (ChampSelectStartRequest.date p) ∧
  (∃ cache,
     draft_cache s' !! team_id = Some cache ∧
     DraftCache.game_id cache = game_id ∧
     DraftCache.game_number cache = game_number ∧
     DraftCache.draft_count cache = 0 ∧
     DraftCache.date cache = ChampSelectStartRequest.date p ∧
     DraftCache.row_index cache = append_game_row sw (_build_row (DraftCache.row_data cache)) ∧
     DraftCache.row_data cache !! "game_number" = Some (Py.str game_number)) ∧
  ∀ hb, client_heartbeat s' team_id hb
        = mkOutcome (GameSessionResponse "ok" None (Some game_id) (Some game_number)) s' [].
Proof.
  unfold champ_select_start.
  destruct (draft_cache s !! team_id) as [cache|] eqn:Hc; [done|].
  unfold _get_game_counter. cbn [fst snd].
  destruct (enabled sw && _); [done|]. cbn [response state].
  intros [= <- <- <-]. cbv zeta.
  split_and!; try done.
  - unfold counter_of. simpl. rewrite lookup_insert_eq. simpl. by rewrite lookup_insert_eq.
  - eexists. split; [apply store_cache_lookup|]. simpl. split_and!; try done.
  - intros hb. unfold client_heartbeat. by rewrite store_cache_lookup.
Qed.

Lemma created_session_is_reported_witness :
  response (champ_select_start sample.writer_ok sample.env0 sample.state_idle "KC"
              sample.start_payload)
    = GameSessionResponse "ok" None (Some "g_20260107_0000_abcd") (Some 1) ∧
  response
    (client_heartbeat
       (state (champ_select_start sample.writer_ok sample.env0 sample.state_idle "KC"
                 sample.start_payload)) "KC" sample.heartbeat_payload)
    = GameSessionResponse "ok" None (Some "g_20260107_0000_abcd") (Some 1).
Proof.
  assert (Hok : response (champ_select_start sample.writer_ok sample.env0 sample.state_idle
                            "KC" sample.start_payload)
                = GameSessionResponse "ok" None (Some "g_20260107_0000_abcd") (Some 1))
    by (vm_compute; reflexivity).
  split; [exact Hok|].
  destruct (created_session_is_reported _ _ _ _ _ _ _ _ Hok) as (_ & _ & _ & _ & H).
  by rewrite H.
Defined.

(** A session that is still there after a request has kept its game id,
    game number and date, and a row locator it had. *)
Lemma app_session_identity sw env s (ep : Endpoint) hdr t c c' :
  draft_cache s !! t = Some c →
  draft_cache (state (app sw env s (mkHttpRequest ep hdr))) !! t = Some c' →
  DraftCache.game_id c' = DraftCache.game_id c ∧
  DraftCache.game_number c' = DraftCache.game_number c ∧
  DraftCache.date c' = DraftCache.date c ∧
  (∀ i, DraftCache.row_index c = Some i → DraftCache.row_index c' = Some i).
Proof.
  intros Hc. through_gate; try (intros; simplify_eq; done).
  all: every_branch; intros Hc'; for_team t; simplify_eq; simpl; try done.
  all: split_and!; try done; congruence.
Qed.

(** While a session lasts, its game id, game number and date never change
    and its row locator, once set, stays the same; a locator appears only
    as the result of an [append_game_row] call of that request. *)
Theorem session_identity_is_stable
    (sw : SheetsWriter) (env : Env) (s : AppState) (req : HttpRequest)
    (team_id : string) (cache cache' : DraftCache.t) :
  draft_cache s !! team_id = Some cache →
  draft_cache (state (app sw env s req)) !! team_id = Some cache' →
  DraftCache.game_id cache' = DraftCache.game_id cache ∧
  DraftCache.game_number cache' = DraftCache.game_number cache ∧
  DraftCache.date cache' = DraftCache.date cache ∧
  (∀ i, DraftCache.row_index cache = Some i → DraftCache.row_index cache' = Some i) ∧
  (DraftCache.row_index cache = None →
   ∀ j, DraftCache.row_index cache' = Some j →
        ∃ row, AppendGameRow row ∈ calls (app sw env s req) ∧
               append_game_row sw row = Some j).
Proof.
  destruct req as [ep hdr]. intros Hc Hc'.
  destruct (app_session_identity _ _ _ _ _ _ _ _ Hc Hc') as (? & ? & ? & ?).
  split_and!; try done.
  revert Hc'. through_gate; try (intros; simplify_eq; congruence).
  all: every_branch; intros Hc' Hnone j Hj; for_team team_id; simplify_eq; simpl in *;
    try congruence.
  all: eexists; split; [apply list_elem_of_here | done].
Qed.

(** A first draft on a session without a locator: the session keeps its
    game id and takes the locator the append returned. *)
Lemma session_identity_is_stable_witness :
  ∃ cache',
    draft_cache (state (app sample.writer_ok sample.env0 fixtures.state_unwritten
                          (sample.as_kc (PostDraftComplete sample.draft_payload)))) !! "KC"
      = Some cache' ∧
    DraftCache.game_id cache' = "g_test" ∧
    DraftCache.row_index cache' = Some 5 ∧
    ∃ row, AppendGameRow row
             ∈ calls (app sample.writer_ok sample.env0 fixtures.state_unwritten
                        (sample.as_kc (PostDraftComplete sample.draft_payload))) ∧
           append_game_row sample.writer_ok row = Some 5.
Proof.
  destruct (draft_cache (state (app sample.writer_ok sample.env0 fixtures.state_unwritten
                                  (sample.as_kc (PostDraftComplete sample.draft_payload))))
              !! "KC") as [cache'|] eqn:Hc'; [|vm_compute in Hc'; discriminate].
  exists cache'. split; [reflexivity|].
  assert (Hri : DraftCache.row_index cache' = Some 5).
  { vm_compute in Hc'. injection Hc' as <-. reflexivity. }
  destruct (session_identity_is_stable sample.writer_ok sample.env0 fixtures.state_unwritten
              (sample.as_kc (PostDraftComplete sample.draft_payload)) "KC"
              fixtures.session_unwritten cache' eq_refl Hc') as (Hid & _ & _ & _ & Hrow).
  split; [exact Hid|]. split; [exact Hri|].
  exact (Hrow eq_refl 5 Hri).
Defined.

(** A cell that the merge loop changed is a whitelisted column and holds
    the value of the update. *)
Lemma merge_changes_cell (row_data updates : gmap string string) (column : string) :
  _update_row_data row_data updates !! column ≠ row_data !! column →
  column ∈ GAME_COLUMNS_SET ∧ _update_row_data row_data updates !! column = updates !! column.
Proof.
  rewrite update_row_data_lookup.
  destruct (updates !! column); [|done].
  destruct (decide (column ∈ GAME_COLUMNS_SET)); done.
Qed.

(** The row-field map of a lasting session after a request: as it was, or
    merged with what the handler takes from the payload. *)
Lemma app_row_data sw env s (ep : Endpoint) hdr t c c' :
  draft_cache s !! t = Some c →
  draft_cache (state (app sw env s (mkHttpRequest ep hdr))) !! t = Some c' →
  DraftCache.row_data c' = DraftCache.row_data c ∨
  match ep with
  | PostDraftComplete p =>
      DraftCache.row_data c'
      = _update_row_data (DraftCache.row_data c) (DraftCompleteRequest.draft p)
  | PostGameStart p =>
      DraftCache.row_data c'
      = _update_row_data (DraftCache.row_data c)
          (filter (λ kv, kv.1 ∈ POSITION_COLUMNS) (GameStartRequest.positions p))
  | PostGameFinished p =>
      DraftCache.row_data c'
      = _update_row_data (DraftCache.row_data c) {[ "win" := GameFinishedRequest.win p ]}
  | _ => False
  end.
Proof.
  intros Hc. through_gate; try (intros; simplify_eq; by left).
  all: every_branch; intros Hc'; for_team t; simplify_eq; simpl; auto.
Qed.

(** Every cell of a lasting session's row-field map that a request changes
    takes its value from the payload: [draft_complete] can set any column of
    the whitelist, [game_start] only position columns, [game_finished] only
    [win]; no other request changes a cell, and a key outside the whitelist
    is never stored. *)
Theorem changed_cells_come_from_payload
    (sw : SheetsWriter) (env : Env) (s : AppState) (req : HttpRequest)
    (team_id : string) (cache cache' : DraftCache.t) (column : string) :
  draft_cache s !! team_id = Some cache →
  draft_cache (state (app sw env s req)) !! team_id = Some cache' →
  DraftCache.row_data cache' !! column ≠ DraftCache.row_data cache !! column →
  column ∈ GAME_COLUMNS_SET ∧
  match endpoint req with
  | PostDraftComplete p =>
      DraftCache.row_data cache' !! column = DraftCompleteRequest.draft p !! column
  | PostGameStart p =>
      column ∈ POSITION_COLUMNS ∧
      DraftCache.row_data cache' !! column = GameStartRequest.positions p !! column
  | PostGameFinished p =>
      column = "win" ∧
      DraftCache.row_data cache' !! column = Some (GameFinishedRequest.win p)
  | _ => False
  end.
Proof.
  destruct req as [ep hdr]. cbn [endpoint]. intros Hc Hc' Hne.
  destruct (app_row_data _ _ _ _ _ _ _ _ Hc Hc') as [Hsame|Hrow].
  { by rewrite Hsame in Hne. }
  destruct ep as [p|p|p|p|p|p|p|path]; try (exfalso; exact Hrow).
  - rewrite Hrow in Hne |- *.
    destruct (merge_changes_cell _ _ _ Hne) as [Hcol Hval]. split; assumption.
  - rewrite Hrow in Hne |- *.
    destruct (merge_changes_cell _ _ _ Hne) as [Hcol Hval]. split; [assumption|].
    rewrite Hval. clear Hval Hrow. rewrite update_row_data_lookup in Hne.
    destruct (GameStartRequest.positions p !! column) as [v|] eqn:Hv.
    + destruct (decide (column ∈ POSITION_COLUMNS)) as [Hpos|Hpos].
      * split; [assumption|]. apply map_lookup_filter_Some_2; assumption.
      * exfalso. apply Hne.
        rewrite (proj2 (map_lookup_filter_None _ _ _)); [reflexivity|].
        right. intros x _. exact Hpos.
    + exfalso. apply Hne.
      rewrite (proj2 (map_lookup_filter_None _ _ _)) by (by left). reflexivity.
  - rewrite Hrow in Hne |- *.
    destruct (merge_changes_cell _ _ _ Hne) as [Hcol Hval]. split; [assumption|].
    rewrite Hval. clear Hval Hrow. rewrite update_row_data_lookup in Hne.
    destruct (decide (column = "win")) as [->|Hcol'].
    + split; [reflexivity|]. apply lookup_singleton_eq.
    + exfalso. apply Hne. rewrite lookup_singleton_ne by congruence. reflexivity.
Qed.

(** The accepted [game_start] of the test changes the cell [BM], a
    position column, to the submitted value. *)
Lemma changed_cells_come_from_payload_witness :
  ∃ cache',
    draft_cache (state (app sample.writer_ok sample.env0 sample.state_active
                          (sample.as_kc (PostGameStart sample.game_start_payload)))) !! "KC"
      = Some cache' ∧
    "BM" ∈ POSITION_COLUMNS ∧
    DraftCache.row_data cache' !! "BM" = Some "Azir".
Proof.
  destruct (draft_cache (state (app sample.writer_ok sample.env0 sample.state_active
                                  (sample.as_kc (PostGameStart sample.game_start_payload))))
              !! "KC") as [cache'|] eqn:Hc'; [|vm_compute in Hc'; discriminate].
  exists cache'. split; [reflexivity|].
  assert (Hne : DraftCache.row_data cache' !! "BM"
                ≠ DraftCache.row_data sample.session_kc !! "BM").
  { vm_compute in Hc'. injection Hc' as <-. vm_compute. discriminate. }
  destruct (changed_cells_come_from_payload sample.writer_ok sample.env0
              sample.state_active
              (sample.as_kc (PostGameStart sample.game_start_payload))
              "KC" sample.session_kc cache' "BM" eq_refl Hc' Hne) as (_ & Hpos & Hval).
  split; [exact Hpos|]. rewrite Hval. reflexivity.
Defined.

End Requests.

(** ** The life of a session and of a dedupe key *)

Section Lifecycle.
Import models main.

(** The session table has two transitions only.  A team's session
    disappears only through a [game_finished] with the session's game id
    that is answered [Ack]; a session appears only through a
    [champ_select_start] answered 200 with the new session's game id and
    number, and starts with a draft counter of zero. *)
Theorem sessions_start_and_finish
    (sw : SheetsWriter) (env : Env) (s : AppState) (req : HttpRequest) (team_id : string) :
  let o := app sw env s req in
  (∀ cache,
     draft_cache s !! team_id = Some cache → draft_cache (state o) !! team_id = None →
     ∃ p, endpoint req = PostGameFinished p ∧
          GameFinishedRequest.game_id p = DraftCache.game_id cache ∧
          response o = Ack "ok") ∧
  (∀ cache',
     draft_cache s !! team_id = None → draft_cache (state o) !! team_id = Some cache' →
     ∃ p, endpoint req = PostChampSelectStart p ∧
          response o = GameSessionResponse "ok" None (Some (DraftCache.game_id cache'))
                         (Some (DraftCache.game_number cache')) ∧
          DraftCache.draft_count cache' = 0 ∧
          DraftCache.date cache' = ChampSelectStartRequest.date p).
Proof.
  destruct req as [ep hdr]. cbv zeta. cbn [endpoint]. split.
  - intros cache Hc. through_gate; try (intros; simplify_eq; congruence).
    all: every_branch; intros Hc'; for_team team_id; simplify_eq; simpl in *;
      try congruence.
    all: eexists; split_and!; try done.
    all: match goal with
         | H : negb (String.eqb _ _) = false |- _ =>
             apply negb_false_iff, String.eqb_eq in H; by rewrite H
         end.
  - intros cache' Hc. through_gate; try (intros; simplify_eq; congruence).
    all: every_branch; intros Hc'; for_team team_id; simplify_eq; simpl in *;
      try congruence.
    all: eexists; split_and!; done.
Qed.

Lemma sessions_start_and_finish_witness :
  ∃ p, endpoint (sample.as_kc (PostGameFinished sample.game_finished_payload))
       = PostGameFinished p ∧
       GameFinishedRequest.game_id p = "g_test" ∧
       response (app sample.writer_ok sample.env0 sample.state_active
                   (sample.as_kc (PostGameFinished sample.game_finished_payload)))
       = Ack "ok".
Proof.
  refine (proj1 (sessions_start_and_finish sample.writer_ok sample.env0 sample.state_active
                   (sample.as_kc (PostGameFinished sample.game_finished_payload)) "KC")
            sample.session_kc _ _); vm_compute; reflexivity.
Defined.

(** The dedupe set changes only when a request is answered [Ack], and
    then by exactly one key that was not in it. *)
Theorem dedupe_marks_only_on_ack
    (sw : SheetsWriter) (env : Env) (s : AppState) (req : HttpRequest) :
  let o := app sw env s req in
  (response o ≠ Ack "ok" → event_dedupe (state o) = event_dedupe s) ∧
  (response o = Ack "ok" →
   ∃ key, (key ∉ event_dedupe s) ∧ event_dedupe (state o) = {[key]} ∪ event_dedupe s).
Proof.
  destruct req as [ep hdr]. cbv zeta. split.
  - through_gate; try done. all: every_branch; done.
  - through_gate; try done.
    + destruct (dispatch_reject_codes _ _ _ _ _ Egate) as [m [-> | ->]]; done.
    + every_branch; done.
    + every_branch; done.
    + every_branch; done.
    + every_branch; done.
    + every_branch; try done; intros _; eexists; (split; [eassumption | reflexivity]).
    + every_branch; try done; intros _; eexists; (split; [eassumption | reflexivity]).
    + every_branch; try done; intros _; eexists; (split; [eassumption | reflexivity]).
Qed.

Lemma dedupe_marks_only_on_ack_witness :
  event_dedupe (state (app sample.writer_failing sample.env0 sample.state_active
                         (sample.as_kc (PostGameStart sample.game_start_payload))))
  = event_dedupe sample.state_active.
Proof.
  apply (proj1 (dedupe_marks_only_on_ack sample.writer_failing sample.env0
                  sample.state_active
                  (sample.as_kc (PostGameStart sample.game_start_payload)))).
  vm_compute. discriminate.
Defined.

Lemma build_row_length (row_data : gmap string string) :
  length (_build_row row_data) = 38%nat.
Proof. unfold _build_row. by rewrite length_fmap. Qed.

(** Whatever is served, a request makes at most two adapter calls; every
    game row it appends or updates has one cell per column (38); and an
    update targets the row locator stored in a session of the state the
    request found. *)
Theorem game_rows_are_well_formed
    (sw : SheetsWriter) (env : Env) (s : AppState) (req : HttpRequest) :
  length GAMES_COLUMNS = 38%nat ∧
  (length (calls (app sw env s req)) ≤ 2)%nat ∧
  Forall (λ call,
            match call with
            | AppendGameRow row => length row = length GAMES_COLUMNS
            | UpdateGameRow row_index row =>
                length row = length GAMES_COLUMNS ∧
                ∃ team_id cache,
                  draft_cache s !! team_id = Some cache ∧
                  DraftCache.row_index cache = Some row_index
            | _ => True
            end)
         (calls (app sw env s req)).
Proof.
  destruct req as [ep hdr].
  assert (Hlen : ∀ rd, length (_build_row rd) = length GAMES_COLUMNS)
    by (intros; apply build_row_length).
  split; [reflexivity|]. split.
  - through_gate; try (simpl; lia). all: every_branch; simpl; lia.
  - through_gate; try apply Forall_nil_2.
    all: unfold activate, client_heartbeat, champ_select_start, draft_complete, game_start,
           game_finished, stream_ready, mark_and_ack, _get_game_counter.
    all: repeat case_match; cbn [calls app]; simplify_eq.
    all: repeat first [apply Forall_nil_2 | apply Forall_cons_2 | apply Forall_app_2].
    all: try exact I.
    all: try apply Hlen.
    all: split; [apply Hlen|].
    all: eexists _, _; split; [eassumption | simpl; eassumption].
Qed.

End Lifecycle.

(** ** Rows, drafts and dedupe keys *)

Section Rows.
Import models main.

Lemma fmap_eq_pointwise {A B} (f g : A → B) (l : list A) :
  f <$> l = g <$> l ↔ ∀ x, x ∈ l → f x = g x.
Proof.
  induction l as [|a l IH]; simpl.
  - split; [intros _ x Hx; by apply elem_of_nil in Hx | done].
  - split.
    + intros [= Ha Hl] x Hx. apply elem_of_cons in Hx as [->|Hx]; [done|].
      by apply IH.
    + intros H. f_equal; [apply H; by left|]. apply IH. intros x Hx. apply H. by right.
Qed.

(** The row built from a row-field map has one cell per column, in column
    order, each holding the value of its column or the empty string; two
    maps give the same row exactly when they agree, up to that default, on
    every column; and merging updates whose keys are all outside the
    whitelist does not change the row. *)
Theorem build_row_reads_columns (row_data : gmap string string) :
  length (_build_row row_data) = 38%nat ∧
  (∀ i column, GAMES_COLUMNS !! i = Some column →
               _build_row row_data !! i = Some (default "" (row_data !! column))) ∧
  (∀ other, _build_row row_data = _build_row other ↔
            ∀ column, column ∈ GAMES_COLUMNS →
                      default "" (row_data !! column) = default "" (other !! column)) ∧
  (∀ updates : gmap string string,
     (∀ key value, updates !! key = Some value → key ∉ GAME_COLUMNS_SET) →
     _build_row (_update_row_data row_data updates) = _build_row row_data).
Proof.
  split_and!.
  - apply build_row_length.
  - intros i column Hi. unfold _build_row. by rewrite list_lookup_fmap, Hi.
  - intros other. unfold _build_row. apply fmap_eq_pointwise.
  - intros updates Hout. unfold _build_row. apply fmap_eq_pointwise.
    intros column _. rewrite update_row_data_lookup.
    destruct (updates !! column) as [v|] eqn:Hv; [|done].
    rewrite decide_False; [done|]. by eapply Hout.
Qed.

Lemma build_row_reads_columns_witness :
  _build_row (_update_row_data (DraftCache.row_data sample.session_kc)
                {[ "not_a_column" := "x" ]})
  = _build_row (DraftCache.row_data sample.session_kc).
Proof.
  destruct (build_row_reads_columns (DraftCache.row_data sample.session_kc))
    as (_ & _ & _ & H).
  apply H. intros key value Hkv.
  apply lookup_singleton_Some in Hkv as [<- _]. vm_compute. set_solver.
Defined.

(** *** Draft richness *)

Lemma draft_richness_empty : _draft_richness ∅ = 0.
Proof. unfold _draft_richness. by rewrite map_to_list_empty. Qed.

Lemma draft_richness_insert (draft : gmap string string) key value :
  draft !! key = None →
  _draft_richness (<[key := value]> draft)
  = _draft_richness draft + (if Py.truthy value then 1 else 0).
Proof.
  intros Hk. unfold _draft_richness.
  rewrite (map_to_list_insert draft key value Hk). rewrite fmap_cons. cbn [snd].
  rewrite filter_cons. destruct (decide (Py.truthy value = true)) as [Ht|Ht].
  - rewrite Ht. simpl. lia.
  - apply not_true_is_false in Ht. rewrite Ht. lia.
Qed.

(** [_draft_richness] is the number of keys of the draft with a non-empty
    value: it lies between 0 and the number of keys, is 0 exactly when every
    value is empty, and adding a new key raises it by one when the value is
    non-empty and leaves it otherwise. *)
Theorem draft_richness_counts (draft : gmap string string) :
  _draft_richness draft
    = Z.of_nat (size (filter (λ kv : string * string, kv.2 ≠ "") draft)) ∧
  0 ≤ _draft_richness draft ≤ Z.of_nat (size draft) ∧
  (_draft_richness draft = 0 ↔ ∀ key value, draft !! key = Some value → value = "") ∧
  (∀ key value, draft !! key = None →
     _draft_richness (<[key := value]> draft)
     = _draft_richness draft + (if Py.truthy value then 1 else 0)).
Proof.
  assert (Hcount : ∀ d : gmap string string,
            _draft_richness d
            = Z.of_nat (size (filter (λ kv : string * string, kv.2 ≠ "") d))).
  { intros d. induction d as [|k v d Hk IH] using map_ind.
    - by rewrite draft_richness_empty, map_filter_empty, map_size_empty.
    - rewrite draft_richness_insert by done. rewrite IH.
      destruct v as [|c v]; simpl.
      + rewrite map_filter_insert_not'; [lia | by intros ? | ].
        intros y Hy. by rewrite Hk in Hy.
      + rewrite map_filter_insert_True by done.
        rewrite map_size_insert_None; [lia|].
        apply map_lookup_filter_None. by left. }
  split_and!.
  - apply Hcount.
  - rewrite Hcount. lia.
  - rewrite Hcount. apply inj_le, map_subseteq_size, map_filter_subseteq.
  - rewrite Hcount. split.
    + intros Hz key value Hkv.
      assert (Hempty : filter (λ kv : string * string, kv.2 ≠ "") draft = ∅)
        by (apply map_size_empty_iff; lia).
      destruct (decide (value = "")) as [|Hne]; [done|].
      exfalso. eapply (map_filter_empty_not_lookup _ _ key value Hempty); done.
    + intros Hall. replace (filter _ draft) with (∅ : gmap string string);
        [by rewrite map_size_empty|].
      symmetry. apply map_empty_filter. intros key value Hkv Hne.
      apply Hne. simpl. by eapply Hall.
  - intros key value. apply draft_richness_insert.
Qed.

Lemma draft_richness_counts_witness :
  _draft_richness {[ "BP1" := "Maokai"; "BP2" := "" ]} = 1.
Proof.
  destruct (draft_richness_counts {[ "BP2" := "" ]}) as (_ & _ & _ & H).
  rewrite (H "BP1" "Maokai") by reflexivity.
  destruct (draft_richness_counts ∅) as (_ & _ & _ & H0).
  change ({[ "BP2" := "" ]} : gmap string string) with (<[ "BP2" := "" ]> (∅ : gmap string string)).
  rewrite (H0 "BP2" "") by reflexivity. by rewrite draft_richness_empty.
Defined.

(** *** Dedupe keys *)

Import keys.

Lemma bar_free_tail c (s : string) : bar_free (String c s) → bar_free s.
Proof. intros H a b ->. by apply (H (String c a) b). Qed.

Lemma bar_free_head c (s : string) : bar_free (String c s) → c ≠ "|"%char.
Proof. intros H ->. by apply (H "" s). Qed.

Lemma bar_free_check (s : string) :
  forallb (λ c, negb (Ascii.eqb c "|")) (list_ascii_of_string s) = true → bar_free s.
Proof.
  induction s as [|c s IH]; simpl; intros Hs a b E.
  - by destruct a.
  - apply andb_true_iff in Hs as [Hc Hs]. apply negb_true_iff, Ascii.eqb_neq in Hc.
    destruct a as [|c' a]; simpl in E; injection E as -> E; [done|].
    by apply (IH Hs a b).
Qed.

(** Two texts cut at their first separator. *)
Lemma join_split (a b x y : string) :
  bar_free a → bar_free b → a +:+ "|" +:+ x = b +:+ "|" +:+ y → a = b ∧ x = y.
Proof.
  revert b. induction a as [|c a IH]; intros [|c' b] Ha Hb E; simpl in E.
  - by injection E.
  - injection E as <- _. by apply bar_free_head in Hb.
  - injection E as -> _. by apply bar_free_head in Ha.
  - injection E as -> E. apply bar_free_tail in Ha. apply bar_free_tail in Hb.
    destruct (IH b Ha Hb E) as [-> ->]. done.
Qed.

Lemma dedupe_key_cons (part next : string) (rest : list string) :
  _dedupe_key (part :: next :: rest) = part +:+ "|" +:+ _dedupe_key (next :: rest).
Proof. reflexivity. Qed.

Lemma dedupe_key_parts (parts1 parts2 : list string) :
  parts1 ≠ [] → parts2 ≠ [] →
  Forall bar_free parts1 → Forall bar_free parts2 →
  _dedupe_key parts1 = _dedupe_key parts2 → parts1 = parts2.
Proof.
  revert parts2. induction parts1 as [|x [|x2 xs] IH]; intros [|y [|y2 ys]] H1 H2 F1 F2 E;
    try done.
  - change (x = y) in E. by subst.
  - exfalso. rewrite dedupe_key_cons in E. apply Forall_cons in F1 as [Hx _].
    change (_dedupe_key [x]) with x in E. by apply (Hx y (_dedupe_key (y2 :: ys))).
  - exfalso. rewrite dedupe_key_cons in E. apply Forall_cons in F2 as [Hy _].
    change (_dedupe_key [y]) with y in E. by apply (Hy x (_dedupe_key (x2 :: xs))).
  - rewrite !dedupe_key_cons in E.
    apply Forall_cons in F1 as [Hx F1]. apply Forall_cons in F2 as [Hy F2].
    destruct (join_split _ _ _ _ Hx Hy E) as [-> E'].
    f_equal. by apply IH.
Qed.

(** Dedupe keys do not collide as long as no part contains the separator:
    two non-empty lists of separator-free parts with the same key are the
    same list.  So for teams and game ids without [|], two guarded events
    have the same key only if they are of the same team and kind, for the
    same game id and, for stream events, the same role. *)
Theorem dedupe_keys_do_not_collide :
  (∀ parts1 parts2 : list string,
     parts1 ≠ [] → parts2 ≠ [] →
     Forall bar_free parts1 → Forall bar_free parts2 →
     _dedupe_key parts1 = _dedupe_key parts2 → parts1 = parts2) ∧
  (∀ team1 team2 ev1 ev2,
     bar_free team1 → bar_free team2 →
     bar_free (game_id_of ev1) → bar_free (game_id_of ev2) →
     tracker.key_of team1 ev1 = tracker.key_of team2 ev2 →
     team1 = team2 ∧
     game_id_of ev1 = game_id_of ev2 ∧
     match ev1, ev2 with
     | tracker.GameStart _, tracker.GameStart _ => True
     | tracker.GameFinished _, tracker.GameFinished _ => True
     | tracker.StreamReady p1, tracker.StreamReady p2 =>
         StreamReadyRequest.role p1 = StreamReadyRequest.role p2
     | _, _ => False
     end).
Proof.
  split; [apply dedupe_key_parts|].
  intros team1 team2 ev1 ev2 Ht1 Ht2 Hg1 Hg2 E.
  assert (Hrole : ∀ r, bar_free (StreamRole_value r))
    by (intros r; apply bar_free_check; by destruct r).
  assert (Hinj : ∀ r1 r2, StreamRole_value r1 = StreamRole_value r2 → r1 = r2)
    by (intros [] []; done).
  destruct ev1 as [p1|p1|p1], ev2 as [p2|p2|p2]; unfold tracker.key_of in E;
    simpl in Hg1, Hg2 |- *;
    apply dedupe_key_parts in E; try done; try (injection E; intros; subst; by auto);
    repeat first [apply Forall_nil_2 | apply Forall_cons_2]; try done;
    try (apply bar_free_check; reflexivity).
Qed.

Lemma dedupe_keys_do_not_collide_witness :
  _dedupe_key [ "KC"; "game_start"; "g_test" ]
  ≠ _dedupe_key [ "KC"; "game_finished"; "g_test" ].
Proof.
  destruct dedupe_keys_do_not_collide as [H _].
  intros E. apply H in E; try done;
    repeat first [apply Forall_nil_2 | apply Forall_cons_2];
    apply bar_free_check; reflexivity.
Defined.

End Rows.

(** ** The sheets adapter *)

Section Columns.
Import sheets.

Lemma column_loop_step (index : Z) (letters : list ascii) :
  0 < index →
  column_loop index letters
  = column_loop ((index - 1) `div` 26)
      (ascii_of_nat (Z.to_nat (65 + (index - 1) `mod` 26)) :: letters).
Proof.
  intros H. rewrite column_loop_equation_1.
  destruct (decide (0 < index)); [reflexivity | lia].
Qed.

Lemma column_loop_stop (index : Z) (letters : list ascii) :
  index ≤ 0 → column_loop index letters = letters.
Proof.
  intros H. rewrite column_loop_equation_1.
  destruct (decide (0 < index)); [lia | reflexivity].
Qed.

(** What the loop puts in front of the letters it was given. *)
Lemma column_loop_prefix (index : Z) :
  0 ≤ index →
  ∃ prefix,
    (∀ letters, column_loop index letters = (prefix ++ letters)%list) ∧
    Forall (λ c, is_upper c = true) prefix ∧
    (0 < index → prefix ≠ []) ∧
    ∀ acc, column_digits acc prefix = acc * 26 ^ Z.of_nat (length prefix) + index.
Proof.
  intros Hindex. generalize Hindex. pattern index.
  apply Z_lt_induction; [|exact Hindex]. clear index Hindex.
  intros index IH Hindex.
  destruct (decide (index = 0)) as [->|Hpos].
  - exists []. split_and!.
    + intros letters. apply column_loop_stop. lia.
    + apply Forall_nil_2.
    + lia.
    + intros acc. unfold column_digits. simpl. lia.
  - assert (Hq : 0 ≤ (index - 1) `div` 26 < index).
    { split; [apply Z.div_pos; lia|]. apply Z.div_lt_upper_bound; lia. }
    assert (Hr : 0 ≤ (index - 1) `mod` 26 < 26) by (apply Z.mod_pos_bound; lia).
    destruct (IH _ Hq (proj1 Hq)) as (prefix & Hloop & Hupper & _ & Hval).
    set (c := ascii_of_nat (Z.to_nat (65 + (index - 1) `mod` 26))).
    assert (Hc : nat_of_ascii c = Z.to_nat (65 + (index - 1) `mod` 26)).
    { unfold c. apply nat_ascii_embedding. lia. }
    exists (prefix ++ [c])%list. split_and!.
    + intros letters. rewrite column_loop_step by lia. fold c.
      rewrite Hloop. by rewrite <- app_assoc.
    + apply Forall_app. split; [done|]. apply Forall_singleton.
      unfold is_upper. rewrite Hc.
      apply andb_true_iff. split; apply Nat.leb_le; lia.
    + intros _. by destruct prefix.
    + intros acc. unfold column_digits in *. rewrite fold_left_app. simpl.
      rewrite Hval, Hc, length_app. simpl.
      rewrite Nat2Z.inj_add, Z.pow_add_r by lia.
      rewrite Z2Nat.id by lia.
      pose proof (Z.div_mod (index - 1) 26 ltac:(lia)). simpl (Z.of_nat 1). lia.
Qed.

(** [_column_letter] writes a positive index as a bijective base-26
    numeral of capital letters: reading the name back gives the index, so
    distinct positive indices get distinct names; the name is never empty;
    and any index that is not positive is named [A], like index 1. *)
Theorem column_letter_round_trip :
  (∀ index, 0 < index →
     column_number (_column_letter index) = index ∧
     _column_letter index ≠ "" ∧
     Forall (λ c, is_upper c = true) (list_ascii_of_string (_column_letter index))) ∧
  (∀ i j, 0 < i → 0 < j → _column_letter i = _column_letter j → i = j) ∧
  (∀ index, index ≤ 0 → _column_letter index = "A").
Proof.
  assert (Hpos : ∀ index, 0 < index →
     column_number (_column_letter index) = index ∧
     _column_letter index ≠ "" ∧
     Forall (λ c, is_upper c = true) (list_ascii_of_string (_column_letter index))).
  { intros index Hindex. unfold _column_letter, column_number.
    destruct (Z.leb_spec index 0); [lia|].
    destruct (column_loop_prefix index ltac:(lia)) as (prefix & Hloop & Hupper & Hne & Hval).
    rewrite Hloop, app_nil_r. rewrite list_ascii_of_string_of_list_ascii.
    split_and!.
    - rewrite (Hval 0). lia.
    - specialize (Hne Hindex). by destruct prefix.
    - done. }
  split_and!.
  - exact Hpos.
  - intros i j Hi Hj E.
    destruct (Hpos i Hi) as [<- _]. destruct (Hpos j Hj) as [<- _]. by rewrite E.
  - intros index Hindex. unfold _column_letter.
    destruct (Z.leb_spec index 0); [done | lia].
Qed.

Lemma column_letter_round_trip_witness :
  _column_letter 38 = "AL" ∧ column_number "AL" = 38.
Proof.
  split; [reflexivity|].
  change "AL" with (_column_letter 38).
  apply (proj1 column_letter_round_trip 38). lia.
Defined.

(** *** Ranges *)

Import keys.

Lemma free_of_tail sep c (s : string) : free_of sep (String c s) → free_of sep s.
Proof. intros H a b ->. by apply (H (String c a) b). Qed.

Lemma free_of_head sep c (s : string) : free_of sep (String c s) → c ≠ sep.
Proof. intros H ->. by apply (H "" s). Qed.

Lemma split_once_found sep (name rest : string) :
  free_of sep name → split_once sep (name +:+ String sep rest) = Some (name, rest).
Proof.
  induction name as [|c name IH]; intros Hfree; simpl.
  - by rewrite Ascii.eqb_refl.
  - apply free_of_head in Hfree as Hc. apply Ascii.eqb_neq in Hc. rewrite Hc.
    rewrite IH; [done|]. by eapply free_of_tail.
Qed.

Lemma split_once_inv sep (s before after : string) :
  split_once sep s = Some (before, after) →
  s = before +:+ String sep after ∧ free_of sep before.
Proof.
  revert before. induction s as [|c s IH]; intros before; simpl; [done|].
  destruct (Ascii.eqb c sep) eqn:Hc.
  - apply Ascii.eqb_eq in Hc as ->. intros [= <- <-]. split; [done|].
    intros a b E. by destruct a.
  - apply Ascii.eqb_neq in Hc.
    destruct (split_once sep s) as [[b a]|]; [|done]. intros [= <- <-].
    destruct (IH b eq_refl) as [-> Hfree]. split; [done|].
    intros x y E. destruct x as [|c' x]; simpl in E; injection E as -> E; [done|].
    by apply (Hfree x y).
Qed.

Lemma split_once_none sep (s : string) : free_of sep s ↔ split_once sep s = None.
Proof.
  split.
  - intros Hfree. destruct (split_once sep s) as [[b a]|] eqn:E; [|done].
    apply split_once_inv in E as [-> _]. by destruct (Hfree b a).
  - intros Hnone a b ->.
    destruct (split_once sep (a +:+ String sep b)) as [[x y]|] eqn:E; [done|].
    clear Hnone. induction a as [|c a IH]; simpl in E.
    + by rewrite Ascii.eqb_refl in E.
    + destruct (Ascii.eqb c sep); [done|].
      destruct (split_once sep (a +:+ String sep b)); [by destruct p | by apply IH].
Qed.

(** [_extract_sheet_name] returns what precedes the first [!] of the
    range: the sheet name of a range [name!cells] whose name has no [!],
    the empty string for a range without [!]; what it returns never
    contains a [!]. *)
Theorem sheet_name_of_range :
  (∀ name cells, free_of "!" name → _extract_sheet_name (name +:+ "!" +:+ cells) = name) ∧
  (∀ range_name, free_of "!" range_name → _extract_sheet_name range_name = "") ∧
  (∀ range_name, free_of "!" (_extract_sheet_name range_name)).
Proof.
  unfold _extract_sheet_name. split_and!.
  - intros name cells Hfree.
    change (name +:+ "!" +:+ cells) with (name +:+ String "!" cells).
    by rewrite (split_once_found "!" name cells Hfree).
  - intros range_name Hfree. apply split_once_none in Hfree. by rewrite Hfree.
  - intros range_name. destruct (split_once "!" range_name) as [[b a]|] eqn:E.
    + by apply split_once_inv in E as [_ ?].
    + intros a b E'. by destruct a.
Qed.

Lemma free_of_check sep (s : string) :
  forallb (λ c, negb (Ascii.eqb c sep)) (list_ascii_of_string s) = true → free_of sep s.
Proof.
  induction s as [|c s IH]; simpl; intros Hs a b E.
  - by destruct a.
  - apply andb_true_iff in Hs as [Hc Hs]. apply negb_true_iff, Ascii.eqb_neq in Hc.
    destruct a as [|c' a]; simpl in E; injection E as -> E; [done|].
    by apply (IH Hs a b).
Qed.

Lemma sheet_name_of_range_witness : _extract_sheet_name "games!A:Z" = "games".
Proof.
  apply (proj1 sheet_name_of_range "games" "A:Z").
  apply free_of_check. reflexivity.
Defined.

(** *** Row numbers *)

Lemma digit_char (d : N) :
  (d < 10)%N →
  is_digit (pretty_N_char d) = true ∧ is_upper (pretty_N_char d) = false ∧
  Z.of_nat (nat_of_ascii (pretty_N_char d)) - 48 = Z.of_N d.
Proof.
  intros Hd.
  assert (d = 0 ∨ d = 1 ∨ d = 2 ∨ d = 3 ∨ d = 4 ∨ d = 5 ∨ d = 6 ∨ d = 7 ∨ d = 8 ∨ d = 9)%N
    as Hcases by lia.
  repeat (destruct Hcases as [->|Hcases]; [done|]). by subst.
Qed.

Lemma string_app_cons x (a b : string) : String x a +:+ b = String x (a +:+ b).
Proof. reflexivity. Qed.

Lemma string_app_assoc (a b c : string) : (a +:+ b) +:+ c = a +:+ (b +:+ c).
Proof.
  induction a as [|x a IH]; [done|]. rewrite !string_app_cons. by rewrite IH.
Qed.

Lemma string_app_nil_r (a : string) : a +:+ "" = a.
Proof. induction a as [|x a IH]; [done|]. rewrite string_app_cons. by rewrite IH. Qed.

Lemma string_length_app (a b : string) :
  String.length (a +:+ b) = (String.length a + String.length b)%nat.
Proof.
  induction a as [|x a IH]; [done|]. rewrite string_app_cons. simpl. by rewrite IH.
Qed.

Lemma int_of_digits_app (a b : string) acc :
  int_of_digits acc (a +:+ b) = int_of_digits (int_of_digits acc a) b.
Proof.
  revert acc. induction a as [|x a IH]; intros acc; [done|].
  rewrite string_app_cons. simpl. apply IH.
Qed.

Lemma span_digit_app (a rest : string) :
  (∀ r, span is_digit (a +:+ r) = (a +:+ (span is_digit r).1, (span is_digit r).2)) →
  ∀ c, is_digit c = true →
  span is_digit ((a +:+ String c "") +:+ rest)
  = ((a +:+ String c "") +:+ (span is_digit rest).1, (span is_digit rest).2).
Proof.
  intros Ha c Hc. rewrite string_app_assoc, Ha.
  change (String c "" +:+ rest) with (String c rest).
  cbn [span]. rewrite Hc.
  destruct (span is_digit rest) as [run t]. cbn [fst snd].
  rewrite string_app_assoc. reflexivity.
Qed.

(** The decimal digits that [pretty] puts in front of its accumulator. *)
Lemma pretty_go_digits (x : N) :
  ∃ digits : string,
    (∀ s, pretty_N_go x s = digits +:+ s) ∧
    ((0 < x)%N → digits ≠ "") ∧
    (∀ rest, digits ≠ "" → span is_upper (digits +:+ rest) = ("", digits +:+ rest)) ∧
    (∀ rest, span is_digit (digits +:+ rest)
             = (digits +:+ (span is_digit rest).1, (span is_digit rest).2)) ∧
    ∀ acc, int_of_digits acc digits
           = acc * 10 ^ Z.of_nat (String.length digits) + Z.of_N x.
Proof.
  induction (N.lt_wf_0 x) as [x _ IH].
  destruct (decide (x = 0)%N) as [->|Hx].
  - exists "". split_and!.
    + intros s. by rewrite pretty_N_go_0.
    + intros H. exfalso. lia.
    + intros rest H. by destruct H.
    + intros rest. change ("" +:+ rest) with rest. by destruct (span is_digit rest).
    + intros acc. cbn [int_of_digits String.length]. lia.
  - assert (Hlt : (x `div` 10 < x)%N) by (apply N.div_lt; lia).
    assert (Hmod : (x `mod` 10 < 10)%N) by (apply N.mod_lt; lia).
    destruct (IH _ Hlt) as (digits & Hgo & _ & Hup & Hdig & Hval).
    destruct (digit_char _ Hmod) as (Hd & Hu & Hv).
    set (c := pretty_N_char (x `mod` 10)) in *.
    exists (digits +:+ String c ""). split_and!.
    + intros s. rewrite pretty_N_go_step by lia. fold c.
      by rewrite Hgo, string_app_assoc.
    + intros _. by destruct digits.
    + intros rest _. rewrite string_app_assoc.
      destruct digits as [|c0 digits]; simpl.
      * by rewrite Hu.
      * specialize (Hup (String c "" +:+ rest) ltac:(done)). simpl in Hup.
        destruct (is_upper c0); [|done].
        destruct (span is_upper (digits +:+ String c rest)); done.
    + intros rest. by apply span_digit_app.
    + intros acc. rewrite int_of_digits_app, Hval. simpl.
      rewrite string_length_app. simpl.
      rewrite Nat2Z.inj_add, Z.pow_add_r by lia.
      pose proof (N.div_mod x 10 ltac:(lia)) as Hdm.
      rewrite Hv. replace (Z.of_N x) with (10 * Z.of_N (x `div` 10) + Z.of_N (x `mod` 10)) by lia.
      rewrite N2Z.inj_div. simpl (Z.of_nat 1). lia.
Qed.

(** [str] of a non-negative number is its run of decimal digits. *)
Lemma str_digits (n : Z) :
  0 ≤ n →
  Py.truthy (Py.str n) = true ∧
  (∀ rest, span is_upper (Py.str n +:+ rest) = ("", Py.str n +:+ rest)) ∧
  (∀ rest, span is_digit (Py.str n +:+ rest)
           = (Py.str n +:+ (span is_digit rest).1, (span is_digit rest).2)) ∧
  int_of_digits 0 (Py.str n) = n.
Proof.
  intros Hn. unfold Py.str, pretty, pretty_Z.
  destruct n as [|p|p]; [| |lia].
  - split_and!; [done| | |done]; intros rest;
      change ("0" +:+ rest) with (String "0" rest); cbn [span];
      [by change (is_upper "0") with false|].
    change (is_digit "0") with true. cbv iota.
    by destruct (span is_digit rest).
  - unfold pretty, pretty_positive, pretty, pretty_N.
    rewrite decide_False by done.
    destruct (pretty_go_digits (N.pos p)) as (digits & Hgo & Hne & Hup & Hdig & Hval).
    rewrite Hgo, string_app_nil_r. specialize (Hne ltac:(lia)).
    split_and!.
    + by destruct digits.
    + intros rest. by apply Hup.
    + apply Hdig.
    + rewrite Hval. simpl. lia.
Qed.

(** The row number is read back from the range the writer builds: for a
    sheet name without [!] and a row index that is not negative,
    [_extract_row_index] applied to the target range of [_update_row]
    returns the row index; and a range without [!] has no row number. *)
Theorem row_index_round_trip :
  (∀ sheet_name row_index row,
     free_of "!" sheet_name → 0 ≤ row_index →
     _extract_row_index (target_range sheet_name row_index row) = Some row_index) ∧
  (∀ updated_range, free_of "!" updated_range → _extract_row_index updated_range = None).
Proof.
  split.
  - intros sheet_name row_index row Hfree Hpos.
    destruct (str_digits row_index Hpos) as (Htruthy & Hup & Hdig & Hval).
    unfold _extract_row_index, target_range.
    set (tail := _column_letter (Z.of_nat (length row)) +:+ Py.str row_index).
    change (sheet_name +:+ "!A" +:+ Py.str row_index +:+ ":" +:+ tail)
      with (sheet_name +:+ String "!" (String "A" (Py.str row_index +:+ String ":" tail))).
    rewrite (split_once_found "!" _ _ Hfree).
    assert (Hsearch : search (String "A" (Py.str row_index +:+ String ":" tail))
                      = Some (Py.str row_index)).
    { unfold search; fold search. unfold match_here. simpl span.
      change (is_upper "A") with true. cbv iota. rewrite Hup. cbv iota beta.
      change (Py.truthy "A") with true. cbv iota. rewrite Hdig. simpl.
      rewrite string_app_nil_r, Htruthy. done. }
    by rewrite Hsearch, Hval.
  - intros updated_range Hfree. unfold _extract_row_index.
    apply split_once_none in Hfree. by rewrite Hfree.
Qed.

Lemma row_index_round_trip_witness :
  target_range "games" 7 (main._build_row ∅) = "games!A7:AL7" ∧
  _extract_row_index "games!A7:AL7" = Some 7.
Proof.
  split; [reflexivity|].
  change "games!A7:AL7" with (target_range "games" 7 (main._build_row ∅)).
  apply (proj1 row_index_round_trip); [|lia].
  apply free_of_check. reflexivity.
Defined.

End Columns.

(** The facts of a loop that stopped after a known number of calls. *)
Ltac loop_facts :=
  split_and!;
  [ lia | lia | reflexivity
  | intros k Hk; repeat (destruct k as [|k]; [assumption|]); exfalso; lia
  | reflexivity
  | first [discriminate | reflexivity] ].

Section Retries.
Import sheets keys.

Lemma append_loop_three (api : nat → ApiResult) :
  let a := append_loop api (seq 0 3) in
  (1 ≤ api_calls a ≤ 3)%nat ∧
  sleeps a = take (api_calls a - 1) [250; 500] ∧
  (∀ k, (k < api_calls a - 1)%nat → api k = Raises) ∧
  result a = match api (api_calls a - 1)%nat with
             | Returns updated_range => _extract_row_index updated_range
             | Raises => None
             end ∧
  (api (api_calls a - 1)%nat = Raises → api_calls a = 3%nat).
Proof.
  cbn [seq append_loop].
  destruct (api 0%nat) as [|r0] eqn:E0; [|cbn; rewrite E0; loop_facts].
  destruct (api 1%nat) as [|r1] eqn:E1; [|cbn; rewrite E1; loop_facts].
  destruct (api 2%nat) as [|r2] eqn:E2; cbn; rewrite E2; loop_facts.
Qed.

Lemma update_loop_three (api : nat → ApiResult) :
  let a := update_loop api (seq 0 3) in
  (1 ≤ api_calls a ≤ 3)%nat ∧
  sleeps a = take (api_calls a - 1) [250; 500] ∧
  (∀ k, (k < api_calls a - 1)%nat → api k = Raises) ∧
  result a = match api (api_calls a - 1)%nat with
             | Returns _ => true
             | Raises => false
             end ∧
  (api (api_calls a - 1)%nat = Raises → api_calls a = 3%nat).
Proof.
  cbn [seq update_loop].
  destruct (api 0%nat) as [|r0] eqn:E0; [|cbn; rewrite E0; loop_facts].
  destruct (api 1%nat) as [|r1] eqn:E1; [|cbn; rewrite E1; loop_facts].
  destruct (api 2%nat) as [|r2] eqn:E2; cbn; rewrite E2; loop_facts.
Qed.

(** An append with a client makes between one and three API calls: every
    call before the last one raised, the pauses are 0.25 s after the first
    failure and 0.5 s after the second and none after the third, the
    result is the row number read from the range that the last call
    returned, and [None] when the third call raised as well. *)
Theorem append_row_retries (init_ok : bool) (api : nat → ApiResult) (w : Writer) :
  (_get_service init_ok w).1 = true →
  let a := (_append_row init_ok api w).1 in
  (1 ≤ api_calls a ≤ 3)%nat ∧
  sleeps a = take (api_calls a - 1) [250; 500] ∧
  (∀ k, (k < api_calls a - 1)%nat → api k = Raises) ∧
  result a = match api (api_calls a - 1)%nat with
             | Returns updated_range => _extract_row_index updated_range
             | Raises => None
             end ∧
  (api (api_calls a - 1)%nat = Raises → api_calls a = 3%nat).
Proof.
  intros Hsvc. unfold _append_row.
  destruct (_get_service init_ok w) as [service w']. simpl in Hsvc. subst service.
  cbn [fst]. apply append_loop_three.
Qed.

Lemma append_row_retries_witness :
  let a := (_append_row true fixtures.flaky_api (new_writer "sheet" "{}" "")).1 in
  api_calls a = 3%nat ∧ sleeps a = [250; 500] ∧ result a = Some 7.
Proof.
  destruct (append_row_retries true fixtures.flaky_api (new_writer "sheet" "{}" ""))
    as (_ & Hsleeps & _ & Hresult & _); [reflexivity|].
  split_and!; [reflexivity | exact Hsleeps | exact Hresult].
Defined.

(** An update with a client and a range [name!cells], the name not empty
    and without [!], writes to [name!A<row>:<column><row>], the column
    being the letter of the row's length, in one to three calls with the
    same pauses as an append, and returns whether the last call returned.
    With a range that has no [!] or starts with one it makes no call and
    returns false. *)
Theorem update_row_retries (init_ok : bool) (api : nat → ApiResult) (w : Writer)
    (row_index : Z) (row : list string) :
  (_get_service init_ok w).1 = true →
  (∀ sheet_name cells,
     free_of "!" sheet_name → sheet_name ≠ "" →
     let r := (_update_row init_ok api w (sheet_name +:+ String "!" cells) row_index row).1 in
     r.1 = Some (target_range sheet_name row_index row) ∧
     (1 ≤ api_calls r.2 ≤ 3)%nat ∧
     sleeps r.2 = take (api_calls r.2 - 1) [250; 500] ∧
     (∀ k, (k < api_calls r.2 - 1)%nat → api k = Raises) ∧
     result r.2 = match api (api_calls r.2 - 1)%nat with
                  | Returns _ => true
                  | Raises => false
                  end ∧
     (api (api_calls r.2 - 1)%nat = Raises → api_calls r.2 = 3%nat)) ∧
  (∀ range_name,
     free_of "!" range_name ∨ (∃ cells, range_name = String "!" cells) →
     (_update_row init_ok api w range_name row_index row).1
     = (None, mkAttempts false 0 [])).
Proof.
  intros Hsvc. unfold _update_row.
  destruct (_get_service init_ok w) as [service w']. simpl in Hsvc. subst service.
  cbn [negb]. split.
  - intros sheet_name cells Hfree Hne. unfold _extract_sheet_name.
    rewrite (split_once_found "!" _ _ Hfree).
    destruct sheet_name as [|c sheet_name]; [done|]. cbn [Py.truthy negb fst snd].
    split; [reflexivity|]. apply update_loop_three.
  - intros range_name [Hfree | [cells ->]]; unfold _extract_sheet_name.
    + apply split_once_none in Hfree. by rewrite Hfree.
    + reflexivity.
Qed.

Lemma update_row_retries_witness :
  let r := (_update_row true fixtures.flaky_api (new_writer "sheet" "{}" "")
              "games!A:Z" 7 (main._build_row ∅)).1 in
  r.1 = Some "games!A7:AL7" ∧ api_calls r.2 = 3%nat ∧ result r.2 = true.
Proof.
  destruct (update_row_retries true fixtures.flaky_api (new_writer "sheet" "{}" "")
              7 (main._build_row ∅)) as [H _]; [reflexivity|].
  destruct (H "games" "A:Z") as (Htarget & _ & _ & _ & Hresult & _);
    [apply free_of_check; reflexivity | discriminate |].
  split_and!; [exact Htarget | reflexivity | exact Hresult].
Defined.

(** The first call of [_get_service] settles the writer: every later call
    gives the same answer and leaves the writer as it is, whether or not
    an initialisation would succeed then; and when the answer is no
    client, an append or update makes no API call, pauses nowhere and
    returns [None] or false. *)
Theorem service_settles (init_ok : bool) (w : Writer) :
  let first := _get_service init_ok w in
  (∀ init_ok', _get_service init_ok' first.2 = first) ∧
  (first.1 = false →
   ∀ init_ok' api range_name row_index row,
     _append_row init_ok' api first.2 = (mkAttempts None 0 [], first.2) ∧
     _update_row init_ok' api first.2 range_name row_index row
     = ((None, mkAttempts false 0 []), first.2)).
Proof.
  cbv zeta.
  assert (Hagain : ∀ init_ok', _get_service init_ok' (_get_service init_ok w).2
                               = _get_service init_ok w).
  { intros init_ok'. unfold _get_service.
    destruct w as [[] []], init_ok, init_ok'; reflexivity. }
  split; [exact Hagain|].
  intros Hnone init_ok' api range_name row_index row.
  unfold _append_row, _update_row. rewrite Hagain.
  destruct (_get_service init_ok w) as [service w']. simpl in Hnone. by subst service.
Qed.

Lemma service_settles_witness :
  let w := (_get_service false (new_writer "sheet" "{}" "")).2 in
  _enabled w = false ∧
  _append_row true fixtures.flaky_api w = (mkAttempts None 0 [], w).
Proof.
  split; [reflexivity|].
  destruct (service_settles false (new_writer "sheet" "{}" "")) as [_ H].
  apply (H eq_refl true fixtures.flaky_api "games!A:Z" 7 []).
Defined.

End Retries.

(** ** Across a restart *)

(** Every branch of a guarded handler. *)
Ltac guarded_cases :=
  unfold main.game_start, main.game_finished, main.stream_ready, main.mark_and_ack;
  repeat case_match; simpl in *; simplify_eq.

Section Restart.
Import models auth main tracker.

Lemma dict_get_absent {V} (d : list (string * V)) k :
  k ∉ d.*1 → Py.dict_get d k = None.
Proof.
  induction d as [|[k0 v0] d IH]; [done|]. rewrite fmap_cons, not_elem_of_cons. cbn [fst].
  intros [Hne Hd]. cbn [Py.dict_get].
  destruct (String.eqb k0 k) eqn:E; [apply String.eqb_eq in E; congruence|].
  by apply IH.
Qed.

(** [d.update(items)] gives the value of [items] where it has the key and
    keeps the value of [d] elsewhere. *)
Lemma dict_update_get (d items : list (string * string)) k :
  NoDup items.*1 →
  Py.dict_get (boot.dict_update d items) k
  = match Py.dict_get items k with
    | Some v => Some v
    | None => Py.dict_get d k
    end.
Proof.
  unfold boot.dict_update. revert d.
  induction items as [|[k0 v0] items IH]; intros d Hnd; [done|].
  rewrite fmap_cons in Hnd. apply NoDup_cons in Hnd as [Hk0 Hnd]. cbn [fst] in Hk0.
  cbn [foldl fst snd Py.dict_get]. rewrite (IH _ Hnd).
  destruct (String.eqb k0 k) eqn:E.
  - apply String.eqb_eq in E as ->.
    by rewrite (dict_get_absent _ _ Hk0), dict_get_set_eq.
  - apply String.eqb_neq in E. by rewrite dict_get_set_ne.
Qed.

Lemma load_activation_state_snoc rows row :
  sheets.load_activation_state (rows ++ [row])
  = sheets.load_activation_row (sheets.load_activation_state rows) row.
Proof. unfold sheets.load_activation_state. by rewrite foldl_app. Qed.

Lemma load_validation_keys_snoc py_int rows row :
  sheets.load_validation_keys py_int (rows ++ [row])
  = sheets.load_validation_row py_int (sheets.load_validation_keys py_int rows) row.
Proof. unfold sheets.load_validation_keys. by rewrite foldl_app. Qed.

(** The tokens read from the sheet have one entry each. *)
Lemma load_activation_row_nodup state row :
  NoDup (sheets.ActivationState.api_keys state).*1 →
  NoDup (sheets.ActivationState.api_keys (sheets.load_activation_row state row)).*1.
Proof.
  intros Hnd. unfold sheets.load_activation_row.
  repeat case_match; cbn [sheets.ActivationState.api_keys]; try done;
    by apply dict_set_nodup.
Qed.

Lemma load_activation_state_nodup rows :
  NoDup (sheets.ActivationState.api_keys (sheets.load_activation_state rows)).*1.
Proof.
  induction rows as [|row rows IH] using rev_ind.
  - cbn. constructor.
  - rewrite load_activation_state_snoc. by apply load_activation_row_nodup.
Qed.

(** Reading one more row removes no used key and no revoked key. *)
Lemma load_activation_row_used state row k :
  k ∈ sheets.ActivationState.used_keys state →
  k ∈ sheets.ActivationState.used_keys (sheets.load_activation_row state row).
Proof.
  intros Hk. unfold sheets.load_activation_row.
  repeat case_match; cbn [sheets.ActivationState.used_keys]; set_solver.
Qed.

Lemma load_validation_row_revoked py_int state row k :
  k ∈ sheets.ValidationKeyState.revoked_keys state →
  k ∈ sheets.ValidationKeyState.revoked_keys (sheets.load_validation_row py_int state row).
Proof.
  intros Hk. unfold sheets.load_validation_row.
  repeat case_match; cbn [sheets.ValidationKeyState.revoked_keys]; set_solver.
Qed.

(** The validation key of an activation row is read as used. *)
Lemma load_activation_state_used rows row :
  row ∈ rows → (2 ≤ length row)%nat → sheets.cell row 6 ≠ "" →
  sheets.cell row 6 ∈ sheets.ActivationState.used_keys (sheets.load_activation_state rows).
Proof.
  intros Hin Hlen Hkey.
  induction rows as [|last rows IH] using rev_ind; [by apply elem_of_nil in Hin|].
  rewrite load_activation_state_snoc.
  apply elem_of_app in Hin as [Hin | Hin].
  - by apply load_activation_row_used, IH.
  - apply list_elem_of_singleton in Hin as <-.
    unfold sheets.load_activation_row.
    destruct (length row <? 2)%nat eqn:E; [apply Nat.ltb_lt in E; lia|].
    destruct (sheets.cell row 6) as [|c key] eqn:Ecell; [done|].
    cbn [Py.truthy].
    repeat case_match; cbn [sheets.ActivationState.used_keys]; set_solver.
Qed.

(** A validation key marked revoked in its row is read as revoked. *)
Lemma load_validation_keys_revoked py_int rows row :
  row ∈ rows → (3 < length row)%nat →
  sheets.cell row 0 ≠ "" → sheets.cell row 1 ≠ "" →
  Py.lower (sheets.cell row 3) = "true" →
  sheets.cell row 0
  ∈ sheets.ValidationKeyState.revoked_keys (sheets.load_validation_keys py_int rows).
Proof.
  intros Hin Hlen Hkey Hteam Hmark.
  induction rows as [|last rows IH] using rev_ind; [by apply elem_of_nil in Hin|].
  rewrite load_validation_keys_snoc.
  apply elem_of_app in Hin as [Hin | Hin].
  - by apply load_validation_row_revoked, IH.
  - apply list_elem_of_singleton in Hin as <-.
    unfold sheets.load_validation_row.
    destruct (length row <? 2)%nat eqn:E; [apply Nat.ltb_lt in E; lia|].
    destruct (sheets.cell row 0) as [|c key] eqn:Ekey; [done|].
    destruct (sheets.cell row 1) as [|c' team] eqn:Eteam; [done|].
    cbn [Py.truthy negb orb].
    destruct (3 <? length row)%nat eqn:E3; [|apply Nat.ltb_ge in E3; lia].
    rewrite Hmark. cbn [andb String.eqb sheets.ValidationKeyState.revoked_keys].
    change ("true" =? "true")%string with true. cbv iota. set_solver.
Qed.

Lemma startup_refuses_used
    (py_int : string → option Z) (activation_rows validation_rows dedupe_rows : list (list string))
    (config : AuthConfig) (now : Z) (row : list string) :
  row ∈ activation_rows → (2 ≤ length row)%nat →
  ∀ key, sheets.cell row 6 = key → key ≠ "" →
  let st := boot.startup py_int true activation_rows validation_rows dedupe_rows config in
  validate_activation_key now (auth_config st) key
  = ((None, Some "validation key already used"), auth_config st).
Proof.
  intros Hin Hlen key <- Hne. cbv zeta. unfold boot.startup. cbn [auth_config].
  unfold validate_activation_key. cbn [used_keys].
  rewrite decide_True; [done|].
  apply elem_of_union_l. by apply load_activation_state_used.
Qed.

(** A key that the environment or the sheets mark as used or revoked is
    refused after start-up.  With the writer enabled, the key in the
    seventh cell of any activation row of two cells or more, and any key
    in the used set of the environment, is answered "validation key
    already used"; the key of a validation row whose fourth cell reads
    [true] in any case, and any key in the revoked set of the
    environment, is answered as used or as revoked.  The tables stay as
    they are. *)
Theorem refusals_survive_restart
    (py_int : string → option Z) (activation_rows validation_rows dedupe_rows : list (list string))
    (config : AuthConfig) (now : Z) (key : string) :
  let st := boot.startup py_int true activation_rows validation_rows dedupe_rows config in
  ((∃ row, row ∈ activation_rows ∧ (2 ≤ length row)%nat ∧ sheets.cell row 6 = key ∧ key ≠ "")
   ∨ key ∈ used_keys config →
   validate_activation_key now (auth_config st) key
   = ((None, Some "validation key already used"), auth_config st)) ∧
  ((∃ row, row ∈ validation_rows ∧ (3 < length row)%nat ∧ sheets.cell row 0 = key ∧
           key ≠ "" ∧ sheets.cell row 1 ≠ "" ∧ Py.lower (sheets.cell row 3) = "true")
   ∨ key ∈ revoked_keys config →
   ∃ message,
     validate_activation_key now (auth_config st) key = ((None, Some message), auth_config st) ∧
     (message = "validation key already used" ∨ message = "validation key revoked")).
Proof.
  cbv zeta. split.
  - intros [(row & Hin & Hlen & Hcell & Hne) | Hused];
      [by apply (startup_refuses_used _ _ _ _ _ _ row)|].
    unfold boot.startup. cbn [auth_config].
    unfold validate_activation_key. cbn [used_keys].
    rewrite decide_True; [done | set_solver].
  - unfold boot.startup. cbn [auth_config]. intros Hrevoked. unfold validate_activation_key. cbn [used_keys revoked_keys].
    destruct (decide (key ∈ _)); [by eexists; split; [reflexivity | left]|].
    rewrite decide_True; [by eexists; split; [reflexivity | right]|].
    destruct Hrevoked as [(row & Hin & Hlen & <- & Hne & Hteam & Hmark) | Hrevoked];
      [|set_solver].
    apply elem_of_union_l. by apply load_validation_keys_revoked.
Qed.

Lemma refusals_survive_restart_witness :
  let st := boot.startup fixtures.digits_only true
              [["kc_abc"; "KC"; "activation"; "true"; "2026-01-07"; ""; "IONIA-TEST-KEY"]]
              [["IONIA-OLD-KEY"; "KC"; ""; "TRUE"]] [] fixtures.config_fixture in
  validate_activation_key 0 (auth_config st) "IONIA-TEST-KEY"
  = ((None, Some "validation key already used"), auth_config st) ∧
  ∃ message,
    validate_activation_key 0 (auth_config st) "IONIA-OLD-KEY"
    = ((None, Some message), auth_config st) ∧
    (message = "validation key already used" ∨ message = "validation key revoked").
Proof.
  split.
  - apply (proj1 (refusals_survive_restart fixtures.digits_only
                    [["kc_abc"; "KC"; "activation"; "true"; "2026-01-07"; ""; "IONIA-TEST-KEY"]]
                    [["IONIA-OLD-KEY"; "KC"; ""; "TRUE"]] [] fixtures.config_fixture 0
                    "IONIA-TEST-KEY")).
    left. eexists. split_and!; [apply list_elem_of_singleton; reflexivity | simpl; lia
                               | reflexivity | discriminate].
  - apply (proj2 (refusals_survive_restart fixtures.digits_only
                    [["kc_abc"; "KC"; "activation"; "true"; "2026-01-07"; ""; "IONIA-TEST-KEY"]]
                    [["IONIA-OLD-KEY"; "KC"; ""; "TRUE"]] [] fixtures.config_fixture 0
                    "IONIA-OLD-KEY")).
    left. eexists. split_and!; [apply list_elem_of_singleton; reflexivity | simpl; lia
                               | reflexivity | discriminate | discriminate | reflexivity].
Defined.

(** An activation that is answered with a token has asked the adapter for
    one row, and a start-up that reads this row last restores what the
    activation did: the token resolves to the team, and the validation
    key, unless it is the empty text, is answered "validation key already
    used".  The label and the revocation date of the row play no part. *)
Theorem activation_survives_restart
    (sw : SheetsWriter) (env : Env) (s : AppState) (payload : ActivationRequest.t)
    (bearer team : string) :
  response (activate sw env s payload) = ActivationResponse bearer team →
  let key := ActivationRequest.validation_key payload in
  calls (activate sw env s payload)
  = [AppendActivationRow bearer team "activation" true (now_iso env) "" key] ∧
  ∀ py_int rows validation_rows dedupe_rows config now label created_at revoked_at,
    let st := boot.startup py_int true
                (rows ++ [sheets.activation_row bearer team label true created_at revoked_at key])
                validation_rows dedupe_rows config in
    resolve_team_id (auth_config st) bearer = Some team ∧
    (key ≠ "" →
     validate_activation_key now (auth_config st) key
     = ((None, Some "validation key already used"), auth_config st)).
Proof.
  intros Hresp. cbv zeta.
  assert (Hfacts : calls (activate sw env s payload)
                   = [AppendActivationRow bearer team "activation" true (now_iso env) ""
                        (ActivationRequest.validation_key payload)]
                   ∧ Py.truthy bearer = true ∧ Py.truthy team = true).
  { revert Hresp. unfold activate.
    destruct (validate_activation_key _ _ _) as [[[team'|] e] config1]; [|done].
    destruct (Py.truthy team') eqn:Hteam; cbn [negb]; [|done].
    unfold issue_bearer_for_team.
    destruct (_find_existing_bearer (api_keys config1) team') as [b|] eqn:Hfind.
    - destruct (Py.truthy_opt (Some b)) eqn:Hb.
      + cbn [default]. case_match; [done|]. cbn. intros [= -> ->]. done.
      + case_match; [done|]. cbn. intros [= <- ->].
        split_and!; [done | apply minted_truthy | done].
    - cbn [Py.truthy_opt]. case_match; [done|]. cbn. intros [= <- ->].
      split_and!; [done | apply minted_truthy | done]. }
  destruct Hfacts as (Hcalls & Hbearer & Hteam). split; [exact Hcalls|].
  intros py_int rows validation_rows dedupe_rows config now label created_at revoked_at.
  set (key := ActivationRequest.validation_key payload).
  split.
  - unfold boot.startup, resolve_team_id. cbn [auth_config api_keys].
    rewrite dict_update_get by apply load_activation_state_nodup.
    rewrite load_activation_state_snoc.
    assert (Hget : Py.dict_get
                     (sheets.ActivationState.api_keys
                        (sheets.load_activation_row (sheets.load_activation_state rows)
                           (sheets.activation_row bearer team label true created_at
                              revoked_at key))) bearer = Some team).
    { unfold sheets.load_activation_row, sheets.activation_row.
      unfold sheets.cell. simpl.
      rewrite Hbearer, Hteam. cbn [andb].
      repeat case_match; cbn [sheets.ActivationState.api_keys]; apply dict_get_set_eq. }
    by rewrite Hget.
  - intros Hkey.
    apply (startup_refuses_used _ _ _ _ _ _
             (sheets.activation_row bearer team label true created_at revoked_at key));
      [|simpl; lia|reflexivity|exact Hkey].
    apply elem_of_app. right. by apply list_elem_of_singleton.
Qed.

Lemma activation_survives_restart_witness :
  let o := activate sample.writer_ok sample.env0 (initial fixtures.config_fixture)
             fixtures.activation_payload in
  ∃ bearer,
    response o = ActivationResponse bearer "KC" ∧
    resolve_team_id
      (auth_config (boot.startup fixtures.digits_only true
                      ([] ++ [sheets.activation_row bearer "KC" "activation" true
                                (now_iso sample.env0) "" "IONIA-TEST-KEY"])
                      [] [] fixtures.config_fixture)) bearer = Some "KC".
Proof.
  eexists. split; [reflexivity|].
  refine (proj1 (proj2 (activation_survives_restart sample.writer_ok sample.env0
                          (initial fixtures.config_fixture) fixtures.activation_payload
                          _ "KC" _)
                   fixtures.digits_only [] [] [] fixtures.config_fixture 0
                   "activation" (now_iso sample.env0) "")).
  reflexivity.
Defined.

(** A guarded event that is acknowledged while the writer is enabled ends
    its adapter calls with the dedupe row of its key.  After a start-up
    that reads a dedupe row with that key in its first cell, the same
    event of the same team is refused without an adapter call or a state
    change: [stream_ready] with 409 "duplicate event", and [game_start]
    and [game_finished] with 400 "no active game for team", because no
    session is read back. *)
Theorem dedupe_survives_restart (team_id : string) (ev : GuardedEvent) :
  (∀ sw env s,
     response (submit sw env s team_id ev) = Ack "ok" → enabled sw = true →
     last (calls (submit sw env s team_id ev))
     = Some (AppendDedupeRow (key_of team_id ev) (now_iso env))) ∧
  (∀ py_int activation_rows validation_rows dedupe_rows config row sw env,
     row ∈ dedupe_rows → row !! 0%nat = Some (key_of team_id ev) →
     let st := boot.startup py_int true activation_rows validation_rows dedupe_rows config in
     submit sw env st team_id ev
     = mkOutcome (match ev with
                  | StreamReady _ => JSONError 409 "duplicate event"
                  | _ => JSONError 400 "no active game for team"
                  end) st []).
Proof.
  split.
  - intros sw env s.
    destruct ev as [p|p|p]; unfold submit, key_of; guarded_cases; intros;
      simplify_eq; try done; by rewrite ?last_snoc.
  - intros py_int activation_rows validation_rows dedupe_rows config row sw env Hin Hkey.
    cbv zeta. rewrite submit_seen.
    + unfold reaches_dedupe, session_matches, boot.startup. cbn [draft_cache].
      rewrite lookup_empty. by destruct ev.
    + unfold boot.startup. cbn [event_dedupe].
      apply elem_of_list_to_set. unfold sheets.load_dedupe_keys.
      apply list_elem_of_omap. by exists row.
Qed.

Lemma dedupe_survives_restart_witness :
  let ev := StreamReady sample.stream_payload in
  let o := submit sample.writer_ok sample.env0 sample.state_idle "KC" ev in
  last (calls o) = Some (AppendDedupeRow (key_of "KC" ev) (now_iso sample.env0)) ∧
  response
    (submit sample.writer_ok sample.env0
       (boot.startup fixtures.digits_only true [] []
          [sheets.dedupe_row (key_of "KC" ev) (now_iso sample.env0)] sample.config_active)
       "KC" ev)
  = JSONError 409 "duplicate event".
Proof.
  split.
  - apply (proj1 (dedupe_survives_restart "KC" (StreamReady sample.stream_payload)));
      reflexivity.
  - rewrite (proj2 (dedupe_survives_restart "KC" (StreamReady sample.stream_payload))
               fixtures.digits_only [] [] _ sample.config_active
               (sheets.dedupe_row (key_of "KC" (StreamReady sample.stream_payload))
                  (now_iso sample.env0))
               sample.writer_ok sample.env0);
      [reflexivity | apply list_elem_of_singleton; reflexivity | reflexivity].
Defined.

Lemma load_validation_row_last py_int state (row : list string) :
  (2 ≤ length row)%nat → sheets.cell row 0 ≠ "" → sheets.cell row 1 ≠ "" →
  let state' := sheets.load_validation_row py_int state row in
  sheets.ValidationKeyState.validation_keys state' !! sheets.cell row 0
  = Some (sheets.cell row 1) ∧
  ∀ e, sheets.cell row 2 ≠ "" → py_int (sheets.cell row 2) = Some e →
       sheets.ValidationKeyState.validation_key_expires state' !! sheets.cell row 0 = Some e.
Proof.
  intros Hlen Hkey Hteam. cbv zeta. unfold sheets.load_validation_row.
  destruct (length row <? 2)%nat eqn:E; [apply Nat.ltb_lt in E; lia|].
  destruct (sheets.cell row 0) as [|c key] eqn:Ekey; [done|].
  destruct (sheets.cell row 1) as [|c' team] eqn:Eteam; [done|].
  cbn [Py.truthy negb orb sheets.ValidationKeyState.validation_keys
       sheets.ValidationKeyState.validation_key_expires].
  split; [by rewrite lookup_insert_eq|].
  intros e Hcell Hint.
  destruct (2 <? length row)%nat eqn:E2.
  - destruct (sheets.cell row 2) as [|c2 text] eqn:Ecell; [done|].
    cbn [Py.truthy andb]. rewrite Hint. by rewrite lookup_insert_eq.
  - exfalso. apply Hcell. unfold sheets.cell.
    apply Nat.ltb_ge in E2. by rewrite lookup_ge_None_2.
Qed.

(** The last row of the validation sheet decides its key.  With the
    writer enabled and a last row of two cells or more whose first two
    are not empty, the key of the row is mapped to the team of the row
    after start-up, whatever the environment and the rows before say.
    When the third cell is not empty and reads as the number [e], and the
    key is neither used nor revoked after start-up, the key is answered
    "validation key expired" from second [e] on, and before that it
    activates the team of the row and is consumed. *)
Theorem last_validation_row_decides
    (py_int : string → option Z) (activation_rows rows dedupe_rows : list (list string))
    (config : AuthConfig) (row : list string) :
  (2 ≤ length row)%nat → sheets.cell row 0 ≠ "" → sheets.cell row 1 ≠ "" →
  let key := sheets.cell row 0 in
  let st := boot.startup py_int true activation_rows (rows ++ [row]) dedupe_rows config in
  validation_keys (auth_config st) !! key = Some (sheets.cell row 1) ∧
  ∀ e now,
    sheets.cell row 2 ≠ "" → py_int (sheets.cell row 2) = Some e →
    key ∉ used_keys (auth_config st) → key ∉ revoked_keys (auth_config st) →
    validate_activation_key now (auth_config st) key
    = if now >=? e
      then ((None, Some "validation key expired"), auth_config st)
      else ((Some (sheets.cell row 1), None), consume_key (auth_config st) key).
Proof.
  intros Hlen Hkey Hteam. cbv zeta.
  destruct (load_validation_row_last py_int (sheets.load_validation_keys py_int rows)
              row Hlen Hkey Hteam) as [Hmap Hexp].
  rewrite <- load_validation_keys_snoc in Hmap, Hexp.
  assert (Hst : validation_keys
                  (auth_config (boot.startup py_int true activation_rows (rows ++ [row])
                                  dedupe_rows config)) !! sheets.cell row 0
                = Some (sheets.cell row 1)).
  { unfold boot.startup. cbn [auth_config validation_keys].
    by apply lookup_union_Some_l. }
  split; [exact Hst|].
  intros e now Hcell Hint Hused Hrevoked. unfold validate_activation_key.
  rewrite decide_False by exact Hused. rewrite decide_False by exact Hrevoked.
  rewrite Hst.
  destruct (sheets.cell row 1) as [|c team]; [done|]. cbn [Py.truthy_opt Py.truthy negb].
  assert (Hste : validation_key_expires
                   (auth_config (boot.startup py_int true activation_rows (rows ++ [row])
                                   dedupe_rows config)) !! sheets.cell row 0 = Some e).
  { unfold boot.startup. cbn [auth_config validation_key_expires].
    apply lookup_union_Some_l. by apply Hexp. }
  rewrite Hste. reflexivity.
Qed.

Lemma last_validation_row_decides_witness :
  let st := boot.startup fixtures.digits_only true []
              ([["IONIA-TEST-KEY"; "T1"]] ++ [["IONIA-TEST-KEY"; "G2"; "1767830400"]]) []
              fixtures.config_fixture in
  validate_activation_key 1767830399 (auth_config st) "IONIA-TEST-KEY"
  = ((Some "G2", None), consume_key (auth_config st) "IONIA-TEST-KEY").
Proof.
  cbv zeta.
  refine (proj2 (last_validation_row_decides fixtures.digits_only [] [["IONIA-TEST-KEY"; "T1"]]
                   [] fixtures.config_fixture ["IONIA-TEST-KEY"; "G2"; "1767830400"] _ _ _)
            1767830400 1767830399 _ _ _ _).
  - simpl. lia.
  - discriminate.
  - discriminate.
  - discriminate.
  - reflexivity.
  - apply (bool_decide_unpack _). vm_compute. reflexivity.
  - apply (bool_decide_unpack _). vm_compute. reflexivity.
Defined.

End Restart.
